(** * itee-hub: record store, link parser, change detector, downloader
      and delivery tracker

    A shallow embedding of [itee_hub/utils.py], [itee_hub/db_handler.py]
    and [itee_hub/telegram_bot.py].

    Conventions of the embedding

    - A Python [str] is a Rocq [string]: a sequence of the 256 characters
      of [ascii], read as the code points 0..255.  On that range the
      regular-expression class [\d] is exactly ['0'..'9'] and
      [re.IGNORECASE] pairs the letters used by the patterns of this
      program only with their ASCII counterpart.
    - A regular expression is a backtracking matcher: a function from the
      text at the current position to the list of its successes, in the
      order in which Python's engine tries them.  [re.search] takes the
      first success at the leftmost position that has one.
    - The SQLite tables are lists of rows in insertion order.  Every column
      of both tables is declared [TEXT], so a stored cell is NULL or a
      text, an integer bound to a parameter is stored and compared as its
      decimal text, and SQL conditions are three-valued.
    - The network, the file system, the Telegram client and the library
      functions whose code is not part of the repository are parameters.
*)

From Stdlib Require Import ZArith Ascii String List Bool Lia.
From Stdlib Require Import DecimalString DecimalZ Sorted Permutation.
From stdpp Require Import base option list strings gmap.

Set Default Proof Using "Type".
Local Open Scope string_scope.
Local Open Scope list_scope.

(* ================================================================== *)
(** * Regular expressions as backtracking matchers *)
(* ================================================================== *)

Module Re.

(** A matcher maps the text at the current position to its successes
    (value, remaining text), most preferred first. *)
Definition matcher (A : Type) : Type := string -> list (A * string).

Definition ret {A} (a : A) : matcher A := fun s => [(a, s)].

Definition bind {A B} (m : matcher A) (f : A -> matcher B) : matcher B :=
  fun s => flat_map (fun ar => f (fst ar) (snd ar)) (m s).

Notation "'let*' x ':=' m 'in' k" := (bind m (fun x => k))
  (at level 10, x name, m at level 100, k at level 200).

(** [p|q]: the successes of [p] before those of [q]. *)
Definition alt {A} (p q : matcher A) : matcher A := fun s => p s ++ q s.

(** [(p)?], greedy: with [p] first, then without. *)
Definition opt {A} (p : matcher A) : matcher (option A) :=
  fun s => map (fun ar => (Some (fst ar), snd ar)) (p s) ++ [(None, s)].

(** One character of a class. *)
Definition char (cls : ascii -> bool) : matcher ascii :=
  fun s => match s with
           | String c r => if cls c then [(c, r)] else []
           | EmptyString => []
           end.

(** [cls{n}]: exactly [n] characters of a class; the value is the text
    matched. *)
Fixpoint count (n : nat) (cls : ascii -> bool) : matcher string :=
  match n with
  | O => ret ""
  | S k => let* c := char cls in let* r := count k cls in ret (String c r)
  end.

(** [cls+], greedy: the longest run first, then every shorter non-empty
    prefix of it. *)
Fixpoint plus (cls : ascii -> bool) (s : string) : list (string * string) :=
  match s with
  | String c r =>
      if cls c
      then map (fun mr => (String c (fst mr), snd mr)) (plus cls r) ++ [(String c "", r)]
      else []
  | EmptyString => []
  end.

(** A literal; [eqc] compares a pattern character with a text character
    ([Ascii.eqb], or [ci_eqb] under [re.IGNORECASE]).  The value is the
    text matched. *)
Fixpoint lit (eqc : ascii -> ascii -> bool) (l : string) : matcher string :=
  match l with
  | EmptyString => ret ""
  | String a l' =>
      let* c := char (eqc a) in let* r := lit eqc l' in ret (String c r)
  end.

(** [re.search]: the first success at the leftmost position. *)
Fixpoint search {A} (m : matcher A) (text : string) : option A :=
  match m text with
  | (a, _) :: _ => Some a
  | [] => match text with
          | String _ t => search m t
          | EmptyString => None
          end
  end.

(** [re.findall]: the successive non-overlapping matches, left to right.
    [skip] counts the characters of the last match still to be passed; a
    match that consumed nothing moves on by one character. *)
Fixpoint findall_from {A} (m : matcher A) (skip : nat) (text : string) : list A :=
  match skip with
  | S k => match text with
           | String _ t => findall_from m k t
           | EmptyString => []
           end
  | O =>
      match m text with
      | (a, rest) :: _ =>
          a :: match text with
               | String _ t =>
                   findall_from m (String.length text - String.length rest - 1) t
               | EmptyString => []
               end
      | [] => match text with
              | String _ t => findall_from m 0 t
              | EmptyString => []
              end
      end
  end.

Definition findall {A} (m : matcher A) (text : string) : list A :=
  findall_from m 0 text.

(** Character classes. *)
Definition is_digit (c : ascii) : bool :=
  ((48 <=? N_of_ascii c) && (N_of_ascii c <=? 57))%N.

Definition is_upper (c : ascii) : bool :=
  ((65 <=? N_of_ascii c) && (N_of_ascii c <=? 90))%N.

Definition ascii_lower (c : ascii) : ascii :=
  if is_upper c then ascii_of_N (N_of_ascii c + 32) else c.

(** Equality of a pattern letter and a text character under
    [re.IGNORECASE]. *)
Definition ci_eqb (a c : ascii) : bool :=
  Ascii.eqb (ascii_lower a) (ascii_lower c).

Definition not_slash (c : ascii) : bool := negb (Ascii.eqb c "/"%char).

End Re.

Import Re.

(* ================================================================== *)
(** * Python values and helpers *)
(* ================================================================== *)

(** [needle in hay] on strings. *)
Fixpoint str_in (needle hay : string) : bool :=
  String.prefix needle hay ||
  match hay with
  | String _ t => str_in needle t
  | EmptyString => false
  end.

(** [str.lower()] on the code points 0..255: the ASCII capitals and the
    capitals 0xC0..0xDE other than the multiplication sign 0xD7 move up by
    32. *)
Definition py_lower_char (c : ascii) : ascii :=
  let n := N_of_ascii c in
  if (((65 <=? n) && (n <=? 90)) || ((192 <=? n) && (n <=? 222) && negb (n =? 215)))%N
  then ascii_of_N (n + 32) else c.

Fixpoint py_lower (s : string) : string :=
  match s with
  | EmptyString => EmptyString
  | String c r => String (py_lower_char c) (py_lower r)
  end.

(** Truth value of an optional string ([None] and [''] are false). *)
Definition truthy (o : option string) : bool :=
  match o with
  | Some (String _ _) => true
  | _ => false
  end.

(** Exceptions the modelled code can raise. *)
Inductive exn : Type :=
  | KeyError (key : string)
  | TypeError
  | ValueError
  | AttributeError
  | OverflowError
  | ConnectionError
  | HTTPError
  | OSError
  | TelegramBadRequest
  | TelegramAPIError.

Inductive result (A : Type) : Type :=
  | Returns (a : A)
  | Raises (e : exn).
Arguments Returns {A} a.
Arguments Raises {A} e.

(** The result is an exception. *)
Definition raises {A} (r : result A) : Prop := exists e, r = Raises e.

(** Lines written through [LOGGER], with their arguments. *)
Inductive log_entry : Type :=
  | WarnNoQuestionType (link : string)
  | WarnNoCountry (link : string)
  | WarnNoYear (link : string)
  | WarnInvalidFolderType (ty : string)
  | InfoNoFilePath (link : string)
  | InfoAlreadyDownloadedSkipping (file_name : string)
  | InfoAlreadyDownloadedChecking (file_name : string)
  | InfoChangesDetected (file_name : string)
  | InfoNoChangesDetected (file_name : string)
  | InfoDownloaded (file_name : string)
  | InfoNoPendingFiles
  | InfoFoundPendingFiles (n : nat)
  | InfoSent (chat_id file_name : string)
  | InfoFailedToSend (chat_id caption file_path : string).

(* ================================================================== *)
(** * Link parser ([utils.py]) *)
(* ================================================================== *)

(** [r"(\d{2})?(\d{4})"]; the value is the pair of groups as
    [re.findall] reports it, a group that took no part being ['']. *)
Definition re_year_groups : matcher (string * string) :=
  let* g1 := opt (count 2 is_digit) in
  let* g2 := count 4 is_digit in
  ret (default "" g1, g2).

(** [r"(IP|FE|AP)"]; the value is group 1. *)
Definition re_exam_code (eqc : ascii -> ascii -> bool) : matcher string :=
  alt (lit eqc "IP") (alt (lit eqc "FE") (lit eqc "AP")).

(** [r"(\d{4}|(?:(IP|FE|AP)\d{4}))"] under [re.IGNORECASE]; the value is
    group 1, the whole match. *)
Definition re_year_token : matcher string :=
  alt (count 4 is_digit)
      (let* code := re_exam_code ci_eqb in
       let* digits := count 4 is_digit in
       ret (code +:+ digits)).

(** [r"<prefix>/([^/]+)/"]; the value is group 1. *)
Definition re_path_segment (prefix : string) : matcher string :=
  let* _ := lit Ascii.eqb prefix in
  let* _ := lit Ascii.eqb "/" in
  let* seg := plus not_slash in
  let* _ := lit Ascii.eqb "/" in
  ret seg.

(** The loop [for match in patter_0: for txt in match: if len(txt) == 4:
    return txt]. *)
Fixpoint first_of_length_4 (matches : list (string * string)) : option string :=
  match matches with
  | [] => None
  | (g1, g2) :: rest =>
      if (String.length g1 =? 4)%nat then Some g1
      else if (String.length g2 =? 4)%nat then Some g2
      else first_of_length_4 rest
  end.

Definition get_year_from_txt (text : string) : option string :=
  let patter_0 := findall re_year_groups text in
  let pattern_1 := search re_year_token text in
  match (match patter_0 with
         | [] => None
         | _ :: _ => first_of_length_4 patter_0
         end) with
  | Some txt => Some txt
  | None =>
      match pattern_1 with
      | Some group_1 => Some group_1
      | None => None
      end
  end.

(** [get_info_from_link]: the dictionary built, and the warnings logged
    on the way. *)
Definition get_info_from_link (link : string) : gmap string string * list log_entry :=
  let data : gmap string string := <["link" := link]> ∅ in
  let ques_cat_pattern_0 := search (re_path_segment "pastexamqa") link in
  let ques_cat_pattern_1 := search (re_exam_code Ascii.eqb) link in
  let country := search (re_path_segment "all-passers-information") link in
  let year_text := get_year_from_txt link in
  let '(data, log) :=
    match ques_cat_pattern_0 with
    | Some group_1 =>
        (<["level" := py_lower group_1]> (<["type" := "question"]> data), [])
    | None =>
        match ques_cat_pattern_1 with
        | Some group_1 =>
            (<["level" := py_lower group_1]> (<["type" := "result"]> data), [])
        | None => (data, [WarnNoQuestionType link])
        end
    end in
  let '(data, log) :=
    match country with
    | Some group_1 => (<["country" := group_1]> data, log)
    | None =>
        if negb (str_in "pastexamqa" link)
        then (data, log ++ [WarnNoCountry link])
        else (data, log)
    end in
  if truthy year_text
  then (<["year" := default "" year_text]> data, log)
  else (data, log ++ [WarnNoYear link]).

(* ================================================================== *)
(** * The SQLite store ([db_handler.py], [telegram_bot.py]) *)
(* ================================================================== *)

Module Sqlite.

(** A value bound to a statement parameter. *)
Inductive pyval : Type :=
  | PyNone
  | PyInt (z : Z)
  | PyStr (s : string).

(** A cell of a column declared [TEXT]: NULL or a text. *)
Definition cell : Type := option string.

(** SQLite's rendering of an integer as text. *)
Definition decimal (z : Z) : string := NilZero.string_of_int (Z.to_int z).

(** TEXT affinity, applied to a value stored into a [TEXT] column and to
    a parameter compared with one: an integer becomes its decimal text.
    (The integers bound by this program are epoch seconds, inside SQLite's
    64-bit range.) *)
Definition text_affinity (v : pyval) : cell :=
  match v with
  | PyNone => None
  | PyInt z => Some (decimal z)
  | PyStr s => Some s
  end.

(** Three-valued conditions: [None] is SQL's NULL. *)
Definition sql_eq (a b : cell) : option bool :=
  match a, b with
  | Some x, Some y => Some (String.eqb x y)
  | _, _ => None
  end.

Definition sql_and (p q : option bool) : option bool :=
  match p, q with
  | Some false, _ | _, Some false => Some false
  | Some true, Some true => Some true
  | _, _ => None
  end.

Definition sql_or (p q : option bool) : option bool :=
  match p, q with
  | Some true, _ | _, Some true => Some true
  | Some false, Some false => Some false
  | _, _ => None
  end.

Definition sql_is_null (a : cell) : bool :=
  match a with
  | None => true
  | Some _ => false
  end.

(** A row passes [WHERE] or [ON] when the condition is true (neither false
    nor NULL). *)
Definition holds (p : option bool) : bool :=
  match p with
  | Some true => true
  | _ => false
  end.

(** [ORDER BY ... ASC] on a [TEXT] column: NULL first, texts in byte
    order. *)
Definition cell_leb (a b : cell) : bool :=
  match a, b with
  | None, _ => true
  | Some _, None => false
  | Some x, Some y => String.leb x y
  end.

(** The order of [ORDER BY key ASC] on rows. *)
Definition key_le {A} (key : A -> cell) (a b : A) : Prop :=
  cell_leb (key a) (key b) = true.

Fixpoint insert_by {A} (key : A -> cell) (x : A) (l : list A) : list A :=
  match l with
  | [] => [x]
  | y :: l' => if cell_leb (key x) (key y) then x :: l else y :: insert_by key x l'
  end.

Definition order_by {A} (key : A -> cell) (l : list A) : list A :=
  foldr (insert_by key) [] l.

(** [a LEFT JOIN b ON on]: every row of [a] with each row of [b] for which
    [on] is true, or once with NULLs when there is none. *)
Definition left_join {A B} (a : list A) (b : list B) (on : A -> B -> option bool)
  : list (A * option B) :=
  flat_map (fun x =>
              match List.filter (fun y => holds (on x y)) b with
              | [] => [(x, None)]
              | ys => map (fun y => (x, Some y)) ys
              end) a.

End Sqlite.

Import Sqlite.

(** Table [files(link TEXT, last_modified TEXT, md5 TEXT, year_month TEXT)];
    also the tuple [fetchall] returns for one of its rows. *)
Record file_row : Type := FileRow {
  f_link : cell;
  f_last_modified : cell;
  f_md5 : cell;
  f_year_month : cell
}.

(** Table [telegram_msgs(chat_id TEXT, md5 TEXT)]. *)
Record msg_row : Type := MsgRow {
  m_chat_id : cell;
  m_md5 : cell
}.

Record database : Type := Database {
  files : list file_row;
  telegram_msgs : list msg_row
}.

Definition empty_db : database := Database [] [].

(** What a call returns to Python code that inspects it. *)
Inductive pyobj : Type :=
  | ObjNone
  | ObjBool (b : bool)
  | ObjRows (rows : list file_row).

(** [x is True]. *)
Definition py_is_True (x : pyobj) : bool :=
  match x with
  | ObjBool true => true
  | _ => false
  end.

Module DBHandler.

Definition add_file (db : database) (link last_modified year_month md5 : pyval)
  : database :=
  Database
    (files db ++ [FileRow (text_affinity link) (text_affinity last_modified)
                          (text_affinity md5) (text_affinity year_month)])
    (telegram_msgs db).

(** [WHERE (link == :link) AND (md5 == :md5 OR last_modified == :last_modified)] *)
Definition get_file_where (link last_modified md5 : pyval) (r : file_row) : option bool :=
  sql_and (sql_eq (f_link r) (text_affinity link))
          (sql_or (sql_eq (f_md5 r) (text_affinity md5))
                  (sql_eq (f_last_modified r) (text_affinity last_modified))).

Definition get_file (db : database) (link last_modified md5 : pyval) : pyobj :=
  let result := List.filter (fun r => holds (get_file_where link last_modified md5 r))
                            (files db) in
  match result with
  | [] => ObjNone
  | _ :: _ => ObjRows result
  end.

End DBHandler.

(* ================================================================== *)
(** * The outside world *)
(* ================================================================== *)

Inductive http_method : Type := HEAD | GET.

Record response : Type := Response {
  status_ok : bool;                      (* [raise_for_status] passes *)
  last_modified_header : option string;  (* [headers.get("last-modified")] *)
  content : string
}.

(** The collaborators of the program: the file system ([pathlib]), the
    HTTP client ([requests]), the Telegram client ([aiogram]) and the
    library functions used on the way.  The [nat] given to the two clients
    is the number of calls made to them before, so that the same request
    may be answered differently from one call to the next. *)
Class Platform : Type := {
  FS : Type;
  path_exists : FS -> string -> bool;
  mkdir_parents : string -> FS -> result FS;
  write_bytes : string -> string -> FS -> result FS;
  data_dir : string;
  path_join : string -> string -> string;
  path_name : string -> string;
  url_path : string -> string;
  http_request : nat -> http_method -> string -> result response;
  parsedate_timestamp : string -> result Z;
  md5_hexdigest : string -> string;
  py_int : string -> result Z;
  utc_datetime_str : Z -> result string;
  str_upper : string -> string;
  str_capitalize : string -> string;
  send_document : nat -> string -> string -> string -> result unit
}.

(** The state a run reads and writes: the files on disk, the database,
    the requests and the sends issued so far, the log, and the seconds
    slept. *)
Record world `{Platform} : Type := World {
  w_fs : FS;
  w_db : database;
  w_requests : list (http_method * string);
  w_sends : list (string * string * string);
  w_log : list log_entry;
  w_slept : nat
}.
Arguments World {_} _ _ _ _ _ _.

(** Stateful code that may raise: the state reached is kept either way. *)
Definition action `{Platform} (A : Type) : Type := world -> result A * world.

Definition act_ret `{Platform} {A} (a : A) : action A := fun w => (Returns a, w).

Definition act_raise `{Platform} {A} (e : exn) : action A := fun w => (Raises e, w).

Definition act_bind `{Platform} {A B} (m : action A) (f : A -> action B) : action B :=
  fun w => match m w with
           | (Returns a, w') => f a w'
           | (Raises e, w') => (Raises e, w')
           end.

Notation "x <- m ;; k" := (act_bind m (fun x => k))
  (at level 20, m at level 99, k at level 200, only parsing).
Notation "m ;; k" := (act_bind m (fun _ => k))
  (at level 100, k at level 200, only parsing, right associativity).

Definition act_lift `{Platform} {A} (r : result A) : action A := fun w => (r, w).

(** The world with more lines in the log. *)
Definition add_log `{Platform} (w : world) (es : list log_entry) : world :=
  World (w_fs w) (w_db w) (w_requests w) (w_sends w) (w_log w ++ es) (w_slept w).

Definition log `{Platform} (e : log_entry) : action unit :=
  fun w => (Returns tt, add_log w [e]).

Definition log_all `{Platform} (es : list log_entry) : action unit :=
  fun w => (Returns tt, add_log w es).

(** An action that only reads the file system and only writes the log:
    in all the worlds with the same files on disk it has the same result
    and logs the same lines. *)
Definition quiet `{Platform} {A} (m : action A) : Prop :=
  forall w, exists l,
    forall w2, w_fs w2 = w_fs w -> m w2 = (fst (m w), add_log w2 l).

Definition sleep `{Platform} (seconds : nat) : action unit :=
  fun w => (Returns tt,
            World (w_fs w) (w_db w) (w_requests w) (w_sends w) (w_log w)
                  (w_slept w + seconds)).

Definition read_db `{Platform} : action database := fun w => (Returns (w_db w), w).

Definition write_db `{Platform} (db : database) : action unit :=
  fun w => (Returns tt,
            World (w_fs w) db (w_requests w) (w_sends w) (w_log w) (w_slept w)).

Definition exists_on_disk `{Platform} (path : string) : action bool :=
  fun w => (Returns (path_exists (w_fs w) path), w).

(** A file-system operation: the new file system on success. *)
Definition on_fs `{Platform} (op : FS -> result FS) : action unit :=
  fun w => match op (w_fs w) with
           | Returns fs' =>
               (Returns tt,
                World fs' (w_db w) (w_requests w) (w_sends w) (w_log w) (w_slept w))
           | Raises e => (Raises e, w)
           end.

(** [requests.head] and [requests.get]: the request is issued, then
    answered or failed. *)
Definition request `{Platform} (method : http_method) (link : string) : action response :=
  fun w => (http_request (length (w_requests w)) method link,
            World (w_fs w) (w_db w) (w_requests w ++ [(method, link)]) (w_sends w)
                  (w_log w) (w_slept w)).

Definition raise_for_status `{Platform} (resp : response) : action unit :=
  if status_ok resp then act_ret tt else act_raise HTTPError.

(** [int(parsedate_to_datetime(resp.headers.get("last-modified")).timestamp())] *)
Definition last_modified_of `{Platform} (resp : response) : action Z :=
  match last_modified_header resp with
  | None => act_raise TypeError
  | Some h => act_lift (parsedate_timestamp h)
  end.

(** [data[key]] on a dictionary. *)
Definition item `{Platform} (data : gmap string string) (key : string) : action string :=
  match data !! key with
  | Some v => act_ret v
  | None => act_raise (KeyError key)
  end.

(* ================================================================== *)
(** * Local paths, change detector and downloader ([utils.py]) *)
(* ================================================================== *)

Definition get_file_path_from_link_info `{Platform} (data : gmap string string)
  : action (option string) :=
  link <- item data "link" ;;
  let file_name := path_name (url_path link) in
  path_prefix <- item data "year" ;;
  ty <- item data "type" ;;
  path_prefix <-
    (if String.eqb ty "result" then
       country <- item data "country" ;;
       act_ret (path_prefix +:+ "/results/" +:+ country +:+ "_" +:+ file_name)
     else if String.eqb ty "question" then
       act_ret (path_prefix +:+ "/questions/" +:+ file_name)
     else
       log (WarnInvalidFolderType ty) ;;
       act_ret path_prefix) ;;
  let file_path := path_join data_dir path_prefix in
  found <- exists_on_disk file_path ;;
  if found then act_ret (Some file_path)
  else
    log (InfoNoFilePath link) ;;
    act_ret None.

Definition is_file_changed `{Platform} (link : string) : action bool :=
  resp <- request HEAD link ;;
  raise_for_status resp ;;
  last_modified <- last_modified_of resp ;;
  db <- read_db ;;
  act_ret (py_is_True (DBHandler.get_file db (PyStr link) (PyInt last_modified) (PyStr ""))).

(** The name of the local file of [download]; [file_name_suffix] is
    [None] when the argument is left out. *)
Definition local_file_name `{Platform} (link : string) (file_name_suffix : option string)
  : string :=
  let file_name := path_name (url_path link) in
  if truthy file_name_suffix
  then default "" file_name_suffix +:+ "_" +:+ file_name
  else file_name.

Definition download `{Platform} (path_suffix link year_month : string)
    (file_name_suffix : option string) (refresh_file : bool) : action unit :=
  let file_name := local_file_name link file_name_suffix in
  let file_path := path_join data_dir path_suffix in
  on_fs (mkdir_parents file_path) ;;
  let file_path := path_join file_path file_name in
  found <- exists_on_disk file_path ;;
  fetch <-
    (if found then
       if negb refresh_file then
         log (InfoAlreadyDownloadedSkipping file_name) ;;
         act_ret false
       else
         log (InfoAlreadyDownloadedChecking file_name) ;;
         changed <- is_file_changed link ;;
         if changed then
           log (InfoChangesDetected file_name) ;;
           act_ret true
         else
           log (InfoNoChangesDetected file_name) ;;
           act_ret false
     else act_ret true) ;;
  if negb fetch then act_ret tt
  else
    resp <- request GET link ;;
    raise_for_status resp ;;
    last_modified <- last_modified_of resp ;;
    let file_hash := md5_hexdigest (content resp) in
    log (InfoDownloaded file_name) ;;
    on_fs (write_bytes file_path (content resp)) ;;
    db <- read_db ;;
    write_db (DBHandler.add_file db (PyStr link) (PyInt last_modified)
                                 (PyStr year_month) (PyStr file_hash)).

(* ================================================================== *)
(** * Delivery tracker ([telegram_bot.py]) *)
(* ================================================================== *)

Module TelegramBot.

(** [ON f.md5 = msg.md5 AND msg.chat_id = :chat_id] *)
Definition pending_on (chat_id : pyval) (f : file_row) (msg : msg_row) : option bool :=
  sql_and (sql_eq (f_md5 f) (m_md5 msg))
          (sql_eq (m_chat_id msg) (text_affinity chat_id)).

(** [WHERE msg.md5 IS NULL], on a joined row: the columns of [msg] are all
    NULL when no row of [telegram_msgs] was joined. *)
Definition pending_where (fm : file_row * option msg_row) : bool :=
  match snd fm with
  | None => true
  | Some msg => sql_is_null (m_md5 msg)
  end.

Definition get_pendings (db : database) (chat_id : pyval) : list file_row :=
  let joined := left_join (files db) (telegram_msgs db) (pending_on chat_id) in
  let kept := List.filter pending_where joined in
  order_by f_last_modified (map fst kept).

Definition add_record (db : database) (chat_id md5 : pyval) : database :=
  Database (files db)
           (telegram_msgs db ++ [MsgRow (text_affinity chat_id) (text_affinity md5)]).

(** A fetched cell as a Python value. *)
Definition py_of_cell (c : cell) : pyval :=
  match c with
  | None => PyNone
  | Some s => PyStr s
  end.

(** A fetched cell inside an f-string. *)
Definition fmt_cell (c : cell) : string := default "None" c.

Definition newline : string := String (ascii_of_nat 10) "".

(** [r"(\d{4}[AS])"] under [re.IGNORECASE]; the value is group 1. *)
Definition re_exam_session : matcher string :=
  let* digits := count 4 is_digit in
  let* c := char (fun c => ci_eqb "A"%char c || ci_eqb "S"%char c) in
  ret (digits +:+ String c "").

Definition prepare_msg `{Platform} (record : file_row) : action (string * string) :=
  let link := f_link record in
  seconds <- (match f_last_modified record with
              | None => act_raise TypeError
              | Some s => act_lift (py_int s)
              end) ;;
  last_modified <- act_lift (utc_datetime_str seconds) ;;
  let year_month_text := f_year_month record in
  link <- (match link with
           | None => act_raise TypeError
           | Some l => act_ret l
           end) ;;
  let '(link_info, warnings) := get_info_from_link link in
  log_all warnings ;;
  file_path <- get_file_path_from_link_info link_info ;;
  ty <- item link_info "type" ;;
  let link_type := str_capitalize ty in
  level <- item link_info "level" ;;
  let exam_level := str_upper level in
  year <- item link_info "year" ;;
  let tags := "#" +:+ exam_level +:+ " #" +:+ exam_level +:+ "_" +:+ year in
  file_path <- (match file_path with
                | None => act_raise AttributeError
                | Some p => act_ret p
                end) ;;
  let tags :=
    match search re_exam_session (path_name file_path) with
    | Some exam_session => tags +:+ " #" +:+ exam_level +:+ "_" +:+ exam_session
    | None => tags
    end in
  let tags := tags +:+ " #" +:+ ty in
  let '(tags, msg) :=
    if truthy (link_info !! "country")
    then (tags +:+ " #" +:+ default "" (link_info !! "country"),
          link_type +:+ " of " +:+ default "" (link_info !! "country") +:+ "'s")
    else (tags, link_type +:+ " of") in
  let msg := "<a href='" +:+ link +:+ "'>" +:+ msg +:+ " " +:+ exam_level +:+ " "
             +:+ fmt_cell year_month_text +:+ "</a>" in
  let msg := msg +:+ newline +:+ "<b>last modified: </b> " +:+ last_modified in
  let msg := msg +:+ newline +:+ newline +:+ tags in
  act_ret (msg, file_path).

(** [await self.bot.send_document(...)]: the attempt is made, then
    succeeds or raises. *)
Definition send `{Platform} (chat_id caption document : string) : action unit :=
  fun w => (send_document (length (w_sends w)) chat_id caption document,
            World (w_fs w) (w_db w) (w_requests w)
                  (w_sends w ++ [(chat_id, caption, document)]) (w_log w) (w_slept w)).

(** The [try] statement of the loop body: [except TelegramBadRequest]
    handles that exception and lets every other one through. *)
Definition try_send `{Platform} (chat_id : string) (i : file_row)
    (prepared_msg : string * string) : action unit :=
  fun w =>
    match (send chat_id (fst prepared_msg) (snd prepared_msg) ;;
           db <- read_db ;;
           write_db (add_record db (PyStr chat_id) (py_of_cell (f_md5 i))) ;;
           log (InfoSent chat_id (path_name (snd prepared_msg)))) w with
    | (Raises TelegramBadRequest, w') =>
        log (InfoFailedToSend chat_id (fst prepared_msg) (snd prepared_msg)) w'
    | other => other
    end.

(** The body of [for i in pending_files], over the rest of the list. *)
Fixpoint update_loop `{Platform} (chat_id : string) (pending_files : list file_row)
  : action unit :=
  match pending_files with
  | [] => act_ret tt
  | i :: rest =>
      prepared_msg <- prepare_msg i ;;
      try_send chat_id i prepared_msg ;;
      sleep 3 ;;
      update_loop chat_id rest
  end.

Definition update `{Platform} (chat_id : string) : action unit :=
  db <- read_db ;;
  let pending_files := get_pendings db (PyStr chat_id) in
  match pending_files with
  | [] => log InfoNoPendingFiles
  | _ :: _ =>
      log (InfoFoundPendingFiles (length pending_files)) ;;
      update_loop chat_id pending_files
  end.

End TelegramBot.

(* ================================================================== *)
(** * The data model, and stores built by the program *)
(* ================================================================== *)

(** A file record as the downloader creates it. *)
Record FileRecord : Type := {
  fr_link : string;
  fr_last_modified : Z;
  fr_content_hash : string;
  fr_period_label : string
}.

(** A delivery record as the delivery tracker creates it. *)
Record DeliveryRecord : Type := {
  dr_channel_id : string;
  dr_content_hash : string
}.

Definition add_file_record (db : database) (r : FileRecord) : database :=
  DBHandler.add_file db (PyStr (fr_link r)) (PyInt (fr_last_modified r))
                     (PyStr (fr_period_label r)) (PyStr (fr_content_hash r)).

Definition add_delivery_record (db : database) (d : DeliveryRecord) : database :=
  TelegramBot.add_record db (PyStr (dr_channel_id d)) (PyStr (dr_content_hash d)).

(** The store after the downloader appended [recs] and the delivery
    tracker appended [dels], in that order (the two tables are
    independent, so how the two kinds of insertion interleave does not
    matter). *)
Definition store_of (recs : list FileRecord) (dels : list DeliveryRecord) : database :=
  fold_left add_delivery_record dels (fold_left add_file_record recs empty_db).

(** The row of [files] that holds a file record. *)
Definition row_of_file (r : FileRecord) : file_row :=
  FileRow (Some (fr_link r)) (Some (decimal (fr_last_modified r)))
          (Some (fr_content_hash r)) (Some (fr_period_label r)).

Definition row_of_delivery (d : DeliveryRecord) : msg_row :=
  MsgRow (Some (dr_channel_id d)) (Some (dr_content_hash d)).

(** The record's hash has a delivery record for the channel. *)
Definition delivered_to (dels : list DeliveryRecord) (channel : string) (r : FileRecord)
  : Prop :=
  Exists (fun d => dr_channel_id d = channel /\ dr_content_hash d = fr_content_hash r) dels.

#[global] Instance delivered_to_dec (dels : list DeliveryRecord) (channel : string)
  (r : FileRecord) : Decision (delivered_to dels channel r).
Proof. unfold delivered_to. apply _. Defined.

(** The text contains [n] digits in a row. *)
Definition all_digits (s : string) : Prop :=
  Forall (fun c => is_digit c = true) (list_ascii_of_string s).

Definition has_digit_run (n : nat) (text : string) : Prop :=
  exists pre run post,
    text = pre +:+ run +:+ post /\ String.length run = n /\ all_digits run.

(** The text contains [needle]. *)
Definition contains (needle text : string) : Prop :=
  exists pre post, text = pre +:+ needle +:+ post.

(** The link contains [<prefix>/<segment>/] with a non-empty segment free
    of slashes. *)
Definition has_path_segment (prefix link : string) : Prop :=
  exists pre seg post,
    link = pre +:+ prefix +:+ "/" +:+ seg +:+ "/" +:+ post /\
    seg <> "" /\ Forall (fun c => c <> "/"%char) (list_ascii_of_string seg).

(** The link contains one of the exam codes as the pattern spells them,
    in capitals. *)
Definition contains_exam_code (link : string) : Prop :=
  contains "IP" link \/ contains "FE" link \/ contains "AP" link.

(** The link contains one of the exam codes, whatever the case of its
    letters. *)
Definition contains_exam_code_any_case (link : string) : Prop :=
  exists pre code post,
    link = pre +:+ code +:+ post /\
    (py_lower code = "ip" \/ py_lower code = "fe" \/ py_lower code = "ap").

(** ** What a delivery run is expected to do, item by item *)

(** The result of preparing the message of a pending row. *)
Definition prepared `{Platform} (w : world) (i : file_row) : result (string * string) :=
  fst (TelegramBot.prepare_msg i w).

(** The sends a run makes for the rows whose message can be prepared. *)
Fixpoint expected_sends `{Platform} (chat_id : string) (w : world) (items : list file_row)
  : list (string * string * string) :=
  match items with
  | [] => []
  | i :: rest =>
      match prepared w i with
      | Returns pm => [(chat_id, fst pm, snd pm)]
      | Raises _ => []
      end ++ expected_sends chat_id w rest
  end.

(** The delivery rows a run appends: one for each row whose send, the
    [n]-th, [n+1]-th, ... of the client, succeeds. *)
Fixpoint expected_records `{Platform} (n : nat) (chat_id : string) (w : world)
    (items : list file_row) : list msg_row :=
  match items with
  | [] => []
  | i :: rest =>
      match prepared w i with
      | Returns pm =>
          match send_document n chat_id (fst pm) (snd pm) with
          | Returns _ => [MsgRow (Some chat_id) (f_md5 i)]
          | Raises _ => []
          end
      | Raises _ => []
      end ++ expected_records (S n) chat_id w rest
  end.

(** The failure lines a run logs: one for each row whose send raises. *)
Fixpoint expected_failures `{Platform} (n : nat) (chat_id : string) (w : world)
    (items : list file_row) : list log_entry :=
  match items with
  | [] => []
  | i :: rest =>
      match prepared w i with
      | Returns pm =>
          match send_document n chat_id (fst pm) (snd pm) with
          | Returns _ => []
          | Raises _ => [InfoFailedToSend chat_id (fst pm) (snd pm)]
          end
      | Raises _ => []
      end ++ expected_failures (S n) chat_id w rest
  end.

(* ================================================================== *)
(** * The batch loops ([__main__.py]) *)
(* ================================================================== *)

(** Lines [__main__.py] writes through [LOGGER]. *)
Inductive main_log_entry : Type :=
  | ErrorFailedToParseYear (item : string * string)
  | ErrorFailedToDownload (file_link : string) (err : exn).

(** The world, and the lines logged by the loops of [__main__.py]. *)
Definition main_state `{Platform} : Type := (world * list main_log_entry)%type.

(** The [for] loop of [update_questions], over the pairs (year-month
    text, link) that [extract_table_links] returned: a link whose path
    shows no year is logged and passed over; every exception of [download]
    is caught and logged. *)
Fixpoint update_questions_links `{Platform} (links : list (string * string))
    (refresh_file : bool) (s : main_state) : main_state :=
  match links with
  | [] => s
  | i :: rest =>
      let year_month := fst i in
      let file_link := snd i in
      let file_name := url_path file_link in
      let year := get_year_from_txt file_name in
      if negb (truthy year) then
        update_questions_links rest refresh_file
          (fst s, snd s ++ [ErrorFailedToParseYear i])
      else
        match download (default "" year +:+ "/questions") file_link year_month None
                       refresh_file (fst s) with
        | (Returns _, w') => update_questions_links rest refresh_file (w', snd s)
        | (Raises err, w') =>
            update_questions_links rest refresh_file
              (w', snd s ++ [ErrorFailedToDownload file_link err])
        end
  end.

(** The inner [for] loop of [update_results], over the triples
    (year-month text, country, link) listed under one year. *)
Fixpoint update_results_links `{Platform} (year : string)
    (links : list (string * string * string)) (refresh_file : bool) (s : main_state)
  : main_state :=
  match links with
  | [] => s
  | i :: rest =>
      let year_month := fst (fst i) in
      let country := snd (fst i) in
      let file_link := snd i in
      match download (year +:+ "/results") file_link year_month (Some country)
                     refresh_file (fst s) with
      | (Returns _, w') => update_results_links year rest refresh_file (w', snd s)
      | (Raises err, w') =>
          update_results_links year rest refresh_file
            (w', snd s ++ [ErrorFailedToDownload file_link err])
      end
  end.

(** The outer [for] loop of [update_results], over the items of the
    dictionary that [extract_result_table_links] returned, in its order. *)
Fixpoint update_results_years `{Platform}
    (links : list (string * list (string * string * string))) (refresh_file : bool)
    (s : main_state) : main_state :=
  match links with
  | [] => s
  | (year, year_links) :: rest =>
      update_results_years rest refresh_file
        (update_results_links year year_links refresh_file s)
  end.

(** The text is empty or ends with a character that is not a digit. *)
Definition ends_without_digit (pre : string) : Prop :=
  forall p c, pre = p +:+ String c "" -> is_digit c = false.

(** The text is empty or starts with a character that is not a digit. *)
Definition starts_without_digit (post : string) : Prop :=
  match post with
  | String c _ => is_digit c = false
  | EmptyString => True
  end.

(** The lookup that ends [get_file_path_from_link_info]: the path under
    the data directory when it exists, else [None] and a line in the log. *)
Definition path_lookup_result `{Platform} (link path_prefix : string) (w : world)
  : result (option string) * world :=
  if path_exists (w_fs w) (path_join data_dir path_prefix)
  then (Returns (Some (path_join data_dir path_prefix)), w)
  else (Returns None, add_log w [InfoNoFilePath link]).

(** The row [download] stores for a link. *)
Definition downloaded_row `{Platform} (link year_month : string) (timestamp : Z)
    (body : string) : file_row :=
  FileRow (Some link) (Some (decimal timestamp)) (Some (md5_hexdigest body))
          (Some year_month).

(** What a batch of downloads may do to the store: the sends and the
    delivery records stay, and the table of files gains the rows [added]. *)
Definition grows_by `{Platform} (w w' : world) (added : list file_row) : Prop :=
  w_sends w' = w_sends w /\
  telegram_msgs (w_db w') = telegram_msgs (w_db w) /\
  files (w_db w') = files (w_db w) ++ added.

(** ** A small concrete platform, on which the definitions run *)

Module Sample.

(** The last component of a path. *)
Fixpoint basename (s : string) : string :=
  match s with
  | EmptyString => EmptyString
  | String c r =>
      if str_in "/" r then basename r
      else if Ascii.eqb c "/"%char then r else s
  end.

Definition ascii_upper (c : ascii) : ascii :=
  let n := N_of_ascii c in
  if ((97 <=? n) && (n <=? 122))%N then ascii_of_N (n - 32) else c.

Fixpoint upper (s : string) : string :=
  match s with
  | EmptyString => EmptyString
  | String c r => String (ascii_upper c) (upper r)
  end.

Definition capitalize (s : string) : string :=
  match s with
  | EmptyString => EmptyString
  | String c r => String (ascii_upper c) (py_lower r)
  end.

Definition int_of_text (s : string) : result Z :=
  match NilZero.int_of_string s with
  | Some i => Returns (Z.of_int i)
  | None => Raises ValueError
  end.

(** The file system is the list of the paths that exist; every request
    is answered with [resp]; the [n]-th send ends as [sends n]. *)
Definition platform (resp : result response) (sends : nat -> result unit) : Platform := {|
  FS := list string;
  path_exists := fun fs p => existsb (String.eqb p) fs;
  mkdir_parents := fun p fs => Returns (if existsb (String.eqb p) fs then fs else p :: fs);
  write_bytes := fun p _ fs => Returns (if existsb (String.eqb p) fs then fs else p :: fs);
  data_dir := "data";
  path_join := fun a b => a +:+ "/" +:+ b;
  path_name := basename;
  url_path := fun link => link;
  http_request := fun _ _ _ => resp;
  parsedate_timestamp := fun _ => Returns 1700000000%Z;
  md5_hexdigest := fun _ => "d41d8cd98f00b204e9800998ecf8427e";
  py_int := int_of_text;
  utc_datetime_str := fun z => Returns (decimal z);
  str_upper := upper;
  str_capitalize := capitalize;
  send_document := fun n _ _ _ => sends n
|}.

Definition ok_response : result response :=
  Returns (Response true (Some "Tue, 14 Nov 2023 22:13:20 GMT") "PK").

Definition initial_world (P : Platform) (fs : @FS P) (db : database) : @world P :=
  World fs db [] [] [] 0.

(** Two downloaded question archives and their local files. *)
Definition file_a : FileRecord :=
  {| fr_link := "https://x/pastexamqa/fe/2021A_FE.zip"; fr_last_modified := 1700000000;
     fr_content_hash := "h1"; fr_period_label := "2021 October" |}.

Definition file_b : FileRecord :=
  {| fr_link := "https://x/pastexamqa/ip/2022S_IP.zip"; fr_last_modified := 1700000100;
     fr_content_hash := "h2"; fr_period_label := "2022 April" |}.

Definition path_a : string := "data/2021/questions/2021A_FE.zip".
Definition path_b : string := "data/2022/questions/2022S_IP.zip".

(** The first send raises [e], the later ones return. *)
Definition first_send_raises (e : exn) : Platform :=
  platform ok_response (fun n => match n with O => Raises e | S _ => Returns tt end).

Definition all_sends_return : Platform := platform ok_response (fun _ => Returns tt).

End Sample.

(* ================================================================== *)
(** * Facts about strings and matchers *)
(* ================================================================== *)

Lemma str_app_nil_l (s : string) : "" +:+ s = s.
Proof. reflexivity. Qed.

Lemma str_app_cons (c : ascii) (s t : string) : String c s +:+ t = String c (s +:+ t).
Proof. reflexivity. Qed.

Lemma str_app_nil_r (s : string) : s +:+ "" = s.
Proof. induction s as [|c s IH]; [reflexivity|]. rewrite str_app_cons, IH. reflexivity. Qed.

Lemma str_app_assoc (s t u : string) : (s +:+ t) +:+ u = s +:+ t +:+ u.
Proof.
  induction s as [|c s IH]; [reflexivity|].
  rewrite !str_app_cons, IH. reflexivity.
Qed.

Lemma str_app_length (s t : string) :
  String.length (s +:+ t) = (String.length s + String.length t)%nat.
Proof.
  induction s as [|c s IH]; [reflexivity|].
  rewrite str_app_cons. simpl. rewrite IH. reflexivity.
Qed.

Lemma list_ascii_app (s t : string) :
  list_ascii_of_string (s +:+ t) = list_ascii_of_string s ++ list_ascii_of_string t.
Proof.
  induction s as [|c s IH]; [reflexivity|].
  rewrite str_app_cons. simpl. rewrite IH. reflexivity.
Qed.

(** Every way of cutting [String c t] in two cuts before [c] or inside
    [t]. *)
Lemma str_split_cons (c : ascii) (t pre s : string) :
  String c t = pre +:+ s ->
  (pre = "" /\ s = String c t) \/ (exists pre', pre = String c pre' /\ t = pre' +:+ s).
Proof.
  destruct pre as [|a pre'].
  - rewrite str_app_nil_l. intros <-. left. split; reflexivity.
  - rewrite str_app_cons. intros [= <- ->]. right. exists pre'. split; reflexivity.
Qed.

Lemma prefix_app (p s : string) : String.prefix p (p +:+ s) = true.
Proof.
  induction p as [|c p IH]; [destruct s; reflexivity|].
  rewrite str_app_cons. simpl. destruct (ascii_dec c c); [exact IH | congruence].
Qed.

Lemma prefix_inv (p s : string) : String.prefix p s = true -> exists r, s = p +:+ r.
Proof.
  revert s. induction p as [|c p IH]; intros s Hp.
  - exists s. reflexivity.
  - destruct s as [|d s]; [discriminate|]. simpl in Hp.
    destruct (ascii_dec c d) as [->|]; [|discriminate].
    destruct (IH s Hp) as [r ->]. exists r. reflexivity.
Qed.

(** [str_in] decides [contains]. *)
Lemma str_in_contains (needle text : string) :
  str_in needle text = true <-> contains needle text.
Proof.
  split.
  - induction text as [|c t IH]; cbn [str_in]; intros Hin.
    + rewrite orb_false_r in Hin. destruct (prefix_inv _ _ Hin) as [r Hr].
      exists "", r. exact Hr.
    + apply orb_true_iff in Hin as [Hp|Hin].
      * destruct (prefix_inv _ _ Hp) as [r Hr]. exists "", r. exact Hr.
      * destruct (IH Hin) as (pre & post & ->). exists (String c pre), post. reflexivity.
  - intros (pre & post & ->). induction pre as [|c pre IH].
    + rewrite str_app_nil_l.
      destruct (needle +:+ post) eqn:E; cbn [str_in]; rewrite <- E, prefix_app; reflexivity.
    + rewrite str_app_cons. cbn [str_in]. rewrite IH. apply orb_true_r.
Qed.

Section Matchers.

Context {A B : Type}.

Lemma in_bind (m : matcher A) (f : A -> matcher B) (s : string) (b : B) (r : string) :
  In (b, r) (bind m f s) <-> exists a r', In (a, r') (m s) /\ In (b, r) (f a r').
Proof.
  unfold bind. rewrite in_flat_map. split.
  - intros [[a r'] [Hm Hf]]. exists a, r'. split; assumption.
  - intros (a & r' & Hm & Hf). exists (a, r'). split; assumption.
Qed.

Lemma in_ret (a x : A) (s r : string) : In (x, r) (ret a s) <-> x = a /\ r = s.
Proof.
  unfold ret. simpl. split.
  - intros [[= -> ->]|[]]. split; reflexivity.
  - intros [-> ->]. left. reflexivity.
Qed.

Lemma in_alt (p q : matcher A) (s : string) (x : A) (r : string) :
  In (x, r) (alt p q s) <-> In (x, r) (p s) \/ In (x, r) (q s).
Proof. unfold alt. apply in_app_iff. Qed.

Lemma in_opt (p : matcher A) (s : string) (x : option A) (r : string) :
  In (x, r) (opt p s) <-> (exists a, x = Some a /\ In (a, r) (p s)) \/ (x = None /\ r = s).
Proof.
  unfold opt. rewrite in_app_iff, in_map_iff. simpl. split.
  - intros [[[a r'] [[= <- <-] Hin]]|[[= <- <-]|[]]].
    + left. exists a. split; [reflexivity | assumption].
    + right. split; reflexivity.
  - intros [(a & -> & Hin)|[-> ->]].
    + left. exists (a, r). split; [reflexivity | assumption].
    + right. left. reflexivity.
Qed.

(** [search] fails exactly when the matcher fails at every position. *)
Lemma search_None (m : matcher A) (text : string) :
  search m text = None <-> forall pre s, text = pre +:+ s -> m s = [].
Proof.
  induction text as [|c t IH]; simpl.
  - split.
    + intros Hs pre s E. destruct pre; [|discriminate]. rewrite str_app_nil_l in E.
      subst s. destruct (m "") as [|[a r] l]; [reflexivity | discriminate].
    + intros Hall. rewrite (Hall "" "" eq_refl). reflexivity.
  - split.
    + intros Hs pre s E. destruct (m (String c t)) as [|[a r] l] eqn:Em; [|discriminate].
      apply str_split_cons in E as [[-> ->]|(pre' & -> & ->)]; [exact Em|].
      apply (proj1 IH Hs pre'). reflexivity.
    + intros Hall. rewrite (Hall "" (String c t) eq_refl).
      apply IH. intros pre s ->. apply (Hall (String c pre)). reflexivity.
Qed.

(** [search] returns the preferred success at the leftmost position that
    has one. *)
Lemma search_Some (m : matcher A) (text : string) (a : A) :
  search m text = Some a <->
  exists pre s r rest,
    text = pre +:+ s /\ m s = (a, r) :: rest /\
    forall pre1 pre2, pre = pre1 +:+ pre2 -> pre2 <> "" -> m (pre2 +:+ s) = [].
Proof.
  induction text as [|c t IH]; simpl.
  - split.
    + destruct (m "") as [|[a' r] l] eqn:Em; [discriminate|]. intros [= ->].
      exists "", "", r, l. split; [reflexivity|]. split; [exact Em|].
      intros pre1 pre2 E Hne. destruct pre1; [|discriminate].
      rewrite str_app_nil_l in E. congruence.
    + intros (pre & s & r & rest & E & Em & _). destruct pre; [|discriminate].
      rewrite str_app_nil_l in E. subst s. rewrite Em. reflexivity.
  - split.
    + destruct (m (String c t)) as [|[a' r] l] eqn:Em.
      * intros Hs. apply IH in Hs as (pre & s & r & rest & -> & Es & Hleft).
        exists (String c pre), s, r, rest. split; [reflexivity|]. split; [exact Es|].
        intros pre1 pre2 E Hne. destruct pre1 as [|d pre1].
        -- rewrite str_app_nil_l in E. subst pre2. exact Em.
        -- rewrite str_app_cons in E. injection E as _ E. eapply Hleft; eassumption.
      * intros [= ->]. exists "", (String c t), r, l. split; [reflexivity|].
        split; [exact Em|]. intros pre1 pre2 E Hne. destruct pre1; [|discriminate].
        rewrite str_app_nil_l in E. congruence.
    + intros (pre & s & r & rest & E & Es & Hleft). destruct pre as [|d pre].
      * rewrite str_app_nil_l in E. subst s. rewrite Es. reflexivity.
      * rewrite str_app_cons in E. injection E as <- ->.
        assert (E0 : m (String c pre +:+ s) = []) by (apply (Hleft ""); easy).
        rewrite str_app_cons in E0. rewrite E0.
        apply IH. exists pre, s, r, rest. split; [reflexivity|]. split; [exact Es|].
        intros pre1 pre2 E Hne. apply (Hleft (String c pre1) pre2); [|exact Hne].
        rewrite str_app_cons, E. reflexivity.
Qed.

(** [findall] finds nothing when the matcher fails at every position. *)
Lemma findall_from_nil (m : matcher A) (text : string) (skip : nat) :
  (forall pre s, text = pre +:+ s -> m s = []) -> findall_from m skip text = [].
Proof.
  revert skip. induction text as [|c t IH]; intros skip Hall.
  - destruct skip; simpl; [|reflexivity]. rewrite (Hall "" "" eq_refl). reflexivity.
  - assert (Ht : forall pre s, t = pre +:+ s -> m s = []).
    { intros pre s ->. apply (Hall (String c pre)). reflexivity. }
    destruct skip; simpl.
    + rewrite (Hall "" (String c t) eq_refl). apply IH, Ht.
    + apply IH, Ht.
Qed.

End Matchers.

Lemma in_char (cls : ascii -> bool) (s : string) (c : ascii) (r : string) :
  In (c, r) (char cls s) <-> s = String c r /\ cls c = true.
Proof.
  unfold char. destruct s as [|d t]; simpl.
  - split; [intros [] | intros [[=] _]].
  - destruct (cls d) eqn:Ed; simpl.
    + split.
      * intros [[= -> ->]|[]]. split; [reflexivity | exact Ed].
      * intros [[= -> ->] _]. left. reflexivity.
    + split; [intros [] | intros [[= -> ->] Hc]; congruence].
Qed.

(** A success of [cls{n}] consumed [n] characters of the class. *)
Lemma in_count (n : nat) (cls : ascii -> bool) (s run r : string) :
  In (run, r) (count n cls s) ->
  s = run +:+ r /\ String.length run = n /\
  Forall (fun c => cls c = true) (list_ascii_of_string run).
Proof.
  revert s run r. induction n as [|n IH]; intros s run r; simpl.
  - intros [[= <- <-]|[]]. repeat split. constructor.
  - intros Hin. apply in_bind in Hin as (c & r1 & Hc & Hin).
    apply in_bind in Hin as (run' & r2 & Hrun & Hin).
    apply in_ret in Hin as [-> ->]. apply in_char in Hc as [-> Hc].
    destruct (IH _ _ _ Hrun) as (-> & Hlen & Hall).
    split; [reflexivity|]. split; [simpl; congruence|]. simpl. constructor; assumption.
Qed.

(** A success of a literal consumed a text of the literal's length that
    agrees with it character by character. *)
Lemma in_lit (eqc : ascii -> ascii -> bool) (l s x r : string) :
  In (x, r) (lit eqc l s) ->
  s = x +:+ r /\
  Forall2 (fun a c => eqc a c = true) (list_ascii_of_string l) (list_ascii_of_string x).
Proof.
  revert s x r. induction l as [|a l IH]; intros s x r; simpl.
  - intros [[= <- <-]|[]]. split; [reflexivity | constructor].
  - intros Hin. apply in_bind in Hin as (c & r1 & Hc & Hin).
    apply in_bind in Hin as (x' & r2 & Hx & Hin).
    apply in_ret in Hin as [-> ->]. apply in_char in Hc as [-> Hc].
    destruct (IH _ _ _ Hx) as (-> & Hall).
    split; [reflexivity|]. simpl. constructor; assumption.
Qed.

(** A case-sensitive literal consumed the literal itself. *)
Lemma in_lit_exact (l s x r : string) :
  In (x, r) (lit Ascii.eqb l s) -> x = l /\ s = l +:+ r.
Proof.
  intros Hin. apply in_lit in Hin as [-> Hall].
  assert (x = l) as ->; [|split; reflexivity].
  revert x Hall. induction l as [|a l IH]; intros x Hall; simpl in Hall.
  - inversion Hall as [E|]. destruct x; [reflexivity | discriminate].
  - inversion Hall as [|a' c la lx Hac Hrest [Ea El] Ex]. subst.
    destruct x as [|c' x]; [discriminate|]. simpl in Ex. injection Ex as -> ->.
    apply Ascii.eqb_eq in Hac as ->. f_equal. apply IH, Hrest.
Qed.

(** A case-sensitive literal succeeds on a text that starts with it, in
    one way. *)
Lemma lit_exact_app (l r : string) : lit Ascii.eqb l (l +:+ r) = [(l, r)].
Proof.
  induction l as [|a l IH]; [reflexivity|].
  rewrite str_app_cons. simpl. unfold bind at 1. simpl.
  rewrite Ascii.eqb_refl. simpl. unfold bind at 1. rewrite IH. reflexivity.
Qed.

(** A success of [cls+] consumed a non-empty run of the class. *)
Lemma in_plus (cls : ascii -> bool) (s x r : string) :
  In (x, r) (plus cls s) ->
  s = x +:+ r /\ x <> "" /\ Forall (fun c => cls c = true) (list_ascii_of_string x).
Proof.
  revert x r. induction s as [|c t IH]; intros x r; simpl; [intros []|].
  destruct (cls c) eqn:Ec; [|intros []].
  rewrite in_app_iff, in_map_iff. simpl.
  intros [[[x' r'] [[= <- <-] Hin]]|[[= <- <-]|[]]].
  - destruct (IH _ _ Hin) as (-> & _ & Hall).
    split; [reflexivity|]. split; [discriminate|]. simpl. constructor; assumption.
  - split; [reflexivity|]. split; [discriminate|]. simpl. constructor; [exact Ec | constructor].
Qed.

(** [cls+] succeeds as soon as the text starts with a character of the
    class, and its preferred success is the whole run. *)
Lemma plus_longest (cls : ascii -> bool) (x r : string) :
  x <> "" ->
  Forall (fun c => cls c = true) (list_ascii_of_string x) ->
  match r with String c _ => cls c = false | EmptyString => True end ->
  exists rest, plus cls (x +:+ r) = (x, r) :: rest.
Proof.
  intros Hne Hall Hr. induction x as [|c x IH]; [congruence|].
  rewrite str_app_cons. simpl in Hall. inversion Hall as [|? ? Hc Hall']. subst.
  simpl. rewrite Hc. destruct x as [|d x].
  - rewrite str_app_nil_l.
    assert (plus cls r = []) as ->.
    { destruct r as [|e r]; [reflexivity|]. simpl. rewrite Hr. reflexivity. }
    simpl. exists []. reflexivity.
  - destruct IH as [rest Hrest]; [discriminate | exact Hall' |].
    rewrite Hrest. simpl. eexists. reflexivity.
Qed.

Lemma count_complete (n : nat) (cls : ascii -> bool) (run r : string) :
  String.length run = n ->
  Forall (fun c => cls c = true) (list_ascii_of_string run) ->
  count n cls (run +:+ r) = [(run, r)].
Proof.
  revert run. induction n as [|n IH]; intros run Hlen Hall.
  - destruct run; [reflexivity | discriminate].
  - destruct run as [|c run]; [discriminate|].
    simpl in Hlen, Hall. injection Hlen as Hlen. inversion Hall as [|? ? Hc Hall']. subst.
    rewrite str_app_cons. simpl. unfold bind at 1. simpl. rewrite Hc. simpl.
    unfold bind at 1. rewrite (IH run eq_refl Hall'). reflexivity.
Qed.

Lemma findall_from_in {A} (m : matcher A) (text : string) (skip : nat) (a : A) :
  In a (findall_from m skip text) ->
  exists pre s r rest, text = pre +:+ s /\ m s = (a, r) :: rest.
Proof.
  revert skip. induction text as [|c t IH]; intros skip Hin.
  - destruct skip; simpl in Hin; [|destruct Hin].
    destruct (m "") as [|[a' r] l] eqn:Em; [destruct Hin|].
    destruct Hin as [<-|[]]. exists "", "", r, l. split; [reflexivity | exact Em].
  - assert (Ht : forall k, In a (findall_from m k t) ->
                 exists pre s r rest, String c t = pre +:+ s /\ m s = (a, r) :: rest).
    { intros k Hk. destruct (IH k Hk) as (pre & s & r & rest & -> & Es).
      exists (String c pre), s, r, rest. split; [reflexivity | exact Es]. }
    destruct skip; simpl in Hin; [|eapply Ht; eassumption].
    destruct (m (String c t)) as [|[a' r] l] eqn:Em; [eapply Ht; eassumption|].
    destruct Hin as [<-|Hin]; [|eapply Ht; eassumption].
    exists "", (String c t), r, l. split; [reflexivity | exact Em].
Qed.

(* ================================================================== *)
(** * Year extraction *)
(* ================================================================== *)

Lemma has_digit_run_app (n : nat) (pre s : string) :
  has_digit_run n s -> has_digit_run n (pre +:+ s).
Proof.
  intros (p & run & post & -> & Hlen & Hall).
  exists (pre +:+ p), run, post. rewrite str_app_assoc. repeat split; assumption.
Qed.

(** [search] with [\d{n}] decides [has_digit_run n]. *)
Lemma has_digit_run_search (n : nat) (text : string) :
  has_digit_run n text <-> search (count n is_digit) text <> None.
Proof.
  split.
  - intros (pre & run & post & -> & Hlen & Hall) Hs.
    rewrite search_None in Hs. specialize (Hs pre (run +:+ post) eq_refl).
    rewrite (count_complete n is_digit run post Hlen Hall) in Hs. discriminate.
  - intros Hs. destruct (search (count n is_digit) text) as [run|] eqn:E; [|congruence].
    apply search_Some in E as (pre & s & r & rest & -> & Es & _).
    assert (Hin : In (run, r) (count n is_digit s)) by (rewrite Es; left; reflexivity).
    apply in_count in Hin as (-> & Hlen & Hall).
    exists pre, run, r. repeat split; assumption.
Qed.

(** A match of [(\d{2})?(\d{4})]: group 2 is four digits of the text,
    group 1 is empty or two characters long. *)
Lemma in_re_year_groups (s : string) (g : string * string) (r : string) :
  In (g, r) (re_year_groups s) ->
  (exists pre, s = pre +:+ snd g +:+ r) /\
  String.length (snd g) = 4%nat /\ all_digits (snd g) /\
  (String.length (fst g) = 0%nat \/ String.length (fst g) = 2%nat).
Proof.
  unfold re_year_groups. intros Hin.
  apply in_bind in Hin as (g1 & r1 & Hg1 & Hin).
  apply in_bind in Hin as (g2 & r2 & Hg2 & Hin).
  apply in_ret in Hin as [-> ->]. simpl.
  apply in_count in Hg2 as (-> & Hlen & Hall).
  apply in_opt in Hg1 as [(a & -> & Ha)|[-> E]].
  - apply in_count in Ha as (-> & Hlen2 & _).
    split; [exists a; reflexivity|]. repeat split; try assumption. right. exact Hlen2.
  - subst s. split; [exists ""; reflexivity|]. repeat split; try assumption.
    left. reflexivity.
Qed.

(** A match of [(\d{4}|(?:(IP|FE|AP)\d{4}))] lies on four digits. *)
Lemma in_re_year_token (s g r : string) :
  In (g, r) (re_year_token s) -> has_digit_run 4 s.
Proof.
  unfold re_year_token. intros Hin. apply in_alt in Hin as [Hin|Hin].
  - apply in_count in Hin as (-> & Hlen & Hall).
    exists "", g, r. repeat split; assumption.
  - apply in_bind in Hin as (code & r1 & Hcode & Hin).
    apply in_bind in Hin as (digits & r2 & Hd & Hin).
    apply in_ret in Hin as [-> ->].
    apply in_count in Hd as (-> & Hlen & Hall).
    assert (Hs : s = code +:+ digits +:+ r2).
    { unfold re_exam_code in Hcode.
      apply in_alt in Hcode as [H|H]; [|apply in_alt in H as [H|H]];
        apply in_lit in H as [H _]; exact H. }
    exists code, digits, r2. repeat split; assumption.
Qed.

Lemma no_run_no_match {A} (m : matcher A) (text : string) :
  (forall s a r, In (a, r) (m s) -> has_digit_run 4 s) ->
  ~ has_digit_run 4 text ->
  forall pre s, text = pre +:+ s -> m s = [].
Proof.
  intros Hm Hno pre s ->. destruct (m s) as [|[a r] l] eqn:Em; [reflexivity|].
  exfalso. apply Hno, has_digit_run_app. apply (Hm s a r). rewrite Em. left. reflexivity.
Qed.

Lemma first_of_length_4_some (matches : list (string * string)) (y : string) :
  first_of_length_4 matches = Some y ->
  String.length y = 4%nat /\ exists g, In g matches /\ (y = fst g \/ y = snd g).
Proof.
  induction matches as [|[g1 g2] rest IH]; simpl; [discriminate|].
  destruct (String.length g1 =? 4)%nat eqn:E1.
  - intros [= <-]. apply Nat.eqb_eq in E1. split; [exact E1|].
    exists (g1, g2). split; [left; reflexivity | left; reflexivity].
  - destruct (String.length g2 =? 4)%nat eqn:E2.
    + intros [= <-]. apply Nat.eqb_eq in E2. split; [exact E2|].
      exists (g1, g2). split; [left; reflexivity | right; reflexivity].
    + intros Hy. destruct (IH Hy) as (Hlen & g & Hg & Hor). split; [exact Hlen|].
      exists g. split; [right; exact Hg | exact Hor].
Qed.

(** C7.  [get_year_from_txt] on the three texts of its docstring:
    ["2024 April Exam"] gives ["2024"], ["2019S_FE.pdf"] gives ["2019"] and
    ["IPApril2012.zip"] gives ["2012"]. *)
Theorem get_year_from_txt_examples :
  get_year_from_txt "2024 April Exam" = Some "2024" /\
  get_year_from_txt "2019S_FE.pdf" = Some "2019" /\
  get_year_from_txt "IPApril2012.zip" = Some "2012".
Proof. repeat split; vm_compute; reflexivity. Qed.

(** C8.  [get_year_from_txt] is total and deterministic: every text has
    one result, which every call returns; and the result is [None] for a
    text without four digits in a row. *)
Theorem get_year_from_txt_total_absent (text : string) :
  (exists r, get_year_from_txt text = r /\
             forall r', get_year_from_txt text = r' -> r' = r) /\
  (~ has_digit_run 4 text -> get_year_from_txt text = None).
Proof.
  split.
  - exists (get_year_from_txt text). split; [reflexivity | intros r' <-; reflexivity].
  - intros Hno. unfold get_year_from_txt, findall.
    rewrite (findall_from_nil re_year_groups text 0).
    + assert (search re_year_token text = None) as ->; [|reflexivity].
      apply search_None. apply no_run_no_match; [|exact Hno].
      intros s a r. apply in_re_year_token.
    + apply no_run_no_match; [|exact Hno].
      intros s g r Hin. apply in_re_year_groups in Hin as ([pre ->] & Hlen & Hall & _).
      exists pre, (snd g), r. repeat split; assumption.
Qed.

Lemma get_year_from_txt_total_absent_witness :
  ~ has_digit_run 4 "IPApril_12.zip" /\ get_year_from_txt "IPApril_12.zip" = None.
Proof.
  assert (Hno : ~ has_digit_run 4 "IPApril_12.zip").
  { intros H. apply has_digit_run_search in H. apply H. vm_compute. reflexivity. }
  split; [exact Hno|].
  exact (proj2 (get_year_from_txt_total_absent "IPApril_12.zip") Hno).
Defined.

(** [findall] finds something as soon as the matcher succeeds
    somewhere. *)
Lemma findall_nil_inv {A} (m : matcher A) (text : string) :
  findall m text = [] -> forall pre s, text = pre +:+ s -> m s = [].
Proof.
  unfold findall. induction text as [|c t IH]; simpl.
  - destruct (m "") as [|[a r] l] eqn:Em; [|discriminate].
    intros _ pre s E. destruct pre; [|discriminate]. rewrite str_app_nil_l in E.
    subst s. exact Em.
  - destruct (m (String c t)) as [|[a r] l] eqn:Em; [|discriminate].
    intros Hf pre s E.
    apply str_split_cons in E as [[-> ->]|(pre' & -> & ->)]; [exact Em|].
    apply (IH Hf pre'). reflexivity.
Qed.

(** [(\d{2})?(\d{4})] succeeds on a text that starts with four digits. *)
Lemma re_year_groups_complete (run r : string) :
  String.length run = 4%nat -> all_digits run -> re_year_groups (run +:+ r) <> [].
Proof.
  intros Hlen Hall Hnil.
  assert (Hin : In (("", run), r) (re_year_groups (run +:+ r))).
  { unfold re_year_groups. apply in_bind. exists None, (run +:+ r). split.
    - apply in_opt. right. split; reflexivity.
    - apply in_bind. exists run, r. split.
      + rewrite (count_complete 4 is_digit run r Hlen Hall). left. reflexivity.
      + apply in_ret. split; reflexivity. }
  rewrite Hnil in Hin. destruct Hin.
Qed.

(** Whenever [get_year_from_txt] returns a text, it is four digits that
    occur in the input: the first match of the first pattern decides, and
    the second pattern never contributes. *)
Lemma get_year_from_txt_some (text y : string) :
  get_year_from_txt text = Some y ->
  String.length y = 4%nat /\ all_digits y /\ contains y text.
Proof.
  unfold get_year_from_txt.
  destruct (findall re_year_groups text) as [|g0 gs] eqn:Ef.
  - (* no match of the first pattern: the text has no four digits *)
    destruct (search re_year_token text) as [tok|] eqn:Es; [|discriminate].
    exfalso. apply search_Some in Es as (pre & s & r & rest & -> & Em & _).
    destruct (in_re_year_token s tok r) as (p & run & post & -> & Hlen & Hall).
    { rewrite Em. left. reflexivity. }
    apply (re_year_groups_complete run post Hlen Hall).
    apply (findall_nil_inv _ _ Ef (pre +:+ p)). rewrite str_app_assoc. reflexivity.
  - (* the first match has a group of length four: its second group *)
    destruct (findall_from_in re_year_groups text 0 g0) as (pre & s & r & rest & -> & Em).
    { unfold findall in Ef. rewrite Ef. left. reflexivity. }
    destruct g0 as [g1 g2].
    destruct (in_re_year_groups s (g1, g2) r) as ([p ->] & Hlen & Hall & Hg1).
    { rewrite Em. left. reflexivity. }
    simpl in Hlen, Hall, Hg1 |- *.
    assert ((String.length g1 =? 4)%nat = false) as ->.
    { apply Nat.eqb_neq. lia. }
    rewrite Hlen. simpl. intros [= <-]. split; [exact Hlen|]. split; [exact Hall|].
    exists (pre +:+ p), r. rewrite !str_app_assoc. reflexivity.
Qed.

(* ================================================================== *)
(** * The record store *)
(* ================================================================== *)

Lemma to_int_proper (z : Z) : Z.to_int z <> Decimal.Pos Decimal.Nil /\ Z.to_int z <> Decimal.Neg Decimal.Nil.
Proof.
  destruct z as [|p|p]; simpl; split; try discriminate;
    intros [= E]; exact (DecimalPos.Unsigned.to_uint_nonnil p E).
Qed.

(** Two integers with the same decimal text are equal. *)
Lemma decimal_inj (a b : Z) : decimal a = decimal b -> a = b.
Proof.
  unfold decimal. intros E. apply DecimalZ.to_int_inj.
  destruct (to_int_proper a) as [Ha1 Ha2]. destruct (to_int_proper b) as [Hb1 Hb2].
  pose proof (NilZero.isi (Z.to_int a) Ha1 Ha2) as Ia.
  pose proof (NilZero.isi (Z.to_int b) Hb1 Hb2) as Ib.
  rewrite E in Ia. congruence.
Qed.

Lemma decimal_eqb (a b : Z) : String.eqb (decimal a) (decimal b) = (a =? b)%Z.
Proof.
  destruct (Z.eqb_spec a b) as [->|Hne].
  - apply String.eqb_refl.
  - apply String.eqb_neq. intros E. apply Hne, decimal_inj, E.
Qed.

Lemma fold_add_file_record (recs : list FileRecord) (db : database) :
  files (fold_left add_file_record recs db) = files db ++ map row_of_file recs /\
  telegram_msgs (fold_left add_file_record recs db) = telegram_msgs db.
Proof.
  revert db. induction recs as [|r recs IH]; intros db; simpl.
  - rewrite app_nil_r. split; reflexivity.
  - destruct (IH (add_file_record db r)) as [-> ->]. simpl.
    rewrite <- app_assoc. split; reflexivity.
Qed.

Lemma fold_add_delivery_record (dels : list DeliveryRecord) (db : database) :
  files (fold_left add_delivery_record dels db) = files db /\
  telegram_msgs (fold_left add_delivery_record dels db) =
    telegram_msgs db ++ map row_of_delivery dels.
Proof.
  revert db. induction dels as [|d dels IH]; intros db; simpl.
  - rewrite app_nil_r. split; reflexivity.
  - destruct (IH (add_delivery_record db d)) as [-> ->]. simpl.
    rewrite <- app_assoc. split; reflexivity.
Qed.

(** The tables of a store built by the program. *)
Lemma store_of_tables (recs : list FileRecord) (dels : list DeliveryRecord) :
  files (store_of recs dels) = map row_of_file recs /\
  telegram_msgs (store_of recs dels) = map row_of_delivery dels.
Proof.
  unfold store_of.
  destruct (fold_add_delivery_record dels (fold_left add_file_record recs empty_db)) as [-> ->].
  destruct (fold_add_file_record recs empty_db) as [-> ->]. split; reflexivity.
Qed.

(** Filtering stored rows by an SQL condition is filtering the records
    by the proposition the condition decides. *)
Lemma filter_rows (cond : file_row -> bool) (P : FileRecord -> Prop)
    `{!forall r, Decision (P r)} (recs : list FileRecord) :
  (forall r, cond (row_of_file r) = bool_decide (P r)) ->
  List.filter cond (map row_of_file recs) = map row_of_file (filter P recs).
Proof.
  intros Hc. induction recs as [|r recs IH]; [reflexivity|].
  simpl. rewrite filter_cons, Hc, IH.
  destruct (decide (P r)) as [Hp|Hp].
  - rewrite bool_decide_eq_true_2 by exact Hp. reflexivity.
  - rewrite bool_decide_eq_false_2 by exact Hp. reflexivity.
Qed.

Lemma string_eqb_decide (a b : string) : String.eqb a b = bool_decide (a = b).
Proof.
  destruct (String.eqb_spec a b) as [E|E].
  - rewrite bool_decide_eq_true_2 by exact E. reflexivity.
  - rewrite bool_decide_eq_false_2 by exact E. reflexivity.
Qed.

Lemma Z_eqb_decide (a b : Z) : (a =? b)%Z = bool_decide (a = b).
Proof.
  destruct (Z.eqb_spec a b) as [E|E].
  - rewrite bool_decide_eq_true_2 by exact E. reflexivity.
  - rewrite bool_decide_eq_false_2 by exact E. reflexivity.
Qed.

(** The condition of [get_file] on a stored record, for a text link, an
    integer timestamp and a text hash. *)
Lemma get_file_where_typed (link : string) (lm : Z) (h : string) (r : FileRecord) :
  holds (DBHandler.get_file_where (PyStr link) (PyInt lm) (PyStr h) (row_of_file r)) =
  bool_decide (fr_link r = link /\ (fr_content_hash r = h \/ fr_last_modified r = lm)).
Proof.
  unfold DBHandler.get_file_where. simpl.
  rewrite decimal_eqb, !string_eqb_decide, Z_eqb_decide.
  rewrite bool_decide_and, bool_decide_or.
  destruct (bool_decide (fr_link r = link)), (bool_decide (fr_content_hash r = h)),
    (bool_decide (fr_last_modified r = lm)); reflexivity.
Qed.

(** The condition of [get_file] when [md5] is left to its default [None]:
    the comparison with NULL is NULL, whatever the row holds. *)
Lemma get_file_where_no_hash (link : string) (lm : Z) (r : FileRecord) :
  holds (DBHandler.get_file_where (PyStr link) (PyInt lm) PyNone (row_of_file r)) =
  bool_decide (fr_link r = link /\ fr_last_modified r = lm).
Proof.
  unfold DBHandler.get_file_where. simpl.
  rewrite decimal_eqb, string_eqb_decide, Z_eqb_decide, bool_decide_and.
  destruct (bool_decide (fr_link r = link)), (bool_decide (fr_last_modified r = lm));
    reflexivity.
Qed.

Lemma get_file_of_filter (recs : list FileRecord) (dels : list DeliveryRecord)
    (link lm md5 : pyval) (P : FileRecord -> Prop) `{!forall r, Decision (P r)} :
  (forall r, holds (DBHandler.get_file_where link lm md5 (row_of_file r)) = bool_decide (P r)) ->
  DBHandler.get_file (store_of recs dels) link lm md5 =
  match filter P recs with
  | [] => ObjNone
  | rows => ObjRows (map row_of_file rows)
  end.
Proof.
  intros Hc. unfold DBHandler.get_file.
  destruct (store_of_tables recs dels) as [-> _].
  rewrite (filter_rows _ P recs Hc). destruct (filter P recs); reflexivity.
Qed.

(** Stdlib's boolean filter and stdpp's filter by a decidable
    proposition agree. *)
Lemma list_filter_decide {A} (cond : A -> bool) (P : A -> Prop)
    `{!forall x, Decision (P x)} (l : list A) :
  (forall x, cond x = bool_decide (P x)) -> List.filter cond l = filter P l.
Proof.
  intros Hc. induction l as [|x l IH]; [reflexivity|].
  simpl. rewrite filter_cons, Hc, IH.
  destruct (decide (P x)) as [Hp|Hp].
  - rewrite bool_decide_eq_true_2 by exact Hp. reflexivity.
  - rewrite bool_decide_eq_false_2 by exact Hp. reflexivity.
Qed.

(** The condition of [get_file] on any row, NULL cells included. *)
Lemma get_file_where_row (link : string) (lm : Z) (h : string) (row : file_row) :
  holds (DBHandler.get_file_where (PyStr link) (PyInt lm) (PyStr h) row) =
  bool_decide (f_link row = Some link /\
               (f_md5 row = Some h \/ f_last_modified row = Some (decimal lm))).
Proof.
  unfold DBHandler.get_file_where. cbn [text_affinity].
  rewrite bool_decide_and, bool_decide_or.
  destruct (f_link row) as [l|], (f_md5 row) as [m|], (f_last_modified row) as [t|];
    cbn [sql_eq]; rewrite ?string_eqb_decide;
    repeat match goal with
    | |- context [bool_decide (Some ?a = Some ?b)] =>
        replace (bool_decide (Some a = Some b)) with (bool_decide (a = b))
          by (apply bool_decide_ext; split; congruence)
    | |- context [bool_decide (None = Some ?b)] =>
        rewrite (bool_decide_eq_false_2 (None = Some b)) by discriminate
    end;
    repeat match goal with
    | |- context [bool_decide ?P] => destruct (bool_decide P)
    end; reflexivity.
Qed.

Lemma get_file_where_row_no_hash (link : string) (lm : Z) (row : file_row) :
  holds (DBHandler.get_file_where (PyStr link) (PyInt lm) PyNone row) =
  bool_decide (f_link row = Some link /\ f_last_modified row = Some (decimal lm)).
Proof.
  unfold DBHandler.get_file_where. cbn [text_affinity].
  rewrite bool_decide_and.
  destruct (f_link row) as [l|], (f_md5 row) as [m|], (f_last_modified row) as [t|];
    cbn [sql_eq]; rewrite ?string_eqb_decide;
    repeat match goal with
    | |- context [bool_decide (Some ?a = Some ?b)] =>
        replace (bool_decide (Some a = Some b)) with (bool_decide (a = b))
          by (apply bool_decide_ext; split; congruence)
    | |- context [bool_decide (None = Some ?b)] =>
        rewrite (bool_decide_eq_false_2 (None = Some b)) by discriminate
    end;
    repeat match goal with
    | |- context [bool_decide ?P] => destruct (bool_decide P)
    end; reflexivity.
Qed.

Lemma get_file_of_row_filter (db : database) (link lm md5 : pyval)
    (P : file_row -> Prop) `{!forall r, Decision (P r)} :
  (forall row, holds (DBHandler.get_file_where link lm md5 row) = bool_decide (P row)) ->
  DBHandler.get_file db link lm md5 =
  match filter P (files db) with
  | [] => ObjNone
  | rows => ObjRows rows
  end.
Proof.
  intros Hc. unfold DBHandler.get_file.
  rewrite (list_filter_decide _ P (files db) Hc). destruct (filter P (files db)); reflexivity.
Qed.

(** C4.  In every state of the store, [get_file] called with a link, a
    timestamp and a hash returns all the rows of [files] whose link is the
    given one and whose hash is the given hash or whose timestamp (stored
    as decimal text) is the given timestamp, in insertion order; when
    there is no such row it returns [None], not an empty list.  On a store
    holding the file records [recs] these are the rows of the records
    whose link matches and whose hash or integer timestamp matches. *)
Theorem get_file_matching_records (db : database)
    (recs : list FileRecord) (dels : list DeliveryRecord)
    (link : string) (last_modified : Z) (content_hash : string) :
  DBHandler.get_file db (PyStr link) (PyInt last_modified) (PyStr content_hash) =
  match filter (fun row => f_link row = Some link /\
                           (f_md5 row = Some content_hash \/
                            f_last_modified row = Some (decimal last_modified)))
               (files db) with
  | [] => ObjNone
  | rows => ObjRows rows
  end /\
  DBHandler.get_file (store_of recs dels) (PyStr link) (PyInt last_modified)
                     (PyStr content_hash) =
  match filter (fun r => fr_link r = link /\
                         (fr_content_hash r = content_hash \/
                          fr_last_modified r = last_modified)) recs with
  | [] => ObjNone
  | rows => ObjRows (map row_of_file rows)
  end.
Proof.
  split.
  - apply get_file_of_row_filter. intros row. apply get_file_where_row.
  - apply get_file_of_filter. intros r. apply get_file_where_typed.
Qed.

(** C9.  When [get_file] is called without a hash, [md5] is bound as NULL:
    the comparison [md5 == :md5] is then NULL for every row, whatever its
    hash, and in every state of the store [get_file] returns the rows whose
    link and whose timestamp are both the given ones ([None] when there is
    none); on a store holding the file records [recs], the rows of the
    records whose link and whose integer timestamp both match. *)
Theorem get_file_without_hash (db : database)
    (recs : list FileRecord) (dels : list DeliveryRecord)
    (link : string) (last_modified : Z) :
  (forall row : file_row, sql_eq (f_md5 row) (text_affinity PyNone) = None) /\
  DBHandler.get_file db (PyStr link) (PyInt last_modified) PyNone =
  match filter (fun row => f_link row = Some link /\
                           f_last_modified row = Some (decimal last_modified))
               (files db) with
  | [] => ObjNone
  | rows => ObjRows rows
  end /\
  DBHandler.get_file (store_of recs dels) (PyStr link) (PyInt last_modified) PyNone =
  match filter (fun r => fr_link r = link /\ fr_last_modified r = last_modified) recs with
  | [] => ObjNone
  | rows => ObjRows (map row_of_file rows)
  end.
Proof.
  split; [|split].
  - intros row. simpl. destruct (f_md5 row); reflexivity.
  - apply get_file_of_row_filter. intros row. apply get_file_where_row_no_hash.
  - apply get_file_of_filter. intros r. apply get_file_where_no_hash.
Qed.

(** [get_file] returns [None] or a non-empty list of rows, never a
    boolean. *)
Lemma get_file_shape (db : database) (link lm md5 : pyval) :
  DBHandler.get_file db link lm md5 = ObjNone \/
  exists row rows, DBHandler.get_file db link lm md5 = ObjRows (row :: rows).
Proof.
  unfold DBHandler.get_file.
  destruct (List.filter _ (files db)) as [|row rows]; [left; reflexivity|].
  right. exists row, rows. reflexivity.
Qed.

Lemma get_file_is_not_True (db : database) (link lm md5 : pyval) :
  py_is_True (DBHandler.get_file db link lm md5) = false.
Proof.
  destruct (get_file_shape db link lm md5) as [->|(row & rows & ->)]; reflexivity.
Qed.

(* ================================================================== *)
(** * Pending files *)
(* ================================================================== *)

Lemma bool_eq_decide (b : bool) (P : Prop) `{!Decision P} :
  (b = true <-> P) -> b = bool_decide P.
Proof.
  intros Hb. destruct (decide P) as [Hp|Hp].
  - rewrite bool_decide_eq_true_2 by exact Hp. apply Hb, Hp.
  - rewrite bool_decide_eq_false_2 by exact Hp.
    destruct b; [exfalso; apply Hp, Hb; reflexivity | reflexivity].
Qed.

Lemma list_filter_nil_existsb {A} (p : A -> bool) (l : list A) :
  List.filter p l = [] <-> existsb p l = false.
Proof.
  induction l as [|x l IH]; simpl; [split; reflexivity|].
  destruct (p x); simpl; [split; discriminate | exact IH].
Qed.

(** A joined row of [telegram_msgs] has a hash, so [msg.md5 IS NULL]
    rejects it. *)
Lemma pending_on_not_null (chat_id : pyval) (f : file_row) (msg : msg_row) :
  holds (TelegramBot.pending_on chat_id f msg) = true -> sql_is_null (m_md5 msg) = false.
Proof.
  unfold TelegramBot.pending_on. intros Hj.
  destruct (m_md5 msg); [reflexivity|]. exfalso.
  destruct (f_md5 f), (sql_eq (m_chat_id msg) (text_affinity chat_id)) as [[]|];
    simpl in Hj; discriminate.
Qed.

(** The [LEFT JOIN ... WHERE msg.md5 IS NULL] of [get_pendings] keeps,
    once each and in table order, the rows of [files] that no row of
    [telegram_msgs] joins. *)
Lemma pending_rows (chat_id : pyval) (fs : list file_row) (ms : list msg_row) :
  map fst (List.filter TelegramBot.pending_where
                       (left_join fs ms (TelegramBot.pending_on chat_id))) =
  List.filter (fun f => negb (existsb (fun m => holds (TelegramBot.pending_on chat_id f m)) ms))
              fs.
Proof.
  unfold left_join. induction fs as [|f fs IH]; [reflexivity|].
  cbn [flat_map List.filter]. rewrite List.filter_app, map_app, IH. clear IH.
  destruct (List.filter (fun y => holds (TelegramBot.pending_on chat_id f y)) ms)
    as [|y ys] eqn:Ej.
  - apply list_filter_nil_existsb in Ej. rewrite Ej. reflexivity.
  - assert (Hex : existsb (fun m => holds (TelegramBot.pending_on chat_id f m)) ms = true).
    { destruct (existsb _ ms) eqn:Ee; [reflexivity|].
      apply list_filter_nil_existsb in Ee. congruence. }
    rewrite Hex. cbn [negb].
    assert (Hall : Forall (fun m => holds (TelegramBot.pending_on chat_id f m) = true) (y :: ys)).
    { rewrite <- Ej. apply Forall_forall. intros m Hm.
      apply list_elem_of_In, List.filter_In in Hm. apply Hm. }
    assert (Hnone : List.filter TelegramBot.pending_where
                      (map (fun m => (f, Some m)) (y :: ys)) = []).
    { clear Ej Hex. induction Hall as [|m l Hm _ IHl]; [reflexivity|].
      cbn [map List.filter]. unfold TelegramBot.pending_where at 1. cbn [snd].
      rewrite (pending_on_not_null _ _ _ Hm). exact IHl. }
    rewrite Hnone. reflexivity.
Qed.

Lemma cell_leb_total (a b : cell) : cell_leb a b = false -> cell_leb b a = true.
Proof.
  destruct a as [x|], b as [y|]; simpl; try reflexivity; try discriminate.
  intros Hxy. destruct (String.leb_total x y) as [H|H]; congruence.
Qed.

Section OrderBy.

Context {A : Type} (key : A -> cell).

Lemma insert_by_perm (x : A) (l : list A) : Permutation (insert_by key x l) (x :: l).
Proof.
  induction l as [|y l IH]; simpl; [reflexivity|].
  destruct (cell_leb (key x) (key y)); [reflexivity|].
  rewrite IH. apply perm_swap.
Qed.

Lemma order_by_perm (l : list A) : Permutation (order_by key l) l.
Proof.
  induction l as [|x l IH]; simpl; [reflexivity|].
  unfold order_by in *. simpl. rewrite insert_by_perm, IH. reflexivity.
Qed.

Lemma insert_by_hd (x y : A) (l : list A) :
  key_le key y x -> HdRel (key_le key) y l -> HdRel (key_le key) y (insert_by key x l).
Proof.
  intros Hyx Hhd. destruct l as [|z l]; simpl.
  - constructor. exact Hyx.
  - destruct (cell_leb (key x) (key z)); constructor.
    + exact Hyx.
    + inversion Hhd; assumption.
Qed.

Lemma insert_by_sorted (x : A) (l : list A) :
  Sorted (key_le key) l -> Sorted (key_le key) (insert_by key x l).
Proof.
  induction 1 as [|y l Hs IH Hhd]; simpl.
  - repeat constructor.
  - destruct (cell_leb (key x) (key y)) eqn:E.
    + constructor; [constructor; assumption|]. constructor. exact E.
    + constructor; [exact IH|]. apply insert_by_hd; [|exact Hhd].
      apply cell_leb_total, E.
Qed.

Lemma order_by_sorted (l : list A) : Sorted (key_le key) (order_by key l).
Proof.
  induction l as [|x l IH]; [constructor|].
  unfold order_by in *. simpl. apply insert_by_sorted, IH.
Qed.

End OrderBy.

(** A delivery row joins a file row exactly when it is a delivery record
    of the file's hash for the channel. *)
Lemma pending_on_typed (channel : string) (r : FileRecord) (d : DeliveryRecord) :
  holds (TelegramBot.pending_on (PyStr channel) (row_of_file r) (row_of_delivery d)) = true <->
  dr_channel_id d = channel /\ dr_content_hash d = fr_content_hash r.
Proof.
  unfold TelegramBot.pending_on. simpl.
  destruct (String.eqb_spec (fr_content_hash r) (dr_content_hash d)) as [E1|E1],
           (String.eqb_spec (dr_channel_id d) channel) as [E2|E2]; simpl;
    split; try discriminate; try (intros [? ?]; congruence). intros _. split; congruence.
Qed.

Lemma not_pending_typed (channel : string) (dels : list DeliveryRecord) (r : FileRecord) :
  negb (existsb (fun m => holds (TelegramBot.pending_on (PyStr channel) (row_of_file r) m))
                (map row_of_delivery dels)) =
  bool_decide (~ delivered_to dels channel r).
Proof.
  rewrite bool_decide_not. f_equal. apply bool_eq_decide.
  unfold delivered_to. rewrite existsb_exists, Exists_exists. split.
  - intros (m & Hm & Hj). apply in_map_iff in Hm as (d & <- & Hd).
    exists d. split; [apply list_elem_of_In, Hd | apply pending_on_typed, Hj].
  - intros (d & Hd & Hj). exists (row_of_delivery d). split.
    + apply in_map. apply list_elem_of_In, Hd.
    + apply pending_on_typed, Hj.
Qed.

(** In every state of the store, [get_pendings] returns the rows of
    [files] that no delivery row joins, each as often as it is stored, by
    ascending [last_modified] text. *)
Lemma get_pendings_rows (db : database) (chat_id : pyval) :
  Permutation
    (TelegramBot.get_pendings db chat_id)
    (List.filter (fun f => negb (existsb (fun m => holds (TelegramBot.pending_on chat_id f m))
                                         (telegram_msgs db)))
                 (files db)) /\
  Sorted (key_le f_last_modified) (TelegramBot.get_pendings db chat_id).
Proof.
  unfold TelegramBot.get_pendings. split.
  - rewrite order_by_perm, pending_rows. reflexivity.
  - apply order_by_sorted.
Qed.

(** On a store holding the file records [recs] and the delivery records
    [dels], [get_pendings] returns exactly the rows of the records whose
    hash has no delivery record for the channel, in the byte order of the
    decimal texts of their timestamps. *)
Lemma get_pendings_undelivered (recs : list FileRecord) (dels : list DeliveryRecord)
    (channel : string) :
  Permutation
    (TelegramBot.get_pendings (store_of recs dels) (PyStr channel))
    (map row_of_file (filter (fun r => ~ delivered_to dels channel r) recs)) /\
  Sorted (key_le f_last_modified)
         (TelegramBot.get_pendings (store_of recs dels) (PyStr channel)).
Proof.
  destruct (get_pendings_rows (store_of recs dels) (PyStr channel)) as [Hperm Hsort].
  split; [|exact Hsort]. rewrite Hperm.
  destruct (store_of_tables recs dels) as [-> ->].
  rewrite (filter_rows _ (fun r => ~ delivered_to dels channel r) recs); [reflexivity|].
  intros r. apply not_pending_typed.
Qed.

(** Delivering a record to a channel removes from the channel's pending
    files the records with that hash, and no others. *)
Lemma get_pendings_after_delivery (recs : list FileRecord) (dels : list DeliveryRecord)
    (channel : string) (r : FileRecord) :
  Permutation
    (TelegramBot.get_pendings
       (add_delivery_record (store_of recs dels)
          {| dr_channel_id := channel; dr_content_hash := fr_content_hash r |})
       (PyStr channel))
    (map row_of_file
         (filter (fun x => ~ delivered_to dels channel x /\
                           fr_content_hash x <> fr_content_hash r) recs)).
Proof.
  set (d := {| dr_channel_id := channel; dr_content_hash := fr_content_hash r |}).
  assert (E : add_delivery_record (store_of recs dels) d = store_of recs (dels ++ [d])).
  { unfold store_of. rewrite fold_left_app. reflexivity. }
  rewrite E. rewrite (proj1 (get_pendings_undelivered recs (dels ++ [d]) channel)).
  apply Permutation_map. apply Permutation_refl'. apply list_filter_iff.
  intros x. unfold delivered_to. rewrite Exists_app, Exists_cons, Exists_nil. simpl.
  split.
  - intros Hn. split; [tauto|]. intros Eh. apply Hn. right. left. split; congruence.
  - intros [Hn Hh] [Hd|[[_ Eh]|[]]]; [tauto | congruence].
Qed.

(** The order example of the specification: records last modified at 300,
    100 and 200, none delivered, come out as 100, 200, 300. *)
Example get_pendings_order_example :
  map f_last_modified
      (TelegramBot.get_pendings
         (store_of [ {| fr_link := "https://x/a.zip"; fr_last_modified := 300;
                        fr_content_hash := "ha"; fr_period_label := "2021 April" |};
                     {| fr_link := "https://x/b.zip"; fr_last_modified := 100;
                        fr_content_hash := "hb"; fr_period_label := "2020 April" |};
                     {| fr_link := "https://x/c.zip"; fr_last_modified := 200;
                        fr_content_hash := "hc"; fr_period_label := "2020 October" |} ]
                   [])
         (PyStr "@channel")) =
  [Some "100"; Some "200"; Some "300"].
Proof. vm_compute. reflexivity. Qed.

(** C2, at the input where the code departs from it.  The column
    [last_modified] is declared [TEXT], so [ORDER BY f.last_modified ASC]
    compares decimal texts byte by byte: of two pending files last
    modified at 999999999 (9 September 2001, 01:46:39 UTC) and one second
    later, at 1000000000, [get_pendings] returns the later one first. *)
Theorem get_pendings_text_order :
  let older := {| fr_link := "https://x/2001S_FE.zip"; fr_last_modified := 999999999;
                  fr_content_hash := "h1"; fr_period_label := "2001 April" |} in
  let newer := {| fr_link := "https://x/2001A_FE.zip"; fr_last_modified := 1000000000;
                  fr_content_hash := "h2"; fr_period_label := "2001 October" |} in
  TelegramBot.get_pendings (store_of [older; newer] []) (PyStr "@channel") =
  [row_of_file newer; row_of_file older].
Proof. vm_compute. reflexivity. Qed.

(* ================================================================== *)
(** * Change detector and downloader *)
(* ================================================================== *)

(** C1.  When the HEAD request for a link is answered, passes
    [raise_for_status] and carries a [Last-Modified] header that parses to a
    timestamp, [is_file_changed] returns [False], whatever the store holds:
    [get_file] returns [None] or a list of rows, and neither is the object
    [True]. *)
Theorem is_file_changed_returns_False `{Platform} (link : string) (w : world)
    (resp : response) (header : string) (timestamp : Z) :
  http_request (length (w_requests w)) HEAD link = Returns resp ->
  status_ok resp = true ->
  last_modified_header resp = Some header ->
  parsedate_timestamp header = Returns timestamp ->
  is_file_changed link w =
  (Returns false,
   World (w_fs w) (w_db w) (w_requests w ++ [(HEAD, link)]) (w_sends w) (w_log w)
         (w_slept w)).
Proof.
  intros Hreq Hok Hhdr Hts.
  unfold is_file_changed, act_bind, request, raise_for_status, last_modified_of,
    act_lift, read_db, act_ret.
  rewrite Hreq, Hok. simpl. rewrite Hhdr, Hts. simpl.
  rewrite get_file_is_not_True. reflexivity.
Qed.

Lemma is_file_changed_returns_False_witness :
  let P := Sample.platform Sample.ok_response (fun _ => Returns tt) in
  let w := Sample.initial_world P []
             (store_of [ {| fr_link := "https://x/2021A_FE.zip";
                            fr_last_modified := 1700000000;
                            fr_content_hash := "h"; fr_period_label := "2021 October" |} ]
                       []) in
  fst (@is_file_changed P "https://x/2021A_FE.zip" w) = Returns false.
Proof.
  intros P w.
  rewrite (@is_file_changed_returns_False P "https://x/2021A_FE.zip" w
             (Response true (Some "Tue, 14 Nov 2023 22:13:20 GMT") "PK")
             "Tue, 14 Nov 2023 22:13:20 GMT" 1700000000%Z);
    reflexivity.
Defined.

(** C5.  When [download] is called with [refresh_file] false and, once the
    target directory is there, the computed local file exists on disk, it
    returns at once: no request is issued and the store is left as it was
    (in particular no file record is added); the call only logs that the
    file is skipped. *)
Theorem download_existing_file_is_skipped `{Platform}
    (path_suffix link year_month : string) (file_name_suffix : option string)
    (w : world) (fs' : FS) :
  let file_name := local_file_name link file_name_suffix in
  let directory := path_join data_dir path_suffix in
  mkdir_parents directory (w_fs w) = Returns fs' ->
  path_exists fs' (path_join directory file_name) = true ->
  download path_suffix link year_month file_name_suffix false w =
  (Returns tt,
   World fs' (w_db w) (w_requests w) (w_sends w)
         (w_log w ++ [InfoAlreadyDownloadedSkipping file_name]) (w_slept w)).
Proof.
  intros file_name directory Hmk Hex.
  unfold download, act_bind, on_fs, exists_on_disk.
  fold file_name. fold directory. rewrite Hmk. cbn [w_fs]. rewrite Hex. reflexivity.
Qed.

Lemma download_existing_file_is_skipped_witness :
  let P := Sample.platform Sample.ok_response (fun _ => Returns tt) in
  let db := store_of [ {| fr_link := "https://x/pastexamqa/fe/2021A_FE.zip";
                          fr_last_modified := 1700000000;
                          fr_content_hash := "h"; fr_period_label := "2021 October" |} ]
                     [] in
  let w := Sample.initial_world P ["data/2021/questions/2021A_FE.zip"; "data/2021/questions"] db in
  exists w',
    @download P "2021/questions" "https://x/pastexamqa/fe/2021A_FE.zip" "2021 October"
              None false w = (Returns tt, w') /\
    w_db w' = db /\ w_requests w' = [].
Proof.
  intros P db w. eexists. split.
  - apply (@download_existing_file_is_skipped P "2021/questions"
             "https://x/pastexamqa/fe/2021A_FE.zip" "2021 October" None w
             ["data/2021/questions/2021A_FE.zip"; "data/2021/questions"]);
      vm_compute; reflexivity.
  - split; reflexivity.
Defined.

(* ================================================================== *)
(** * Actions that only read the disk and write the log *)
(* ================================================================== *)

Section Quiet.

Context `{Platform}.

Lemma add_log_nil (w : world) : add_log w [] = w.
Proof. destruct w. unfold add_log. simpl. rewrite app_nil_r. reflexivity. Qed.

Lemma add_log_app (w : world) (l1 l2 : list log_entry) :
  add_log (add_log w l1) l2 = add_log w (l1 ++ l2).
Proof. unfold add_log. simpl. rewrite app_assoc. reflexivity. Qed.

Lemma quiet_run {A} (m : action A) (w : world) :
  quiet m -> exists l, m w = (fst (m w), add_log w l).
Proof. intros Hq. destruct (Hq w) as [l Hl]. exists l. apply Hl. reflexivity. Qed.

Lemma quiet_same_fs {A} (m : action A) (w1 w2 : world) :
  quiet m -> w_fs w1 = w_fs w2 -> fst (m w1) = fst (m w2).
Proof.
  intros Hq Hfs. destruct (Hq w2) as [l Hl]. rewrite (Hl w1 Hfs). reflexivity.
Qed.

Lemma quiet_ret {A} (a : A) : quiet (act_ret a).
Proof. intros w. exists []. intros w2 _. unfold act_ret. rewrite add_log_nil. reflexivity. Qed.

Lemma quiet_raise {A} (e : exn) : quiet (@act_raise _ A e).
Proof. intros w. exists []. intros w2 _. unfold act_raise. rewrite add_log_nil. reflexivity. Qed.

Lemma quiet_lift {A} (r : result A) : quiet (act_lift r).
Proof. intros w. exists []. intros w2 _. unfold act_lift. rewrite add_log_nil. reflexivity. Qed.

Lemma quiet_log (e : log_entry) : quiet (log e).
Proof. intros w. exists [e]. intros w2 _. reflexivity. Qed.

Lemma quiet_log_all (es : list log_entry) : quiet (log_all es).
Proof. intros w. exists es. intros w2 _. reflexivity. Qed.

Lemma quiet_exists_on_disk (path : string) : quiet (exists_on_disk path).
Proof.
  intros w. exists []. intros w2 Hfs. unfold exists_on_disk. simpl.
  rewrite add_log_nil, Hfs. reflexivity.
Qed.

Lemma quiet_item (data : gmap string string) (key : string) : quiet (item data key).
Proof. unfold item. destruct (data !! key); [apply quiet_ret | apply quiet_raise]. Qed.

Lemma quiet_bind {A B} (m : action A) (f : A -> action B) :
  quiet m -> (forall a, quiet (f a)) -> quiet (act_bind m f).
Proof.
  intros Hm Hf w. destruct (Hm w) as [l1 H1].
  destruct (m w) as [r w1] eqn:Em. simpl in H1.
  assert (Ew1 : w1 = add_log w l1).
  { specialize (H1 w eq_refl). rewrite Em in H1. congruence. }
  subst w1. destruct r as [a|e].
  - destruct (Hf a (add_log w l1)) as [l2 H2]. exists (l1 ++ l2). intros w2 Hfs.
    unfold act_bind. rewrite (H1 w2 Hfs), Em.
    rewrite (H2 (add_log w2 l1)) by exact Hfs. rewrite add_log_app. reflexivity.
  - exists l1. intros w2 Hfs. unfold act_bind. rewrite (H1 w2 Hfs), Em. reflexivity.
Qed.

End Quiet.

Ltac quiet_step :=
  match goal with
  | |- quiet (act_bind _ _) => apply quiet_bind; [|intros ?]
  | |- quiet (act_ret _) => apply quiet_ret
  | |- quiet (act_raise _) => apply quiet_raise
  | |- quiet (act_lift _) => apply quiet_lift
  | |- quiet (log _) => apply quiet_log
  | |- quiet (log_all _) => apply quiet_log_all
  | |- quiet (exists_on_disk _) => apply quiet_exists_on_disk
  | |- quiet (item _ _) => apply quiet_item
  | |- quiet (match ?x with _ => _ end) => destruct x
  | |- quiet (if ?x then _ else _) => destruct x
  end.

Section Preparation.

Context `{Platform}.

Lemma quiet_get_file_path_from_link_info (data : gmap string string) :
  quiet (get_file_path_from_link_info data).
Proof. unfold get_file_path_from_link_info. repeat quiet_step. Qed.

Lemma quiet_prepare_msg (record : file_row) : quiet (TelegramBot.prepare_msg record).
Proof.
  unfold TelegramBot.prepare_msg.
  repeat first [apply quiet_get_file_path_from_link_info | quiet_step].
Qed.

(** Preparing a message changes nothing but the log, and its result is
    the same in every world with the same files on disk. *)
Lemma prepare_msg_run (record : file_row) (w : world) :
  exists l, TelegramBot.prepare_msg record w = (prepared w record, add_log w l).
Proof. apply quiet_run, quiet_prepare_msg. Qed.

Lemma prepared_same_fs (record : file_row) (w1 w2 : world) :
  w_fs w1 = w_fs w2 -> prepared w1 record = prepared w2 record.
Proof. apply quiet_same_fs, quiet_prepare_msg. Qed.

End Preparation.

(* ================================================================== *)
(** * The delivery run *)
(* ================================================================== *)

Section Delivery.

Context `{Platform}.

Lemma text_affinity_py_of_cell (c : cell) : text_affinity (TelegramBot.py_of_cell c) = c.
Proof. destruct c; reflexivity. Qed.

(** One pass through the [try] statement: the send is attempted; when it
    returns, the delivery row is appended and the send is logged; when it
    raises [TelegramBadRequest], the failure is logged and nothing is
    appended; any other exception leaves the statement. *)
Lemma try_send_run (chat_id : string) (i : file_row) (pm : string * string) (w : world) :
  TelegramBot.try_send chat_id i pm w =
  let sends := w_sends w ++ [(chat_id, fst pm, snd pm)] in
  match send_document (length (w_sends w)) chat_id (fst pm) (snd pm) with
  | Returns _ =>
      (Returns tt,
       World (w_fs w)
             (Database (files (w_db w))
                       (telegram_msgs (w_db w) ++ [MsgRow (Some chat_id) (f_md5 i)]))
             (w_requests w) sends
             (w_log w ++ [InfoSent chat_id (path_name (snd pm))]) (w_slept w))
  | Raises TelegramBadRequest =>
      (Returns tt,
       World (w_fs w) (w_db w) (w_requests w) sends
             (w_log w ++ [InfoFailedToSend chat_id (fst pm) (snd pm)]) (w_slept w))
  | Raises e =>
      (Raises e, World (w_fs w) (w_db w) (w_requests w) sends (w_log w) (w_slept w))
  end.
Proof.
  unfold TelegramBot.try_send, TelegramBot.send, act_bind, read_db, write_db, log, add_log,
    TelegramBot.add_record.
  cbn [w_fs w_db w_requests w_sends w_log w_slept files telegram_msgs text_affinity].
  rewrite text_affinity_py_of_cell.
  destruct (send_document (length (w_sends w)) chat_id (fst pm) (snd pm)) as [[]|[]];
    reflexivity.
Qed.

(** The loop over a list cut in two: the second part runs from the world
    the first part ends in, unless the first part raises. *)
Lemma update_loop_app (chat_id : string) (pre post : list file_row) (w : world) :
  TelegramBot.update_loop chat_id (pre ++ post) w =
  match TelegramBot.update_loop chat_id pre w with
  | (Returns _, w1) => TelegramBot.update_loop chat_id post w1
  | (Raises e, w1) => (Raises e, w1)
  end.
Proof.
  revert w. induction pre as [|i pre IH]; intros w; [reflexivity|].
  cbn [app TelegramBot.update_loop]. unfold act_bind.
  destruct (TelegramBot.prepare_msg i w) as [[pm|e] w1]; [|reflexivity].
  destruct (TelegramBot.try_send chat_id i pm w1) as [[[]|e] w2]; [|reflexivity].
  destruct (sleep 3 w2) as [[[]|e] w3]; [|reflexivity].
  apply IH.
Qed.

(** The loop never touches the files on disk. *)
Lemma update_loop_fs (chat_id : string) (items : list file_row) (w : world) :
  w_fs (snd (TelegramBot.update_loop chat_id items w)) = w_fs w.
Proof.
  revert w. induction items as [|i items IH]; intros w; [reflexivity|].
  cbn [TelegramBot.update_loop]. unfold act_bind.
  destruct (prepare_msg_run i w) as [l ->].
  destruct (prepared w i) as [pm|e]; [|reflexivity].
  rewrite try_send_run. cbn zeta.
  destruct (send_document _ chat_id (fst pm) (snd pm)) as [[]|[]]; try reflexivity;
    unfold sleep; cbn [fst snd]; rewrite IH; reflexivity.
Qed.

Lemma expected_sends_same_fs (chat_id : string) (w1 w2 : world) (items : list file_row) :
  w_fs w1 = w_fs w2 -> expected_sends chat_id w1 items = expected_sends chat_id w2 items.
Proof.
  intros Hfs. induction items as [|i items IH]; [reflexivity|].
  simpl. rewrite IH, (prepared_same_fs i w1 w2 Hfs). reflexivity.
Qed.

Lemma expected_records_same_fs (n : nat) (chat_id : string) (w1 w2 : world)
    (items : list file_row) :
  w_fs w1 = w_fs w2 ->
  expected_records n chat_id w1 items = expected_records n chat_id w2 items.
Proof.
  intros Hfs. revert n. induction items as [|i items IH]; intros n; [reflexivity|].
  simpl. rewrite IH, (prepared_same_fs i w1 w2 Hfs). reflexivity.
Qed.

Lemma expected_failures_same_fs (n : nat) (chat_id : string) (w1 w2 : world)
    (items : list file_row) :
  w_fs w1 = w_fs w2 ->
  expected_failures n chat_id w1 items = expected_failures n chat_id w2 items.
Proof.
  intros Hfs. revert n. induction items as [|i items IH]; intros n; [reflexivity|].
  simpl. rewrite IH, (prepared_same_fs i w1 w2 Hfs). reflexivity.
Qed.

(** When every message can be prepared and a send can only return or
    raise [TelegramBadRequest], the loop runs to its end: it attempts every
    row in order, appends the delivery rows of the sends that returned and
    logs the sends that raised. *)
Lemma update_loop_run (chat_id : string) (items : list file_row) (w : world) :
  (forall i, In i items -> exists pm, prepared w i = Returns pm) ->
  (forall n c cap p e, send_document n c cap p = Raises e -> e = TelegramBadRequest) ->
  exists w',
    TelegramBot.update_loop chat_id items w = (Returns tt, w') /\
    w_fs w' = w_fs w /\
    files (w_db w') = files (w_db w) /\
    w_requests w' = w_requests w /\
    w_sends w' = w_sends w ++ expected_sends chat_id w items /\
    telegram_msgs (w_db w') =
      telegram_msgs (w_db w) ++ expected_records (length (w_sends w)) chat_id w items /\
    exists l, w_log w' = w_log w ++ l /\
              forall e, In e (expected_failures (length (w_sends w)) chat_id w items) -> In e l.
Proof.
  intros Hprep Hsend. revert w Hprep.
  induction items as [|i items IH]; intros w Hprep.
  - exists w. simpl. rewrite !app_nil_r. repeat split. exists [].
    rewrite app_nil_r. split; [reflexivity | intros e []].
  - destruct (Hprep i (or_introl eq_refl)) as [pm Hpm].
    destruct (prepare_msg_run i w) as [l0 Hrun]. rewrite Hpm in Hrun.
    cbn [TelegramBot.update_loop expected_sends expected_records expected_failures].
    unfold act_bind at 1. rewrite Hrun, Hpm.
    unfold act_bind at 1. rewrite try_send_run. cbn zeta.
    cbn [add_log w_fs w_db w_requests w_sends w_log w_slept].
    set (n := length (w_sends w)).
    destruct (send_document n chat_id (fst pm) (snd pm)) as [[]|e] eqn:Es.
    + (* the send returned *)
      unfold act_bind at 1, sleep at 1.
      cbn [w_fs w_db w_requests w_sends w_log w_slept].
      match goal with |- context [TelegramBot.update_loop chat_id items ?w1] =>
        destruct (IH w1) as (w' & Hloop & Hfs & Hfiles & Hreq & Hsends & Hmsgs & l & Hlog & Hfail)
      end.
      { intros j Hj. destruct (Hprep j (or_intror Hj)) as [pmj Hpmj]. exists pmj.
        rewrite <- Hpmj. apply prepared_same_fs. reflexivity. }
      cbn [w_fs w_db w_requests w_sends w_log w_slept files telegram_msgs] in *.
      exists w'. split; [exact Hloop|]. split; [exact Hfs|]. split; [exact Hfiles|].
      split; [exact Hreq|]. rewrite length_app, Nat.add_1_r in Hmsgs, Hfail. fold n in Hmsgs, Hfail.
      split; [|split].
      * rewrite Hsends, <- app_assoc. f_equal. f_equal.
        apply expected_sends_same_fs. reflexivity.
      * rewrite Hmsgs, <- app_assoc. f_equal. f_equal.
        apply expected_records_same_fs. reflexivity.
      * eexists. split; [rewrite Hlog, <- !app_assoc; reflexivity|].
        intros e He. rewrite !in_app_iff. right. right. apply Hfail.
        simpl in He. erewrite expected_failures_same_fs; [exact He | reflexivity].
    + (* the send raised: it is a bad request *)
      pose proof (Hsend _ _ _ _ _ Es) as ->.
      unfold act_bind at 1, sleep at 1.
      cbn [w_fs w_db w_requests w_sends w_log w_slept].
      match goal with |- context [TelegramBot.update_loop chat_id items ?w1] =>
        destruct (IH w1) as (w' & Hloop & Hfs & Hfiles & Hreq & Hsends & Hmsgs & l & Hlog & Hfail)
      end.
      { intros j Hj. destruct (Hprep j (or_intror Hj)) as [pmj Hpmj]. exists pmj.
        rewrite <- Hpmj. apply prepared_same_fs. reflexivity. }
      cbn [w_fs w_db w_requests w_sends w_log w_slept files telegram_msgs] in *.
      exists w'. split; [exact Hloop|]. split; [exact Hfs|]. split; [exact Hfiles|].
      split; [exact Hreq|]. rewrite length_app, Nat.add_1_r in Hmsgs, Hfail. fold n in Hmsgs, Hfail.
      split; [|split].
      * rewrite Hsends, <- app_assoc. f_equal. f_equal.
        apply expected_sends_same_fs. reflexivity.
      * rewrite Hmsgs. f_equal. apply expected_records_same_fs. reflexivity.
      * eexists. split; [rewrite Hlog, <- !app_assoc; reflexivity|].
        intros e He. rewrite !in_app_iff. simpl in He. destruct He as [<-|He].
        -- right. left. left. reflexivity.
        -- right. right. apply Hfail.
           erewrite expected_failures_same_fs; [exact He | reflexivity].
Qed.

End Delivery.

Section DeliveryClaims.

Context `{Platform}.

Lemma expected_sends_length (chat_id : string) (w : world) (items : list file_row) :
  (forall i, In i items -> exists pm, prepared w i = Returns pm) ->
  length (expected_sends chat_id w items) = length items.
Proof.
  induction items as [|i items IH]; intros Hprep; [reflexivity|].
  simpl. destruct (Hprep i (or_introl eq_refl)) as [pm ->]. simpl. f_equal.
  apply IH. intros j Hj. apply Hprep. right. exact Hj.
Qed.

(** The delivery rows of a run are rows of the channel for hashes of the
    batch. *)
Lemma expected_records_shape (n : nat) (chat_id : string) (w : world)
    (items : list file_row) (m : msg_row) :
  In m (expected_records n chat_id w items) ->
  exists j, In j items /\ m = MsgRow (Some chat_id) (f_md5 j).
Proof.
  revert n. induction items as [|i items IH]; intros n; simpl; [intros []|].
  rewrite in_app_iff. intros [Hm|Hm].
  - exists i. split; [left; reflexivity|].
    destruct (prepared w i) as [pm|]; [|destruct Hm].
    destruct (send_document n chat_id (fst pm) (snd pm)); [|destruct Hm].
    destruct Hm as [<-|[]]. reflexivity.
  - destruct (IH _ Hm) as (j & Hj & ->). exists j. split; [right; exact Hj | reflexivity].
Qed.

(** A pending row stays pending when the store gains delivery rows none
    of which is a row of the channel for its hash. *)
Lemma still_pending (chat_id : string) (db db' : database) (i : file_row)
    (added : list msg_row) :
  files db' = files db ->
  telegram_msgs db' = telegram_msgs db ++ added ->
  (forall m, In m added -> exists j, m = MsgRow (Some chat_id) (f_md5 j)) ->
  ~ In (MsgRow (Some chat_id) (f_md5 i)) added ->
  In i (TelegramBot.get_pendings db (PyStr chat_id)) ->
  In i (TelegramBot.get_pendings db' (PyStr chat_id)).
Proof.
  intros Hfiles Hmsgs Hshape Hnot Hi.
  apply (Permutation_in _ (proj1 (get_pendings_rows db (PyStr chat_id)))) in Hi.
  apply (Permutation_in _ (Permutation_sym (proj1 (get_pendings_rows db' (PyStr chat_id))))).
  apply List.filter_In in Hi as [Hin Hcond]. apply List.filter_In.
  rewrite Hfiles, Hmsgs. split; [exact Hin|].
  rewrite existsb_app. apply negb_true_iff in Hcond. rewrite Hcond. simpl.
  apply negb_true_iff. destruct (existsb _ added) eqn:Ex; [exfalso | reflexivity].
  apply existsb_exists in Ex as (m & Hm & Hjoin).
  destruct (Hshape m Hm) as [j ->]. apply Hnot.
  replace (f_md5 i) with (f_md5 j); [exact Hm|].
  unfold TelegramBot.pending_on in Hjoin. cbn [m_md5 m_chat_id] in Hjoin.
  destruct (f_md5 i) as [x|], (f_md5 j) as [y|]; simpl in Hjoin; try reflexivity;
    try (destruct (chat_id =? chat_id)%string; discriminate).
  destruct (String.eqb_spec x y) as [->|]; [reflexivity|].
  simpl in Hjoin. destruct (chat_id =? chat_id)%string; discriminate.
Qed.

(** C3, as the code has it.  In a delivery run in which the message of
    every pending file can be prepared and a send either returns or raises
    [TelegramBadRequest], [update] returns normally after attempting every
    pending file once, in the order of [get_pendings]; it appends a
    delivery row exactly for the files whose send returned, so none for a
    file whose send raised; it logs each send that raised; it leaves the
    table of files alone; and a pending file for whose hash the run appended
    no delivery row is still pending afterwards. *)
Theorem update_attempts_every_pending_file (chat_id : string) (w : world) :
  let pending := TelegramBot.get_pendings (w_db w) (PyStr chat_id) in
  (forall i, In i pending -> exists pm, prepared w i = Returns pm) ->
  (forall n c cap p e, send_document n c cap p = Raises e -> e = TelegramBadRequest) ->
  exists w',
    TelegramBot.update chat_id w = (Returns tt, w') /\
    files (w_db w') = files (w_db w) /\
    w_sends w' = w_sends w ++ expected_sends chat_id w pending /\
    length (expected_sends chat_id w pending) = length pending /\
    telegram_msgs (w_db w') =
      telegram_msgs (w_db w) ++ expected_records (length (w_sends w)) chat_id w pending /\
    (forall e, In e (expected_failures (length (w_sends w)) chat_id w pending) ->
               In e (w_log w')) /\
    (forall i, In i pending ->
               ~ In (MsgRow (Some chat_id) (f_md5 i))
                    (expected_records (length (w_sends w)) chat_id w pending) ->
               In i (TelegramBot.get_pendings (w_db w') (PyStr chat_id))).
Proof.
  intros pending Hprep Hsend.
  enough (Hmain : exists w',
    TelegramBot.update chat_id w = (Returns tt, w') /\
    files (w_db w') = files (w_db w) /\
    w_sends w' = w_sends w ++ expected_sends chat_id w pending /\
    length (expected_sends chat_id w pending) = length pending /\
    telegram_msgs (w_db w') =
      telegram_msgs (w_db w) ++ expected_records (length (w_sends w)) chat_id w pending /\
    (forall e, In e (expected_failures (length (w_sends w)) chat_id w pending) ->
               In e (w_log w'))).
  { destruct Hmain as (w' & Hup & Hfiles & Hsends & Hlen & Hmsgs & Hlog).
    exists w'. repeat (split; [assumption|]).
    intros i Hi Hnot.
    apply (still_pending chat_id (w_db w) (w_db w') i _ Hfiles Hmsgs); try assumption.
    intros m Hm. destruct (expected_records_shape _ _ _ _ _ Hm) as (j & _ & ->).
    exists j. reflexivity. }
  pose proof (expected_sends_length chat_id w pending Hprep) as Hlen.
  unfold TelegramBot.update, act_bind, read_db. fold pending.
  destruct pending as [|i0 rest] eqn:Ep.
  - exists (add_log w [InfoNoPendingFiles]). simpl. rewrite !app_nil_r.
    repeat split. intros e [].
  - set (w0 := add_log w [InfoFoundPendingFiles (length (i0 :: rest))]).
    unfold log at 1. fold w0.
    destruct (update_loop_run chat_id (i0 :: rest) w0)
      as (w' & Hloop & Hfs & Hfiles & Hreq & Hsends & Hmsgs & l & Hlog & Hfail).
    { intros j Hj. destruct (Hprep j Hj) as [pm Hpm]. exists pm. rewrite <- Hpm.
      apply prepared_same_fs. reflexivity. }
    { exact Hsend. }
    exists w'. split; [exact Hloop|]. split; [exact Hfiles|].
    rewrite (expected_sends_same_fs chat_id w0 w) in Hsends by reflexivity.
    rewrite (expected_records_same_fs _ chat_id w0 w) in Hmsgs by reflexivity.
    rewrite (expected_failures_same_fs _ chat_id w0 w) in Hfail by reflexivity.
    split; [exact Hsends|]. split; [exact Hlen|]. split; [exact Hmsgs|].
    intros e He. rewrite Hlog. apply in_or_app. right. apply Hfail, He.
Qed.

Lemma nonempty_branch {A B} (l : list A) (a b : B) :
  l <> [] -> match l with [] => a | _ :: _ => b end = b.
Proof. destruct l; [congruence | reflexivity]. Qed.

Lemma raises_bind {A B} (m : action A) (f : A -> action B) (w : world) :
  (forall a w', m w = (Returns a, w') -> raises (fst (f a w'))) ->
  raises (fst (act_bind m f w)).
Proof.
  intros Hf. unfold act_bind. destruct (m w) as [[a|e] w'].
  - apply (Hf a w'). reflexivity.
  - exists e. reflexivity.
Qed.

Lemma item_returns (data : gmap string string) (key v : string) (w w' : world) :
  item data key w = (Returns v, w') -> data !! key = Some v /\ w' = w.
Proof.
  unfold item. destruct (data !! key) as [x|]; [|discriminate].
  intros [= -> ->]. split; reflexivity.
Qed.

(** Preparing the message of a row raises when its link lacks a type, a
    level or a year, or when its local file is not on disk. *)
Lemma prepared_raises (record : file_row) (link : string) (w : world) :
  f_link record = Some link ->
  (let info := fst (get_info_from_link link) in
   info !! "type" = None \/ info !! "level" = None \/ info !! "year" = None \/
   fst (get_file_path_from_link_info info w) = Returns None) ->
  raises (prepared w record).
Proof.
  intros Hlink Hfail. unfold prepared, TelegramBot.prepare_msg. rewrite Hlink.
  apply raises_bind. intros seconds w1 E1.
  assert (w1 = w) as ->.
  { unfold act_raise, act_lift in E1. destruct (f_last_modified record); congruence. }
  apply raises_bind. intros last_modified w2 [= _ <-].
  apply raises_bind. intros link' w3 [= <- <-].
  destruct (get_info_from_link link) as [info warnings]. simpl in Hfail.
  apply raises_bind. intros [] w4 [= <-].
  apply raises_bind. intros file_path w5 E5.
  assert (Hpath : fst (get_file_path_from_link_info info (add_log w warnings)) =
                  fst (get_file_path_from_link_info info w)).
  { apply quiet_same_fs; [apply quiet_get_file_path_from_link_info | reflexivity]. }
  rewrite E5 in Hpath. simpl in Hpath.
  apply raises_bind. intros ty w6 [Ety ->]%item_returns.
  apply raises_bind. intros level w7 [Elevel ->]%item_returns.
  apply raises_bind. intros year w8 [Eyear ->]%item_returns.
  destruct Hfail as [Hf|[Hf|[Hf|Hf]]]; try congruence.
  assert (file_path = None) as -> by congruence.
  apply raises_bind. intros p w9 [=].
Qed.

(** C10.  When the message of a pending file cannot be prepared, because
    its link gives no type, level or year or because its local file is not
    on disk, [update] raises: the files before it in the batch have been
    handled, and neither this file nor any file after it is attempted (the
    sends and the store are those reached after the files before it). *)
Theorem update_stops_when_preparation_fails (chat_id : string) (w w1 : world)
    (pre post : list file_row) (i : file_row) (link : string) :
  TelegramBot.get_pendings (w_db w) (PyStr chat_id) = pre ++ i :: post ->
  TelegramBot.update_loop chat_id pre
    (add_log w [InfoFoundPendingFiles (length (pre ++ i :: post))]) = (Returns tt, w1) ->
  f_link i = Some link ->
  (let info := fst (get_info_from_link link) in
   info !! "type" = None \/ info !! "level" = None \/ info !! "year" = None \/
   fst (get_file_path_from_link_info info w) = Returns None) ->
  exists e w',
    TelegramBot.update chat_id w = (Raises e, w') /\
    w_sends w' = w_sends w1 /\ w_db w' = w_db w1.
Proof.
  intros Hpending Hpre Hlink Hfail.
  assert (Hfs : w_fs w1 = w_fs w).
  { pose proof (update_loop_fs chat_id pre
                  (add_log w [InfoFoundPendingFiles (length (pre ++ i :: post))])) as E.
    rewrite Hpre in E. exact E. }
  destruct (prepared_raises i link w1 Hlink) as [e He].
  { destruct Hfail as [Hf|[Hf|[Hf|Hf]]]; auto.
    right. right. right. rewrite <- Hf.
    apply quiet_same_fs; [apply quiet_get_file_path_from_link_info | exact Hfs]. }
  destruct (prepare_msg_run i w1) as [l Hrun]. rewrite He in Hrun.
  exists e, (add_log w1 l). split; [|split; reflexivity].
  unfold TelegramBot.update, act_bind at 1, read_db. rewrite Hpending.
  rewrite nonempty_branch by (destruct pre; discriminate).
  unfold act_bind at 1, log at 1.
  rewrite update_loop_app, Hpre. cbn [TelegramBot.update_loop].
  unfold act_bind at 1. rewrite Hrun. reflexivity.
Qed.

End DeliveryClaims.

Lemma update_attempts_every_pending_file_witness :
  let P := Sample.first_send_raises TelegramBadRequest in
  let w := Sample.initial_world P [Sample.path_a; Sample.path_b]
             (store_of [Sample.file_a; Sample.file_b] []) in
  exists w',
    @TelegramBot.update P "@channel" w = (Returns tt, w') /\
    length (w_sends w') = 2%nat /\
    telegram_msgs (w_db w') = [MsgRow (Some "@channel") (Some "h2")].
Proof.
  intros P w.
  destruct (@update_attempts_every_pending_file P "@channel" w)
    as (w' & Hup & _ & Hsends & Hlen & Hmsgs & _ & _).
  - intros i Hi. vm_compute in Hi. destruct Hi as [<-|[<-|[]]]; eexists; vm_compute; reflexivity.
  - intros n c cap p e. destruct n; simpl; congruence.
  - exists w'. split; [exact Hup|]. split.
    + rewrite Hsends, length_app, Hlen. reflexivity.
    + rewrite Hmsgs. vm_compute. reflexivity.
Defined.

(** C3, where the code departs from it.  Of two pending files, the send
    of the first raises an exception other than [TelegramBadRequest] (here
    a [TelegramAPIError]) and the send of the second would return:
    [update] raises at the first file, logs no failure, and never attempts
    the second. *)
Lemma update_send_failure_counterexample :
  let P := Sample.first_send_raises TelegramAPIError in
  let w := Sample.initial_world P [Sample.path_a; Sample.path_b]
             (store_of [Sample.file_a; Sample.file_b] []) in
  TelegramBot.get_pendings (w_db w) (PyStr "@channel") =
    [row_of_file Sample.file_a; row_of_file Sample.file_b] /\
  (forall c cap p, @send_document P 0 c cap p = Raises TelegramAPIError) /\
  (forall c cap p, @send_document P 1 c cap p = Returns tt) /\
  exists w',
    @TelegramBot.update P "@channel" w = (Raises TelegramAPIError, w') /\
    length (w_sends w') = 1%nat /\
    w_log w' = [InfoFoundPendingFiles 2] /\
    telegram_msgs (w_db w') = [].
Proof.
  intros P w. split; [vm_compute; reflexivity|].
  split; [reflexivity|]. split; [reflexivity|].
  eexists. split; [vm_compute; reflexivity|]. repeat split.
Qed.

Lemma update_stops_when_preparation_fails_witness :
  let P := Sample.all_sends_return in
  let w := Sample.initial_world P [Sample.path_a]
             (store_of [Sample.file_a; Sample.file_b] []) in
  exists e w',
    @TelegramBot.update P "@channel" w = (Raises e, w') /\
    length (w_sends w') = 1%nat /\
    telegram_msgs (w_db w') = [MsgRow (Some "@channel") (Some "h1")].
Proof.
  intros P w.
  pose (w0 := add_log w [InfoFoundPendingFiles 2]).
  destruct (@update_stops_when_preparation_fails P "@channel" w
              (snd (@TelegramBot.update_loop P "@channel" [row_of_file Sample.file_a] w0))
              [row_of_file Sample.file_a] [] (row_of_file Sample.file_b)
              "https://x/pastexamqa/ip/2022S_IP.zip")
    as (e & w' & Hup & Hsends & Hdb).
  - vm_compute. reflexivity.
  - vm_compute. reflexivity.
  - reflexivity.
  - right. right. right. vm_compute. reflexivity.
  - exists e, w'. split; [exact Hup|]. rewrite Hsends, Hdb. split; vm_compute; reflexivity.
Defined.

(* ================================================================== *)
(** * Classification of links *)
(* ================================================================== *)

(** Two ways of cutting the same text: the shorter first part is a prefix
    of the longer one. *)
Lemma str_app_compare (p1 s1 p2 s2 : string) :
  p1 +:+ s1 = p2 +:+ s2 -> (String.length p2 < String.length p1)%nat ->
  exists mid, mid <> "" /\ p1 = p2 +:+ mid /\ s2 = mid +:+ s1.
Proof.
  revert p2. induction p1 as [|c p1 IH]; intros p2 E Hlt; [simpl in Hlt; lia|].
  destruct p2 as [|d p2].
  - rewrite str_app_nil_l in E. exists (String c p1).
    split; [discriminate|]. split; [reflexivity | symmetry; exact E].
  - rewrite !str_app_cons in E. injection E as -> E. simpl in Hlt.
    destruct (IH p2 E) as (mid & Hne & -> & ->); [lia|].
    exists mid. split; [exact Hne|]. split; reflexivity.
Qed.

Lemma has_path_segment_contains (prefix link : string) :
  has_path_segment prefix link -> contains prefix link.
Proof. intros (pre & seg & post & -> & _). exists pre. eexists. reflexivity. Qed.

(** A match of [<prefix>/([^/]+)/] lies on such a path segment. *)
Lemma search_path_segment_sound (prefix link seg : string) :
  search (re_path_segment prefix) link = Some seg -> has_path_segment prefix link.
Proof.
  intros Hs. apply search_Some in Hs as (pre & s & r & rest & -> & Em & _).
  assert (Hin : In (seg, r) (re_path_segment prefix s)) by (rewrite Em; left; reflexivity).
  unfold re_path_segment in Hin.
  apply in_bind in Hin as (x1 & r1 & H1 & Hin). apply in_lit_exact in H1 as [-> ->].
  apply in_bind in Hin as (x2 & r2 & H2 & Hin). apply in_lit_exact in H2 as [-> ->].
  apply in_bind in Hin as (x3 & r3 & H3 & Hin). apply in_plus in H3 as (-> & Hne & Hall).
  apply in_bind in Hin as (x4 & r4 & H4 & Hin). apply in_lit_exact in H4 as [-> ->].
  apply in_ret in Hin as [-> ->].
  exists pre, x3, r4. split; [reflexivity|]. split; [exact Hne|].
  eapply Forall_impl; [exact Hall|]. intros c Hc ->. discriminate.
Qed.

(** The successes of [(IP|FE|AP)], matched as written. *)
Lemma in_re_exam_code (s x r : string) :
  In (x, r) (re_exam_code Ascii.eqb s) <->
  (x = "IP" \/ x = "FE" \/ x = "AP") /\ s = x +:+ r.
Proof.
  unfold re_exam_code. rewrite !in_alt. split.
  - intros [Hin|[Hin|Hin]]; apply in_lit_exact in Hin as [-> ->]; auto.
  - intros [[ -> | [ -> | -> ]] ->]; [left | right; left | right; right];
      rewrite lit_exact_app; left; reflexivity.
Qed.

Lemma search_exam_code_None (link : string) :
  search (re_exam_code Ascii.eqb) link = None <-> ~ contains_exam_code link.
Proof.
  rewrite search_None. split.
  - intros Hall Hc.
    assert (Hex : exists code pre post,
               (code = "IP" \/ code = "FE" \/ code = "AP") /\ link = pre +:+ code +:+ post).
    { destruct Hc as [(pre & post & ->)|[(pre & post & ->)|(pre & post & ->)]];
        eexists _, pre, post; (split; [|reflexivity]); auto. }
    destruct Hex as (code & pre & post & Hcode & ->).
    assert (Hin : In (code, post) (re_exam_code Ascii.eqb (code +:+ post))).
    { apply in_re_exam_code. split; [exact Hcode | reflexivity]. }
    rewrite (Hall pre (code +:+ post) eq_refl) in Hin. destruct Hin.
  - intros Hno pre s ->. destruct (re_exam_code Ascii.eqb s) as [|[x r] l] eqn:Em; [reflexivity|].
    exfalso. apply Hno.
    assert (Hin : In (x, r) (re_exam_code Ascii.eqb s)) by (rewrite Em; left; reflexivity).
    apply in_re_exam_code in Hin as [[ -> | [ -> | -> ]] ->];
      [left | right; left | right; right]; exists pre, r; reflexivity.
Qed.

(** A match of [(IP|FE|AP)] is the leftmost occurrence of a code. *)
Lemma search_exam_code_Some (link code : string) :
  search (re_exam_code Ascii.eqb) link = Some code ->
  (code = "IP" \/ code = "FE" \/ code = "AP") /\
  exists pre post,
    link = pre +:+ code +:+ post /\
    forall pre' code' post',
      link = pre' +:+ code' +:+ post' ->
      code' = "IP" \/ code' = "FE" \/ code' = "AP" ->
      (String.length pre <= String.length pre')%nat.
Proof.
  intros Hs. apply search_Some in Hs as (pre & s & r & rest & -> & Em & Hleft).
  assert (Hin : In (code, r) (re_exam_code Ascii.eqb s)) by (rewrite Em; left; reflexivity).
  apply in_re_exam_code in Hin as [Hcode ->]. split; [exact Hcode|].
  exists pre, r. split; [reflexivity|].
  intros pre' code' post' E Hcode'.
  destruct (Nat.le_gt_cases (String.length pre) (String.length pre')) as [Hle|Hlt];
    [exact Hle | exfalso].
  destruct (str_app_compare _ _ _ _ E Hlt) as (mid & Hne & Epre & Emid).
  assert (Hin : In (code', post') (re_exam_code Ascii.eqb (code' +:+ post'))).
  { apply in_re_exam_code. split; [exact Hcode' | reflexivity]. }
  rewrite Emid, (Hleft pre' mid Epre Hne) in Hin. destruct Hin.
Qed.

(** The type and the level [get_info_from_link] records, by the outcome
    of its two searches. *)
Lemma get_info_type_level (link : string) :
  let info := fst (get_info_from_link link) in
  match search (re_path_segment "pastexamqa") link with
  | Some seg => info !! "type" = Some "question" /\ info !! "level" = Some (py_lower seg)
  | None =>
      match search (re_exam_code Ascii.eqb) link with
      | Some code => info !! "type" = Some "result" /\ info !! "level" = Some (py_lower code)
      | None => info !! "type" = None /\ info !! "level" = None
      end
  end.
Proof.
  unfold get_info_from_link.
  destruct (search (re_path_segment "pastexamqa") link) as [seg|];
    [|destruct (search (re_exam_code Ascii.eqb) link) as [code|]];
    destruct (search (re_path_segment "all-passers-information") link) as [country|];
    destruct (negb (str_in "pastexamqa" link));
    destruct (truthy (get_year_from_txt link));
    cbn [fst]; split; simplify_map_eq; reflexivity.
Qed.

(** C6, as the code has it.  For a link without a [pastexamqa/<segment>/]
    part, [get_info_from_link] records the type ["result"] and a level
    exactly when the link contains [IP], [FE] or [AP] in capitals; the
    level is then the leftmost such code of the link, in lower case.  When
    the link contains none of them in capitals, neither a type nor a level
    is recorded. *)
Theorem get_info_from_link_result_level (link : string) :
  ~ has_path_segment "pastexamqa" link ->
  let info := fst (get_info_from_link link) in
  (contains_exam_code link ->
   info !! "type" = Some "result" /\
   exists pre code post,
     link = pre +:+ code +:+ post /\
     (code = "IP" \/ code = "FE" \/ code = "AP") /\
     info !! "level" = Some (py_lower code) /\
     forall pre' code' post',
       link = pre' +:+ code' +:+ post' ->
       code' = "IP" \/ code' = "FE" \/ code' = "AP" ->
       (String.length pre <= String.length pre')%nat) /\
  (~ contains_exam_code link -> info !! "type" = None /\ info !! "level" = None).
Proof.
  intros Hno info. pose proof (get_info_type_level link) as Hinfo. fold info in Hinfo.
  destruct (search (re_path_segment "pastexamqa") link) as [seg|] eqn:E0.
  { exfalso. apply Hno. eapply search_path_segment_sound, E0. }
  destruct (search (re_exam_code Ascii.eqb) link) as [code|] eqn:E1.
  - destruct Hinfo as [Hty Hlv].
    destruct (search_exam_code_Some link code E1) as (Hcode & pre & post & Elink & Hleft).
    split.
    + intros _. split; [exact Hty|]. exists pre, code, post. repeat split; assumption.
    + intros Hnc. exfalso. apply search_exam_code_None in Hnc. congruence.
  - split.
    + intros Hc. exfalso. apply search_exam_code_None in E1. apply E1, Hc.
    + intros _. exact Hinfo.
Qed.

Lemma no_path_segment_by_search (prefix link : string) :
  str_in prefix link = false -> ~ has_path_segment prefix link.
Proof.
  intros Hs Hp. apply has_path_segment_contains, str_in_contains in Hp. congruence.
Qed.

Lemma get_info_from_link_result_level_witness :
  let link := "https://x/all-passers-information/japan/2021A_FE_Passers.pdf" in
  ~ has_path_segment "pastexamqa" link /\
  fst (get_info_from_link link) !! "type" = Some "result".
Proof.
  intros link.
  assert (Hno : ~ has_path_segment "pastexamqa" link).
  { apply no_path_segment_by_search. vm_compute. reflexivity. }
  split; [exact Hno|].
  apply (proj1 (get_info_from_link_result_level link Hno)).
  right. left. exists "https://x/all-passers-information/japan/2021A_", "_Passers.pdf".
  reflexivity.
Defined.

(** C6, where the code departs from it.  The link
    [https://x/fe2021.zip] has no [pastexamqa/<segment>/] part and contains
    the exam code [fe] in lower case, yet [get_info_from_link] records
    neither a type nor a level for it: [(IP|FE|AP)] is searched without
    [re.IGNORECASE]. *)
Lemma get_info_from_link_lowercase_counterexample :
  let link := "https://x/fe2021.zip" in
  ~ has_path_segment "pastexamqa" link /\
  contains_exam_code_any_case link /\
  fst (get_info_from_link link) !! "type" = None /\
  fst (get_info_from_link link) !! "level" = None.
Proof.
  intros link. split; [|split; [|split]].
  - apply no_path_segment_by_search. vm_compute. reflexivity.
  - exists "https://x/", "fe", "2021.zip". split; [reflexivity|]. right. left. reflexivity.
  - vm_compute. reflexivity.
  - vm_compute. reflexivity.
Qed.

(* ================================================================== *)
(** * More on year extraction *)
(* ================================================================== *)

Lemma findall_head {A} (m : matcher A) (s : string) (a : A) (r : string)
    (l : list (A * string)) :
  m s = (a, r) :: l -> exists tl, findall m s = a :: tl.
Proof.
  intros Em. unfold findall. destruct s; simpl; rewrite Em; eexists; reflexivity.
Qed.

(** [findall] passes over a prefix in which the matcher succeeds
    nowhere. *)
Lemma findall_skip_prefix {A} (m : matcher A) (pre s : string) :
  (forall p1 p2, pre = p1 +:+ p2 -> p2 <> "" -> m (p2 +:+ s) = []) ->
  findall m (pre +:+ s) = findall m s.
Proof.
  unfold findall. induction pre as [|c pre IH]; intros Hno; [reflexivity|].
  rewrite str_app_cons. simpl.
  assert (E : m (String c pre +:+ s) = []) by (apply (Hno ""); easy).
  rewrite str_app_cons in E. rewrite E. apply IH.
  intros p1 p2 -> Hne. apply (Hno (String c p1)); [reflexivity | exact Hne].
Qed.

(** The first match of the first pattern decides the year: it is the
    second group of that match. *)
Lemma get_year_first_match (text : string) (g : string * string)
    (gs : list (string * string)) :
  findall re_year_groups text = g :: gs -> get_year_from_txt text = Some (snd g).
Proof.
  intros Ef. unfold get_year_from_txt. rewrite Ef.
  destruct (findall_from_in re_year_groups text 0 g) as (pre & s & r & rest & -> & Em).
  { unfold findall in Ef. rewrite Ef. left. reflexivity. }
  destruct g as [g1 g2].
  destruct (in_re_year_groups s (g1, g2) r) as (_ & Hlen & _ & Hg1).
  { rewrite Em. left. reflexivity. }
  simpl in Hlen, Hg1 |- *.
  assert ((String.length g1 =? 4)%nat = false) as -> by (apply Nat.eqb_neq; lia).
  rewrite Hlen. reflexivity.
Qed.

Lemma all_digits_cons (c : ascii) (s : string) :
  all_digits (String c s) <-> is_digit c = true /\ all_digits s.
Proof.
  unfold all_digits. simpl. split.
  - intros Hall. inversion Hall. split; assumption.
  - intros [Hc Hs]. constructor; assumption.
Qed.

Lemma all_digits_app (s t : string) :
  all_digits (s +:+ t) <-> all_digits s /\ all_digits t.
Proof. unfold all_digits. rewrite list_ascii_app. apply Forall_app. Qed.

(** Two ways of cutting the same text: one first part is a prefix of the
    other. *)
Lemma str_app_cases (a b c d : string) :
  a +:+ b = c +:+ d ->
  (exists m, a = c +:+ m /\ d = m +:+ b) \/ (exists m, c = a +:+ m /\ b = m +:+ d).
Proof.
  revert c. induction a as [|x a IH]; intros c E.
  - right. exists c. rewrite str_app_nil_l in E. split; [reflexivity | exact E].
  - destruct c as [|y c].
    + left. exists (String x a). rewrite str_app_nil_l in E.
      split; [reflexivity | symmetry; exact E].
    + rewrite !str_app_cons in E. injection E as -> E.
      destruct (IH c E) as [(m & -> & ->)|(m & -> & ->)].
      * left. exists m. split; reflexivity.
      * right. exists m. split; reflexivity.
Qed.

Lemma str_snoc_inv (s : string) :
  s <> "" -> exists p c, s = p +:+ String c "".
Proof.
  induction s as [|x s IH]; [congruence|]. intros _. destruct s as [|y s].
  - exists "", x. reflexivity.
  - destruct IH as (p & c & E); [discriminate|]. exists (String x p), c.
    rewrite E. reflexivity.
Qed.

Lemma str_snoc_inj (p q : string) (c d : ascii) :
  p +:+ String c "" = q +:+ String d "" -> p = q /\ c = d.
Proof.
  revert q. induction p as [|x p IH]; intros q E.
  - destruct q as [|y q]; [injection E as ->; split; reflexivity|].
    rewrite str_app_nil_l, str_app_cons in E. injection E as _ E.
    destruct q; discriminate.
  - destruct q as [|y q].
    + rewrite str_app_nil_l, str_app_cons in E. injection E as _ E.
      destruct p; discriminate.
    + rewrite !str_app_cons in E. injection E as -> E.
      destruct (IH q E) as [-> ->]. split; reflexivity.
Qed.

Lemma ends_without_digit_snoc (p : string) (c : ascii) :
  ends_without_digit (p +:+ String c "") <-> is_digit c = false.
Proof.
  split.
  - intros He. apply (He p c). reflexivity.
  - intros Hc q d E. apply str_snoc_inj in E as [_ <-]. exact Hc.
Qed.

(** No match of the first pattern starts inside a text that has no four
    digits in a row and does not end with a digit, whatever follows. *)
Lemma re_year_groups_not_before (pre s : string) :
  ~ has_digit_run 4 pre -> ends_without_digit pre ->
  forall p1 p2, pre = p1 +:+ p2 -> p2 <> "" -> re_year_groups (p2 +:+ s) = [].
Proof.
  intros Hno Hend p1 p2 -> Hne.
  destruct (re_year_groups (p2 +:+ s)) as [|[g r] l] eqn:Em; [reflexivity | exfalso].
  assert (Hin : In (g, r) (re_year_groups (p2 +:+ s))) by (rewrite Em; left; reflexivity).
  clear Em. unfold re_year_groups in Hin.
  apply in_bind in Hin as (g1 & r1 & Hg1 & Hin).
  apply in_bind in Hin as (g2 & r2 & Hg2 & Hin). clear Hin.
  apply in_count in Hg2 as (-> & Hlen2 & Hall2).
  (* the text at this position starts with some digits [d], at least four *)
  assert (Hd : exists d r', p2 +:+ s = d +:+ r' /\ (4 <= String.length d)%nat /\ all_digits d).
  { apply in_opt in Hg1 as [(a & -> & Ha)|[-> E]].
    - apply in_count in Ha as (E & Hlen1 & Hall1). exists (a +:+ g2), r2.
      rewrite str_app_assoc. split; [exact E|]. split.
      + rewrite str_app_length. lia.
      + apply all_digits_app. split; assumption.
    - exists g2, r2. split; [congruence|]. split; [lia | exact Hall2]. }
  destruct Hd as (d & r' & E & Hlen & Hall).
  destruct (str_app_cases _ _ _ _ E) as [(m & -> & _)|(m & -> & _)].
  - (* the digits lie inside [p2] *)
    apply Hno. apply has_digit_run_app.
    assert (Hd4 : exists d4 d', d = d4 +:+ d' /\ String.length d4 = 4%nat).
    { destruct d as [|c1 [|c2 [|c3 [|c4 d']]]]; simpl in Hlen; try lia.
      exists (String c1 (String c2 (String c3 (String c4 "")))), d'.
      split; reflexivity. }
    destruct Hd4 as (d4 & d' & -> & Hlen4).
    apply all_digits_app in Hall as [Hall _].
    exists "", d4, (d' +:+ m). rewrite !str_app_assoc. repeat split; assumption.
  - (* [p2] is made of digits: the text before ends with a digit *)
    destruct (str_snoc_inv p2 Hne) as (q & c & ->).
    rewrite !all_digits_app in Hall. destruct Hall as [[_ Hc] _].
    apply all_digits_cons in Hc as [Hc _].
    rewrite <- str_app_assoc in Hend. rewrite (Hend (p1 +:+ q) c eq_refl) in Hc.
    discriminate.
Qed.

(** The first pattern on a text that starts with a run of digits: with
    six digits or more it takes two digits for group 1 and the next four
    for group 2; with four or five it leaves group 1 out and takes the
    first four. *)
Lemma re_year_groups_at_run (run post : string) :
  all_digits run -> (4 <= String.length run)%nat -> starts_without_digit post ->
  exists g1 r l,
    re_year_groups (run +:+ post) =
      ((g1, if (6 <=? String.length run)%nat
            then String.substring 2 4 run else String.substring 0 4 run), r) :: l.
Proof.
  intros Hall Hlen Hpost.
  destruct run as [|a [|b [|c [|d rest]]]]; simpl in Hlen; try lia. clear Hlen.
  apply all_digits_cons in Hall as [Ha Hall]. apply all_digits_cons in Hall as [Hb Hall].
  apply all_digits_cons in Hall as [Hc Hall]. apply all_digits_cons in Hall as [Hd Hall].
  assert (H2 : forall t, count 2 is_digit (String a (String b t)) = [(String a (String b ""), t)]).
  { intros t. apply (count_complete 2 is_digit (String a (String b "")) t eq_refl).
    repeat constructor; assumption. }
  assert (H4 : forall x y z u t,
             is_digit x = true -> is_digit y = true -> is_digit z = true ->
             is_digit u = true ->
             count 4 is_digit (String x (String y (String z (String u t)))) =
             [(String x (String y (String z (String u ""))), t)]).
  { intros x y z u t Hx Hy Hz Hu.
    apply (count_complete 4 is_digit (String x (String y (String z (String u "")))) t eq_refl).
    repeat constructor; assumption. }
  rewrite !str_app_cons. unfold re_year_groups, bind, opt. rewrite H2.
  cbn [map flat_map app fst snd].
  destruct rest as [|e [|f rest]].
  - (* four digits: two digits, then no four *)
    rewrite str_app_nil_l.
    assert (count 4 is_digit (String c (String d post)) = []) as ->.
    { simpl. unfold bind. simpl. rewrite Hc. simpl. rewrite Hd. simpl.
      destruct post as [|x post]; [reflexivity|]. simpl in Hpost |- *. rewrite Hpost.
      reflexivity. }
    rewrite (H4 a b c d post Ha Hb Hc Hd). simpl. eexists _, _, _. reflexivity.
  - (* five digits: two digits, then no four *)
    apply all_digits_cons in Hall as [He _]. rewrite str_app_cons, str_app_nil_l.
    assert (count 4 is_digit (String c (String d (String e post))) = []) as ->.
    { simpl. unfold bind. simpl. rewrite Hc. simpl. rewrite Hd. simpl. rewrite He. simpl.
      destruct post as [|x post]; [reflexivity|]. simpl in Hpost |- *. rewrite Hpost.
      reflexivity. }
    rewrite (H4 a b c d (String e post) Ha Hb Hc Hd). simpl. eexists _, _, _. reflexivity.
  - (* six digits or more: two digits, then four *)
    apply all_digits_cons in Hall as [He Hall]. apply all_digits_cons in Hall as [Hf _].
    rewrite !str_app_cons. rewrite (H4 c d e f (rest +:+ post) Hc Hd He Hf).
    simpl. assert (String.substring 0 0 rest = "") as -> by (destruct rest; reflexivity).
    eexists _, _, _. reflexivity.
Qed.

(** X1.  The year comes from the leftmost run of at least four digits of
    the text: its first four digits when the run has four or five digits,
    its third to sixth digits when it has six or more. *)
Theorem get_year_from_txt_leftmost_run (pre run post : string) :
  ~ has_digit_run 4 pre -> ends_without_digit pre ->
  all_digits run -> (4 <= String.length run)%nat ->
  starts_without_digit post ->
  get_year_from_txt (pre +:+ run +:+ post) =
  Some (if (6 <=? String.length run)%nat
        then String.substring 2 4 run else String.substring 0 4 run).
Proof.
  intros Hno Hend Hall Hlen Hpost.
  destruct (re_year_groups_at_run run post Hall Hlen Hpost) as (g1 & r & l & Em).
  destruct (findall_head _ _ _ _ _ Em) as [tl Ef].
  rewrite <- (findall_skip_prefix re_year_groups pre) in Ef.
  - apply (get_year_first_match _ _ _ Ef).
  - apply re_year_groups_not_before; assumption.
Qed.

Lemma get_year_from_txt_leftmost_run_witness :
  get_year_from_txt ("exam_" +:+ "20240415" +:+ ".pdf") = Some "2404" /\
  get_year_from_txt ("IPApril" +:+ "2012" +:+ ".zip") = Some "2012".
Proof.
  split.
  - apply (get_year_from_txt_leftmost_run "exam_" "20240415" ".pdf").
    + intros H. apply has_digit_run_search in H. apply H. vm_compute. reflexivity.
    + apply (ends_without_digit_snoc "exam" "_"). reflexivity.
    + repeat constructor.
    + simpl. lia.
    + reflexivity.
  - apply (get_year_from_txt_leftmost_run "IPApril" "2012" ".zip").
    + intros H. apply has_digit_run_search in H. apply H. vm_compute. reflexivity.
    + apply (ends_without_digit_snoc "IPApri" "l"). reflexivity.
    + repeat constructor.
    + simpl. lia.
    + reflexivity.
Defined.

Lemma year_found_iff_digit_run (text : string) :
  ((exists y, get_year_from_txt text = Some y) <-> has_digit_run 4 text) /\
  (forall y, get_year_from_txt text = Some y ->
             String.length y = 4%nat /\ all_digits y /\ contains y text).
Proof.
  split; [|intros y; apply get_year_from_txt_some].
  split.
  - intros [y Hy]. destruct (get_year_from_txt_some text y Hy) as (Hlen & Hall & pre & post & ->).
    exists pre, y, post. repeat split; assumption.
  - intros (pre & run & post & -> & Hlen & Hall).
    destruct (findall re_year_groups (pre +:+ run +:+ post)) as [|g gs] eqn:Ef.
    + exfalso. apply (re_year_groups_complete run post Hlen Hall).
      apply (findall_nil_inv _ _ Ef pre). reflexivity.
    + exists (snd g). apply (get_year_first_match _ _ _ Ef).
Qed.

(** X2.  [get_year_from_txt] returns a value exactly when the text has
    four digits in a row, and the value is always four digits of the text:
    the second pattern, which could return a token such as [IP2012], never
    decides. *)
Theorem get_year_from_txt_value (text : string) :
  ((exists y, get_year_from_txt text = Some y) <-> has_digit_run 4 text) /\
  (forall y, get_year_from_txt text = Some y ->
             String.length y = 4%nat /\ all_digits y /\ contains y text).
Proof. apply year_found_iff_digit_run. Qed.

Lemma get_year_from_txt_value_witness :
  has_digit_run 4 "2019S_FE.pdf" /\ String.length "2019" = 4%nat.
Proof.
  split.
  - apply (proj1 (proj1 (get_year_from_txt_value "2019S_FE.pdf"))).
    exists "2019". vm_compute. reflexivity.
  - apply (proj2 (get_year_from_txt_value "2019S_FE.pdf") "2019"). vm_compute. reflexivity.
Defined.

(* ================================================================== *)
(** * More on the classification of links *)
(* ================================================================== *)

Lemma not_slash_true (c : ascii) : not_slash c = true <-> c <> "/"%char.
Proof.
  unfold not_slash. destruct (Ascii.eqb_spec c "/"%char) as [->|Hne]; simpl.
  - split; [discriminate | congruence].
  - split; [intros _; exact Hne | reflexivity].
Qed.

(** [<prefix>/([^/]+)/] succeeds where such a path segment starts, and
    takes the segment. *)
Lemma re_path_segment_complete (prefix seg post : string) :
  seg <> "" -> Forall (fun c => c <> "/"%char) (list_ascii_of_string seg) ->
  exists l,
    re_path_segment prefix (prefix +:+ "/" +:+ seg +:+ "/" +:+ post) = (seg, post) :: l.
Proof.
  intros Hne Hall.
  destruct (plus_longest not_slash seg ("/" +:+ post) Hne) as [rest Hplus].
  { eapply Forall_impl; [exact Hall|]. intros c Hc. apply not_slash_true, Hc. }
  { reflexivity. }
  unfold re_path_segment, bind. rewrite lit_exact_app. cbn [flat_map fst snd].
  rewrite lit_exact_app. cbn [flat_map fst snd]. rewrite Hplus.
  cbn [flat_map fst snd app]. rewrite lit_exact_app. cbn [flat_map fst snd app ret].
  eexists. reflexivity.
Qed.

(** A successful search for [<prefix>/([^/]+)/] returns the segment of
    the leftmost such part of the link. *)
Lemma search_path_segment_Some (prefix link seg : string) :
  search (re_path_segment prefix) link = Some seg ->
  exists pre post,
    link = pre +:+ prefix +:+ "/" +:+ seg +:+ "/" +:+ post /\
    seg <> "" /\ Forall (fun c => c <> "/"%char) (list_ascii_of_string seg) /\
    forall pre' seg' post',
      link = pre' +:+ prefix +:+ "/" +:+ seg' +:+ "/" +:+ post' ->
      seg' <> "" -> Forall (fun c => c <> "/"%char) (list_ascii_of_string seg') ->
      (String.length pre <= String.length pre')%nat.
Proof.
  intros Hs. apply search_Some in Hs as (pre & s & r & rest & -> & Em & Hleft).
  assert (Hin : In (seg, r) (re_path_segment prefix s)) by (rewrite Em; left; reflexivity).
  unfold re_path_segment in Hin.
  apply in_bind in Hin as (x1 & r1 & H1 & Hin). apply in_lit_exact in H1 as [-> ->].
  apply in_bind in Hin as (x2 & r2 & H2 & Hin). apply in_lit_exact in H2 as [-> ->].
  apply in_bind in Hin as (x3 & r3 & H3 & Hin). apply in_plus in H3 as (-> & Hne & Hall).
  apply in_bind in Hin as (x4 & r4 & H4 & Hin). apply in_lit_exact in H4 as [-> ->].
  apply in_ret in Hin as [-> ->].
  exists pre, r4. split; [reflexivity|]. split; [exact Hne|]. split.
  { eapply Forall_impl; [exact Hall|]. intros c Hc. apply not_slash_true, Hc. }
  intros pre' seg' post' E Hne' Hall'.
  destruct (Nat.le_gt_cases (String.length pre) (String.length pre')) as [Hle|Hlt];
    [exact Hle | exfalso].
  destruct (str_app_compare _ _ _ _ E Hlt) as (mid & Hmid & Epre & Emid).
  destruct (re_path_segment_complete prefix seg' post' Hne' Hall') as [l El].
  rewrite Emid, (Hleft pre' mid Epre Hmid) in El. discriminate.
Qed.

Lemma search_path_segment_None (prefix link : string) :
  search (re_path_segment prefix) link = None <-> ~ has_path_segment prefix link.
Proof.
  split.
  - intros Hs (pre & seg & post & -> & Hne & Hall).
    rewrite search_None in Hs.
    destruct (re_path_segment_complete prefix seg post Hne Hall) as [l El].
    rewrite (Hs pre _ eq_refl) in El. discriminate.
  - intros Hno. destruct (search (re_path_segment prefix) link) as [seg|] eqn:E;
      [|reflexivity].
    exfalso. eapply Hno, search_path_segment_sound, E.
Qed.

(** X3.  A link with a [pastexamqa/<segment>/] part is a question: the
    type recorded is ["question"] and the level is the segment of the
    leftmost such part, in lower case. *)
Theorem get_info_from_link_question (link : string) :
  has_path_segment "pastexamqa" link ->
  let info := fst (get_info_from_link link) in
  info !! "type" = Some "question" /\
  exists pre seg post,
    link = pre +:+ "pastexamqa" +:+ "/" +:+ seg +:+ "/" +:+ post /\
    seg <> "" /\ Forall (fun c => c <> "/"%char) (list_ascii_of_string seg) /\
    info !! "level" = Some (py_lower seg) /\
    forall pre' seg' post',
      link = pre' +:+ "pastexamqa" +:+ "/" +:+ seg' +:+ "/" +:+ post' ->
      seg' <> "" -> Forall (fun c => c <> "/"%char) (list_ascii_of_string seg') ->
      (String.length pre <= String.length pre')%nat.
Proof.
  intros Hp info. pose proof (get_info_type_level link) as Hinfo. fold info in Hinfo.
  destruct (search (re_path_segment "pastexamqa") link) as [seg|] eqn:E.
  - destruct Hinfo as [Hty Hlv]. split; [exact Hty|].
    destruct (search_path_segment_Some _ _ _ E) as (pre & post & El & Hne & Hall & Hleft).
    exists pre, seg, post. repeat split; assumption.
  - exfalso. apply search_path_segment_None in E. apply E, Hp.
Qed.

Lemma get_info_from_link_question_witness :
  let link := "https://itpec.org/pastexamqa/FE/2021A_FE.zip" in
  fst (get_info_from_link link) !! "type" = Some "question".
Proof.
  intros link. apply (get_info_from_link_question link).
  exists "https://itpec.org/", "FE", "2021A_FE.zip".
  split; [reflexivity|]. split; [discriminate|]. repeat constructor; discriminate.
Defined.

Lemma get_info_country_year (link : string) :
  let info := fst (get_info_from_link link) in
  info !! "link" = Some link /\
  info !! "country" = search (re_path_segment "all-passers-information") link /\
  info !! "year" = (if truthy (get_year_from_txt link) then get_year_from_txt link else None).
Proof.
  unfold get_info_from_link.
  destruct (search (re_path_segment "pastexamqa") link) as [seg|];
    [|destruct (search (re_exam_code Ascii.eqb) link) as [code|]];
    destruct (search (re_path_segment "all-passers-information") link) as [country|];
    destruct (negb (str_in "pastexamqa" link));
    destruct (get_year_from_txt link) as [[|c y]|];
    cbn [fst truthy default]; repeat split; simplify_map_eq; reflexivity.
Qed.

(** X4.  The country recorded for a link is the segment of the leftmost
    [all-passers-information/<segment>/] part, as written (it is not
    lower-cased); without such a part no country is recorded. *)
Theorem get_info_from_link_country (link : string) :
  let info := fst (get_info_from_link link) in
  (~ has_path_segment "all-passers-information" link -> info !! "country" = None) /\
  (has_path_segment "all-passers-information" link ->
   exists pre seg post,
     link = pre +:+ "all-passers-information" +:+ "/" +:+ seg +:+ "/" +:+ post /\
     seg <> "" /\ Forall (fun c => c <> "/"%char) (list_ascii_of_string seg) /\
     info !! "country" = Some seg /\
     forall pre' seg' post',
       link = pre' +:+ "all-passers-information" +:+ "/" +:+ seg' +:+ "/" +:+ post' ->
       seg' <> "" -> Forall (fun c => c <> "/"%char) (list_ascii_of_string seg') ->
       (String.length pre <= String.length pre')%nat).
Proof.
  intros info. destruct (get_info_country_year link) as (_ & Hc & _). fold info in Hc.
  split.
  - intros Hno. rewrite Hc. apply search_path_segment_None, Hno.
  - intros Hp.
    destruct (search (re_path_segment "all-passers-information") link) as [seg|] eqn:E.
    + destruct (search_path_segment_Some _ _ _ E) as (pre & post & El & Hne & Hall & Hleft).
      exists pre, seg, post. repeat split; assumption.
    + exfalso. apply search_path_segment_None in E. apply E, Hp.
Qed.

Lemma get_info_from_link_country_witness :
  let link := "https://itpec.org/all-passers-information/Japan/2021A_FE.pdf" in
  exists pre post,
    link = pre +:+ "all-passers-information" +:+ "/" +:+ "Japan" +:+ "/" +:+ post /\
    fst (get_info_from_link link) !! "country" = Some "Japan".
Proof.
  intros link.
  destruct (proj2 (get_info_from_link_country link))
    as (pre & seg & post & El & _ & _ & Hc & _).
  - exists "https://itpec.org/", "Japan", "2021A_FE.pdf".
    split; [reflexivity|]. split; [discriminate|]. repeat constructor; discriminate.
  - exists "https://itpec.org/", "2021A_FE.pdf". split; vm_compute; reflexivity.
Defined.

Lemma info_link_year_keys (link : string) :
  let info := fst (get_info_from_link link) in
  info !! "link" = Some link /\
  info !! "year" = get_year_from_txt link /\
  (is_Some (info !! "type") <-> is_Some (info !! "level")) /\
  forall key, is_Some (info !! key) ->
              In key ["link"; "type"; "level"; "country"; "year"].
Proof.
  intros info. destruct (get_info_country_year link) as (Hl & _ & Hy). fold info in Hl, Hy.
  split; [exact Hl|]. split; [|split].
  - rewrite Hy. destruct (get_year_from_txt link) as [y|] eqn:E; [|reflexivity].
    destruct (get_year_from_txt_some link y E) as (Hlen & _).
    destruct y; [discriminate | reflexivity].
  - pose proof (get_info_type_level link) as Hinfo. fold info in Hinfo.
    destruct (search (re_path_segment "pastexamqa") link);
      [|destruct (search (re_exam_code Ascii.eqb) link)];
      destruct Hinfo as [-> ->]; split; intros [x Hx]; try discriminate; eexists; reflexivity.
  - intros key. subst info. unfold get_info_from_link.
    destruct (search (re_path_segment "pastexamqa") link) as [seg|];
      [|destruct (search (re_exam_code Ascii.eqb) link) as [code|]];
      destruct (search (re_path_segment "all-passers-information") link) as [country|];
      destruct (negb (str_in "pastexamqa" link));
      destruct (truthy (get_year_from_txt link));
      intros [v Hv]; simpl in Hv |- *;
      repeat match type of Hv with
      | <[?k := _]> _ !! key = Some _ =>
          destruct (decide (k = key)) as [<-|?];
          [solve [repeat (first [left; reflexivity | right])]
          | rewrite lookup_insert_ne in Hv by assumption]
      end;
      rewrite lookup_empty in Hv; discriminate.
Qed.

(** X5.  The dictionary [get_info_from_link] returns always holds the
    link itself; its year is what [get_year_from_txt] finds in the whole
    link; a level is present exactly when a type is; and it has no key
    besides [link], [type], [level], [country] and [year]. *)
Theorem get_info_from_link_keys (link : string) :
  let info := fst (get_info_from_link link) in
  info !! "link" = Some link /\
  info !! "year" = get_year_from_txt link /\
  (is_Some (info !! "type") <-> is_Some (info !! "level")) /\
  forall key, is_Some (info !! key) ->
              In key ["link"; "type"; "level"; "country"; "year"].
Proof. apply info_link_year_keys. Qed.

(* ================================================================== *)
(** * More on local paths, the change detector and the downloader *)
(* ================================================================== *)

Section Utils.

Context `{Platform}.

Lemma bind_returns {A B} (m : action A) (f : A -> action B) (w w' : world) (b : B) :
  act_bind m f w = (Returns b, w') ->
  exists a w1, m w = (Returns a, w1) /\ f a w1 = (Returns b, w').
Proof.
  unfold act_bind. destruct (m w) as [[a|e] w1]; [|discriminate].
  intros E. exists a, w1. split; [reflexivity | exact E].
Qed.

Lemma quiet_fs {A} (m : action A) (w w' : world) (r : result A) :
  quiet m -> m w = (r, w') -> w_fs w' = w_fs w /\ w_db w' = w_db w /\
                              w_requests w' = w_requests w /\ w_sends w' = w_sends w.
Proof.
  intros Hq E. destruct (quiet_run m w Hq) as [l El]. rewrite E in El.
  assert (w' = add_log w l) as -> by (simpl in El; congruence). repeat split.
Qed.

(** [get_file_path_from_link_info], case by case. *)
Lemma get_file_path_run (data : gmap string string) (w : world) :
  get_file_path_from_link_info data w =
  match data !! "link" with
  | None => (Raises (KeyError "link"), w)
  | Some link =>
      let file_name := path_name (url_path link) in
      match data !! "year" with
      | None => (Raises (KeyError "year"), w)
      | Some year =>
          match data !! "type" with
          | None => (Raises (KeyError "type"), w)
          | Some ty =>
              if String.eqb ty "result" then
                match data !! "country" with
                | None => (Raises (KeyError "country"), w)
                | Some country =>
                    path_lookup_result link
                      (year +:+ "/results/" +:+ country +:+ "_" +:+ file_name) w
                end
              else if String.eqb ty "question" then
                path_lookup_result link (year +:+ "/questions/" +:+ file_name) w
              else
                path_lookup_result link year (add_log w [WarnInvalidFolderType ty])
          end
      end
  end.
Proof.
  unfold get_file_path_from_link_info, path_lookup_result, act_bind, item,
    exists_on_disk, act_ret, act_raise, log.
  destruct (data !! "link") as [link|]; [|reflexivity].
  destruct (data !! "year") as [year|]; [|reflexivity].
  destruct (data !! "type") as [ty|]; [|reflexivity].
  destruct (String.eqb ty "result").
  - destruct (data !! "country") as [country|]; [|reflexivity].
    destruct (path_exists _ _); reflexivity.
  - destruct (String.eqb ty "question").
    + destruct (path_exists _ _); reflexivity.
    + cbn [w_fs add_log]. destruct (path_exists _ _); reflexivity.
Qed.

End Utils.

Section UtilsProperties.

Context `{Platform}.

Lemma path_lookup_found (link prefix p : string) (w w' : world) :
  path_lookup_result link prefix w = (Returns (Some p), w') ->
  p = path_join data_dir prefix /\ path_exists (w_fs w) p = true /\ w' = w.
Proof.
  unfold path_lookup_result.
  destruct (path_exists (w_fs w) (path_join data_dir prefix)) eqn:E; [|discriminate].
  intros [= <- <-]. repeat split. exact E.
Qed.

(** A path returned by [get_file_path_from_link_info] lies under the
    data directory and exists on disk. *)
Lemma get_file_path_found (data : gmap string string) (w w' : world) (p : string) :
  get_file_path_from_link_info data w = (Returns (Some p), w') ->
  (exists prefix, p = path_join data_dir prefix) /\ path_exists (w_fs w) p = true.
Proof.
  rewrite get_file_path_run.
  destruct (data !! "link") as [link|]; [|discriminate].
  destruct (data !! "year") as [year|]; [|discriminate].
  destruct (data !! "type") as [ty|]; [|discriminate].
  destruct (String.eqb ty "result").
  - destruct (data !! "country") as [country|]; [|discriminate].
    intros (-> & Hex & _)%path_lookup_found. split; [eexists; reflexivity | exact Hex].
  - destruct (String.eqb ty "question");
      intros (-> & Hex & _)%path_lookup_found; (split; [eexists; reflexivity | exact Hex]).
Qed.

Lemma prepared_document_exists (record : file_row) (w : world)
    (caption document : string) :
  prepared w record = Returns (caption, document) ->
  (exists prefix, document = path_join data_dir prefix) /\
  path_exists (w_fs w) document = true.
Proof.
  unfold prepared. destruct (TelegramBot.prepare_msg record w) as [r w'] eqn:E.
  simpl. intros ->. unfold TelegramBot.prepare_msg in E.
  apply bind_returns in E as (seconds & w1 & E1 & E).
  assert (w1 = w) as ->.
  { unfold act_raise, act_lift in E1. destruct (f_last_modified record); congruence. }
  apply bind_returns in E as (last_modified & w2 & [= _ <-] & E).
  apply bind_returns in E as (link & w3 & E3 & E).
  assert (w3 = w) as ->.
  { unfold act_raise, act_ret in E3. destruct (f_link record); congruence. }
  destruct (get_info_from_link link) as [info warnings].
  apply bind_returns in E as ([] & w4 & [= <-] & E).
  apply bind_returns in E as (file_path & w5 & E5 & E).
  apply bind_returns in E as (ty & w6 & [_ ->]%item_returns & E).
  apply bind_returns in E as (level & w7 & [_ ->]%item_returns & E).
  apply bind_returns in E as (year & w8 & [_ ->]%item_returns & E).
  apply bind_returns in E as (p & w9 & E9 & E).
  destruct file_path as [fp|]; [|discriminate]. injection E9 as <- <-.
  assert (fp = document) as ->.
  { destruct (truthy (info !! "country")); injection E as _ <-; reflexivity. }
  apply get_file_path_found in E5. exact E5.
Qed.

(** X6.  The document of a prepared message is a path under the data
    directory that exists on disk: [update] never hands the Telegram client
    a file that is not there. *)
Theorem prepare_msg_document_exists (record : file_row) (w : world)
    (caption document : string) :
  prepared w record = Returns (caption, document) ->
  (exists prefix, document = path_join data_dir prefix) /\
  path_exists (w_fs w) document = true.
Proof. apply prepared_document_exists. Qed.

Lemma raises_after {A B} (m : action A) (f : A -> action B) (w : world) :
  raises (fst (m w)) -> raises (fst (act_bind m f w)).
Proof.
  intros [e He]. unfold act_bind. destruct (m w) as [[a|e'] w']; simpl in He;
    [discriminate | exists e'; reflexivity].
Qed.

(** X7.  A link classified as a result that has no
    [all-passers-information/<country>/] part has no local path:
    [get_file_path_from_link_info] raises [KeyError] for the key
    ["country"] (when the link shows a year), so the message of a stored
    file with such a link cannot be prepared. *)
Theorem result_link_without_country (link : string) (w : world) :
  ~ has_path_segment "pastexamqa" link ->
  contains_exam_code link ->
  ~ has_path_segment "all-passers-information" link ->
  has_digit_run 4 link ->
  get_file_path_from_link_info (fst (get_info_from_link link)) w =
    (Raises (KeyError "country"), w) /\
  forall record, f_link record = Some link -> raises (prepared w record).
Proof.
  intros Hq Hcode Hcountry Hyear.
  assert (Hty : fst (get_info_from_link link) !! "type" = Some "result").
  { pose proof (get_info_type_level link) as Hinfo. cbv zeta in Hinfo.
    destruct (search (re_path_segment "pastexamqa") link) as [seg|] eqn:E0.
    { exfalso. apply Hq. eapply search_path_segment_sound, E0. }
    destruct (search (re_exam_code Ascii.eqb) link) as [code|] eqn:E1; [apply Hinfo|].
    exfalso. apply search_exam_code_None in E1. apply E1, Hcode. }
  destruct (info_link_year_keys link) as (Hlink & Hy & _).
  destruct (get_info_country_year link) as (_ & Hc & _).
  rewrite (proj2 (search_path_segment_None _ _) Hcountry) in Hc.
  destruct (proj2 (proj1 (year_found_iff_digit_run link)) Hyear) as [y Ey].
  rewrite Ey in Hy.
  assert (Hpath : forall w0, get_file_path_from_link_info (fst (get_info_from_link link)) w0 =
                             (Raises (KeyError "country"), w0)).
  { intros w0. rewrite get_file_path_run, Hlink, Hy, Hty, Hc. reflexivity. }
  split; [apply Hpath|].
  intros record Hrec. unfold prepared, TelegramBot.prepare_msg. rewrite Hrec.
  apply raises_bind. intros seconds w1 _.
  apply raises_bind. intros last_modified w2 _.
  apply raises_bind. intros link' w3 [= <- <-].
  destruct (get_info_from_link link) as [info warnings]. simpl in Hpath.
  apply raises_bind. intros [] w4 _.
  apply raises_after. rewrite Hpath. exists (KeyError "country"). reflexivity.
Qed.

Lemma is_file_changed_run (link : string) (w : world) :
  exists r,
    is_file_changed link w =
      (r, World (w_fs w) (w_db w) (w_requests w ++ [(HEAD, link)]) (w_sends w)
                (w_log w) (w_slept w)) /\
    (r = Returns false \/ raises r).
Proof.
  unfold is_file_changed, act_bind, request, raise_for_status, last_modified_of,
    act_lift, act_raise, act_ret, read_db.
  destruct (http_request (length (w_requests w)) HEAD link) as [resp|e].
  - destruct (status_ok resp).
    + destruct (last_modified_header resp) as [h|].
      * destruct (parsedate_timestamp h) as [ts|e].
        -- cbn [w_db]. rewrite get_file_is_not_True. eexists. split; [reflexivity|].
           left. reflexivity.
        -- eexists. split; [reflexivity|]. right. eexists. reflexivity.
      * eexists. split; [reflexivity|]. right. eexists. reflexivity.
    + eexists. split; [reflexivity|]. right. eexists. reflexivity.
  - eexists. split; [reflexivity|]. right. eexists. reflexivity.
Qed.

(** X8.  [is_file_changed] never returns [True]: it returns [False] or
    raises.  It issues exactly one HEAD request for the link and leaves the
    store, the disk and the log as they were. *)
Theorem is_file_changed_never_True (link : string) (w : world) :
  exists r,
    is_file_changed link w =
      (r, World (w_fs w) (w_db w) (w_requests w ++ [(HEAD, link)]) (w_sends w)
                (w_log w) (w_slept w)) /\
    (r = Returns false \/ raises r).
Proof. apply is_file_changed_run. Qed.

(** X9.  When the local file exists, [download] with [refresh_file] true
    never downloads again: it issues the HEAD request of [is_file_changed]
    and no GET, writes no file and adds no file record, and either returns
    after logging that nothing changed or raises what the check raised. *)
Theorem download_refresh_never_fetches
    (path_suffix link year_month : string) (file_name_suffix : option string)
    (w : world) (fs' : FS) :
  let file_name := local_file_name link file_name_suffix in
  let directory := path_join data_dir path_suffix in
  mkdir_parents directory (w_fs w) = Returns fs' ->
  path_exists fs' (path_join directory file_name) = true ->
  exists r w',
    download path_suffix link year_month file_name_suffix true w = (r, w') /\
    w_fs w' = fs' /\ w_db w' = w_db w /\
    w_requests w' = w_requests w ++ [(HEAD, link)] /\
    ((r = Returns tt /\
      w_log w' = w_log w ++ [InfoAlreadyDownloadedChecking file_name;
                             InfoNoChangesDetected file_name]) \/
     raises r).
Proof.
  intros file_name directory Hmk Hex.
  unfold download. fold file_name. fold directory.
  unfold act_bind at 1, on_fs. rewrite Hmk.
  unfold act_bind at 1, exists_on_disk. cbn [w_fs]. rewrite Hex.
  unfold act_bind at 1. cbn [negb]. unfold act_bind at 1, log at 1.
  unfold act_bind at 1.
  match goal with |- context [is_file_changed link ?w0] =>
    destruct (is_file_changed_run link w0) as (r & -> & [->|[e ->]])
  end.
  - unfold act_bind at 1, log at 1. cbn [negb]. eexists _, _. split; [reflexivity|].
    cbn. repeat split. left. rewrite <- app_assoc. split; reflexivity.
  - eexists _, _. split; [reflexivity|]. cbn. repeat split. right. eexists. reflexivity.
Qed.

End UtilsProperties.

Lemma result_link_without_country_witness :
  let link := "https://itpec.org/results/2021A_FE_Passers.pdf" in
  let P := Sample.all_sends_return in
  let w := Sample.initial_world P ["data/2021/results/_2021A_FE_Passers.pdf"] empty_db in
  fst (@get_file_path_from_link_info P (fst (get_info_from_link link)) w) =
  Raises (KeyError "country").
Proof.
  intros link P w.
  rewrite (proj1 (@result_link_without_country P link w
             ltac:(apply no_path_segment_by_search; vm_compute; reflexivity)
             ltac:(right; left; exists "https://itpec.org/results/2021A_", "_Passers.pdf";
                   reflexivity)
             ltac:(apply no_path_segment_by_search; vm_compute; reflexivity)
             ltac:(apply has_digit_run_search; vm_compute; discriminate))).
  reflexivity.
Defined.

Lemma prepare_msg_document_exists_witness :
  let P := Sample.all_sends_return in
  let w := Sample.initial_world P [Sample.path_a] (store_of [Sample.file_a] []) in
  @path_exists P (w_fs w) Sample.path_a = true.
Proof.
  intros P w.
  apply (@prepare_msg_document_exists P (row_of_file Sample.file_a) w
           (fst (match @prepared P w (row_of_file Sample.file_a) with
                 | Returns pm => pm | Raises _ => ("", "") end))
           Sample.path_a).
  vm_compute. reflexivity.
Defined.

Lemma download_refresh_never_fetches_witness :
  let P := Sample.all_sends_return in
  let w := Sample.initial_world P [Sample.path_a; "data/2021/questions"]
             (store_of [Sample.file_a] []) in
  exists r w',
    @download P "2021/questions" (fr_link Sample.file_a) "2021 October" None true w = (r, w') /\
    w_db w' = w_db w /\ w_requests w' = [(HEAD, fr_link Sample.file_a)].
Proof.
  intros P w.
  destruct (@download_refresh_never_fetches P "2021/questions" (fr_link Sample.file_a)
              "2021 October" None w [Sample.path_a; "data/2021/questions"])
    as (r & w' & E & _ & Hdb & Hreq & _); [vm_compute; reflexivity..|].
  exists r, w'. split; [exact E|]. split; [exact Hdb | exact Hreq].
Defined.

Section Downloads.

Context `{Platform}.

Lemma download_fetch_run
    (path_suffix link year_month : string) (file_name_suffix : option string)
    (refresh_file : bool) (w : world) (fs' fs'' : FS)
    (resp : response) (header : string) (timestamp : Z) :
  let file_name := local_file_name link file_name_suffix in
  let directory := path_join data_dir path_suffix in
  mkdir_parents directory (w_fs w) = Returns fs' ->
  path_exists fs' (path_join directory file_name) = false ->
  http_request (length (w_requests w)) GET link = Returns resp ->
  status_ok resp = true ->
  last_modified_header resp = Some header ->
  parsedate_timestamp header = Returns timestamp ->
  write_bytes (path_join directory file_name) (content resp) fs' = Returns fs'' ->
  download path_suffix link year_month file_name_suffix refresh_file w =
  (Returns tt,
   World fs''
         (Database (files (w_db w) ++
                    [downloaded_row link year_month timestamp (content resp)])
                   (telegram_msgs (w_db w)))
         (w_requests w ++ [(GET, link)]) (w_sends w)
         (w_log w ++ [InfoDownloaded file_name]) (w_slept w)).
Proof.
  intros file_name directory Hmk Hex Hreq Hok Hhdr Hts Hwr.
  unfold download. fold file_name. fold directory.
  unfold act_bind, on_fs, exists_on_disk, request, raise_for_status, last_modified_of,
    act_lift, act_ret, log, add_log, read_db, write_db.
  rewrite Hmk. cbn [w_fs w_db w_requests w_sends w_log w_slept]. rewrite Hex.
  cbn [negb w_fs w_db w_requests w_sends w_log w_slept]. rewrite Hreq, Hok.
  cbn [w_fs w_db w_requests w_sends w_log w_slept]. rewrite Hhdr, Hts.
  cbn [w_fs w_db w_requests w_sends w_log w_slept]. rewrite Hwr. reflexivity.
Qed.

(** X10.  When the local file does not exist yet, the GET request
    succeeds with a [Last-Modified] header that parses, and the file can be
    written, [download] writes the body to the local path and appends one
    file record: the link, the timestamp as decimal text, the MD5 of the
    body and the year-month text.  This holds whether [refresh_file] is set
    or not. *)
Theorem download_fetches_missing_file
    (path_suffix link year_month : string) (file_name_suffix : option string)
    (refresh_file : bool) (w : world) (fs' fs'' : FS)
    (resp : response) (header : string) (timestamp : Z) :
  let file_name := local_file_name link file_name_suffix in
  let directory := path_join data_dir path_suffix in
  mkdir_parents directory (w_fs w) = Returns fs' ->
  path_exists fs' (path_join directory file_name) = false ->
  http_request (length (w_requests w)) GET link = Returns resp ->
  status_ok resp = true ->
  last_modified_header resp = Some header ->
  parsedate_timestamp header = Returns timestamp ->
  write_bytes (path_join directory file_name) (content resp) fs' = Returns fs'' ->
  download path_suffix link year_month file_name_suffix refresh_file w =
  (Returns tt,
   World fs''
         (Database (files (w_db w) ++
                    [downloaded_row link year_month timestamp (content resp)])
                   (telegram_msgs (w_db w)))
         (w_requests w ++ [(GET, link)]) (w_sends w)
         (w_log w ++ [InfoDownloaded file_name]) (w_slept w)).
Proof. apply download_fetch_run. Qed.

Lemma download_effect
    (path_suffix link year_month : string) (file_name_suffix : option string)
    (refresh_file : bool) (w : world) :
  exists r w',
    download path_suffix link year_month file_name_suffix refresh_file w = (r, w') /\
    w_sends w' = w_sends w /\
    (w_db w' = w_db w \/
     (r = Returns tt /\
      exists timestamp body,
        w_db w' = Database (files (w_db w) ++
                            [downloaded_row link year_month timestamp body])
                           (telegram_msgs (w_db w)))).
Proof.
  unfold download, downloaded_row, is_file_changed.
  unfold act_bind, on_fs, exists_on_disk, request, raise_for_status,
    last_modified_of, act_lift, act_ret, act_raise, log, add_log, read_db, write_db.
  cbn [w_fs w_db w_requests w_sends w_log w_slept].
  repeat match goal with
  | |- context [match ?x with _ => _ end] =>
      lazymatch x with
      | context [match _ with _ => _ end] => fail
      | _ => destruct x eqn:?
      end;
      cbn [w_fs w_db w_requests w_sends w_log w_slept negb fst snd] in *
  end;
  try (eexists _, _; split; [reflexivity|]; split; [reflexivity|];
       first [left; reflexivity
             | right; split; [reflexivity|]; eexists _, _; reflexivity]).
Qed.

(** X11.  Whatever happens, [download] leaves the delivery records and
    the sends alone and adds at most one file record, for the link and the
    year-month text it was given; it adds one only when it returns
    normally, so a call that raises leaves the store as it was. *)
Theorem download_store_effect
    (path_suffix link year_month : string) (file_name_suffix : option string)
    (refresh_file : bool) (w : world) :
  exists r w',
    download path_suffix link year_month file_name_suffix refresh_file w = (r, w') /\
    w_sends w' = w_sends w /\
    (w_db w' = w_db w \/
     (r = Returns tt /\
      exists timestamp body,
        w_db w' = Database (files (w_db w) ++
                            [downloaded_row link year_month timestamp body])
                           (telegram_msgs (w_db w)))).
Proof. apply download_effect. Qed.

End Downloads.

Lemma download_fetches_missing_file_witness :
  let P := Sample.all_sends_return in
  let w := Sample.initial_world P [] empty_db in
  exists w',
    @download P "2021/questions" (fr_link Sample.file_a) "2021 October" None false w =
      (Returns tt, w') /\
    files (w_db w') =
      [FileRow (Some (fr_link Sample.file_a)) (Some "1700000000")
               (Some "d41d8cd98f00b204e9800998ecf8427e") (Some "2021 October")].
Proof.
  intros P w. eexists. split.
  - apply (@download_fetches_missing_file P "2021/questions" (fr_link Sample.file_a)
             "2021 October" None false w ["data/2021/questions"]
             [Sample.path_a; "data/2021/questions"]
             (Response true (Some "Tue, 14 Nov 2023 22:13:20 GMT") "PK")
             "Tue, 14 Nov 2023 22:13:20 GMT" 1700000000%Z);
      vm_compute; reflexivity.
  - vm_compute. reflexivity.
Defined.

(* ================================================================== *)
(** * The batch loops *)
(* ================================================================== *)

Section Batches.

Context `{Platform}.

Lemma grows_by_refl (w : world) : grows_by w w [].
Proof. unfold grows_by. rewrite app_nil_r. repeat split. Qed.

Lemma grows_by_trans (w1 w2 w3 : world) (a b : list file_row) :
  grows_by w1 w2 a -> grows_by w2 w3 b -> grows_by w1 w3 (a ++ b).
Proof.
  intros (S1 & M1 & F1) (S2 & M2 & F2). unfold grows_by.
  rewrite S2, S1, M2, M1, F2, F1, app_assoc. repeat split.
Qed.

(** One guarded call of [download]. *)
Lemma download_grows (path_suffix link year_month : string)
    (file_name_suffix : option string) (refresh_file : bool) (w : world) :
  exists added,
    grows_by w (snd (download path_suffix link year_month file_name_suffix refresh_file w))
             added /\
    (length added <= 1)%nat /\
    Forall (fun row => f_link row = Some link /\ f_year_month row = Some year_month) added.
Proof.
  destruct (download_effect path_suffix link year_month file_name_suffix
              refresh_file w) as (r & w' & -> & Hs & [Hdb|(_ & ts & body & Hdb)]).
  - exists []. cbn [snd]. split; [|split; [simpl; lia | constructor]].
    unfold grows_by. rewrite Hs, Hdb, app_nil_r. repeat split.
  - exists [downloaded_row link year_month ts body]. cbn [snd].
    split; [|split; [simpl; lia | repeat constructor]].
    unfold grows_by. rewrite Hs, Hdb. repeat split.
Qed.

(** X12.  The loop of [update_questions] never sends anything and never
    touches the delivery records; it only appends file records, at most
    one for each link given, each carrying one of the given links, its
    year-month text, and a path in which a year was found. *)
Theorem update_questions_links_store_effect (links : list (string * string))
    (refresh_file : bool) (s : main_state) :
  exists added,
    grows_by (fst s) (fst (update_questions_links links refresh_file s)) added /\
    (length added <= length links)%nat /\
    Forall (fun row => exists i, In i links /\
                                 f_link row = Some (snd i) /\
                                 f_year_month row = Some (fst i) /\
                                 has_digit_run 4 (url_path (snd i))) added.
Proof.
  revert s. induction links as [|i rest IH]; intros s.
  - exists []. split; [apply grows_by_refl|]. split; [reflexivity | constructor].
  - cbn [update_questions_links].
    destruct (get_year_from_txt (url_path (snd i))) as [y|] eqn:Ey.
    + assert (Hrun : has_digit_run 4 (url_path (snd i))).
      { apply (proj1 (year_found_iff_digit_run _)). exists y. exact Ey. }
      assert (truthy (Some y) = true) as ->.
      { destruct (get_year_from_txt_some _ _ Ey) as (Hlen & _).
        destruct y; [discriminate | reflexivity]. }
      change (default "" (Some y)) with y. cbn [negb].
      destruct (download_grows (y +:+ "/questions") (snd i) (fst i) None refresh_file (fst s))
        as (a & Ha & Hla & Hfa).
      assert (Hnext : forall log',
                 exists added,
                   grows_by (fst s)
                     (fst (update_questions_links rest refresh_file
                             (snd (download (y +:+ "/questions") (snd i) (fst i) None
                                            refresh_file (fst s)), log'))) added /\
                   (length added <= S (length rest))%nat /\
                   Forall (fun row => exists j, In j (i :: rest) /\
                                                f_link row = Some (snd j) /\
                                                f_year_month row = Some (fst j) /\
                                                has_digit_run 4 (url_path (snd j))) added).
      { intros log'. destruct (IH (snd (download (y +:+ "/questions") (snd i) (fst i) None
                                                 refresh_file (fst s)), log'))
          as (b & Hb & Hlb & Hfb).
        exists (a ++ b). split; [exact (grows_by_trans _ _ _ _ _ Ha Hb)|]. split.
        - rewrite length_app. lia.
        - apply Forall_app. split.
          + eapply Forall_impl; [exact Hfa|]. intros row [Hl Hy]. exists i.
            split; [left; reflexivity|]. repeat split; assumption.
          + eapply Forall_impl; [exact Hfb|]. intros row (j & Hj & Hrest). exists j.
            split; [right; exact Hj | exact Hrest]. }
      destruct (download (y +:+ "/questions") (snd i) (fst i) None refresh_file (fst s))
        as [[[]|e] w']; cbn [snd length] in Hnext |- *; apply Hnext.
    + cbn [truthy negb].
      destruct (IH (fst s, snd s ++ [ErrorFailedToParseYear i])) as (b & Hb & Hlb & Hfb).
      exists b. split; [exact Hb|]. split; [simpl; lia|].
      eapply Forall_impl; [exact Hfb|]. intros row (j & Hj & Hrest). exists j.
      split; [right; exact Hj | exact Hrest].
Qed.


Lemma update_results_links_grows (year : string) (links : list (string * string * string))
    (refresh_file : bool) (s : main_state) :
  exists added,
    grows_by (fst s) (fst (update_results_links year links refresh_file s)) added /\
    (length added <= length links)%nat /\
    Forall (fun row => exists i, In i links /\
                                 f_link row = Some (snd i) /\
                                 f_year_month row = Some (fst (fst i))) added.
Proof.
  revert s. induction links as [|i rest IH]; intros s.
  - exists []. split; [apply grows_by_refl|]. split; [reflexivity | constructor].
  - cbn [update_results_links].
    destruct (download_grows (year +:+ "/results") (snd i) (fst (fst i))
                (Some (snd (fst i))) refresh_file (fst s)) as (a & Ha & Hla & Hfa).
    assert (Hnext : forall log',
               exists added,
                 grows_by (fst s)
                   (fst (update_results_links year rest refresh_file
                           (snd (download (year +:+ "/results") (snd i) (fst (fst i))
                                          (Some (snd (fst i))) refresh_file (fst s)), log')))
                   added /\
                 (length added <= S (length rest))%nat /\
                 Forall (fun row => exists j, In j (i :: rest) /\
                                              f_link row = Some (snd j) /\
                                              f_year_month row = Some (fst (fst j))) added).
    { intros log'.
      destruct (IH (snd (download (year +:+ "/results") (snd i) (fst (fst i))
                                  (Some (snd (fst i))) refresh_file (fst s)), log'))
        as (b & Hb & Hlb & Hfb).
      exists (a ++ b). split; [exact (grows_by_trans _ _ _ _ _ Ha Hb)|]. split.
      - rewrite length_app. lia.
      - apply Forall_app. split.
        + eapply Forall_impl; [exact Hfa|]. intros row [Hl Hy]. exists i.
          split; [left; reflexivity|]. split; assumption.
        + eapply Forall_impl; [exact Hfb|]. intros row (j & Hj & Hrest). exists j.
          split; [right; exact Hj | exact Hrest]. }
    destruct (download (year +:+ "/results") (snd i) (fst (fst i)) (Some (snd (fst i)))
                       refresh_file (fst s)) as [[[]|e] w'];
      cbn [snd length] in Hnext |- *; apply Hnext.
Qed.

(** X14.  The loops of [update_results] never send anything and never
    touch the delivery records; they only append file records, at most one
    for each link listed under any year, each carrying one of the listed
    links and its year-month text. *)
Theorem update_results_years_store_effect
    (links : list (string * list (string * string * string)))
    (refresh_file : bool) (s : main_state) :
  exists added,
    grows_by (fst s) (fst (update_results_years links refresh_file s)) added /\
    (length added <= length (concat (map snd links)))%nat /\
    Forall (fun row => exists i, In i (concat (map snd links)) /\
                                 f_link row = Some (snd i) /\
                                 f_year_month row = Some (fst (fst i))) added.
Proof.
  revert s. induction links as [|[year year_links] rest IH]; intros s.
  - exists []. split; [apply grows_by_refl|]. split; [reflexivity | constructor].
  - cbn [update_results_years map concat snd].
    destruct (update_results_links_grows year year_links refresh_file s)
      as (a & Ha & Hla & Hfa).
    destruct (IH (update_results_links year year_links refresh_file s))
      as (b & Hb & Hlb & Hfb).
    exists (a ++ b). split; [exact (grows_by_trans _ _ _ _ _ Ha Hb)|]. split.
    + rewrite !length_app. lia.
    + apply Forall_app. split.
      * eapply Forall_impl; [exact Hfa|]. intros row (j & Hj & Hrest). exists j.
        split; [apply in_or_app; left; exact Hj | exact Hrest].
      * eapply Forall_impl; [exact Hfb|]. intros row (j & Hj & Hrest). exists j.
        split; [apply in_or_app; right; exact Hj | exact Hrest].
Qed.

End Batches.

(* ================================================================== *)
(** * More on the delivery run *)
(* ================================================================== *)

Section DeliveryProperties.

Context `{Platform}.

(** What one pass through the [try] statement does to the world. *)
Lemma try_send_effect (chat_id : string) (i : file_row) (pm : string * string) (w : world) :
  exists r w' added,
    TelegramBot.try_send chat_id i pm w = (r, w') /\
    w_fs w' = w_fs w /\ files (w_db w') = files (w_db w) /\
    w_requests w' = w_requests w /\
    w_sends w' = w_sends w ++ [(chat_id, fst pm, snd pm)] /\
    telegram_msgs (w_db w') = telegram_msgs (w_db w) ++ added /\
    Forall (fun m => m_chat_id m = Some chat_id) added /\ (length added <= 1)%nat.
Proof.
  rewrite try_send_run. cbn zeta.
  destruct (send_document (length (w_sends w)) chat_id (fst pm) (snd pm)) as [[]|[]];
    first [ exists (Returns tt); eexists _, [MsgRow (Some chat_id) (f_md5 i)];
            split; [reflexivity|]; cbn; repeat split; [repeat constructor | lia]
          | eexists _, _, []; split; [reflexivity|]; cbn; rewrite ?app_nil_r;
            repeat split; [constructor | lia] ].
Qed.

(** The loop, whatever the sends and the preparations do. *)
Lemma update_loop_effect (chat_id : string) (items : list file_row) (w : world) :
  exists r w' new added,
    TelegramBot.update_loop chat_id items w = (r, w') /\
    w_fs w' = w_fs w /\ files (w_db w') = files (w_db w) /\
    w_requests w' = w_requests w /\
    w_sends w' = w_sends w ++ new /\
    Forall (fun s => fst (fst s) = chat_id /\ path_exists (w_fs w) (snd s) = true) new /\
    telegram_msgs (w_db w') = telegram_msgs (w_db w) ++ added /\
    Forall (fun m => m_chat_id m = Some chat_id) added /\
    (length added <= length new)%nat /\ (length new <= length items)%nat.
Proof.
  revert w. induction items as [|i items IH]; intros w.
  - exists (Returns tt), w, [], []. cbn. rewrite !app_nil_r.
    repeat split; try constructor.
  - cbn [TelegramBot.update_loop]. unfold act_bind at 1.
    destruct (prepare_msg_run i w) as [l0 ->].
    destruct (prepared w i) as [[caption document]|e] eqn:Ep.
    2:{ exists (Raises e), (add_log w l0), [], []. cbn. rewrite !app_nil_r.
        repeat split; try constructor. lia. }
    destruct (prepared_document_exists i w caption document Ep) as [_ Hdoc].
    unfold act_bind at 1.
    destruct (try_send_effect chat_id i (caption, document) (add_log w l0))
      as (r1 & w1 & a1 & -> & Hfs1 & Hf1 & Hr1 & Hs1 & Hm1 & Ha1 & Hl1).
    cbn [fst snd add_log w_fs w_db w_requests w_sends] in *.
    destruct r1 as [[]|e].
    + unfold act_bind at 1, sleep at 1.
      match goal with |- context [TelegramBot.update_loop chat_id items ?w2] =>
        destruct (IH w2) as (r & w' & new & added & -> & Hfs & Hf & Hr & Hs & Hn & Hm & Ha & Hl & Hl')
      end.
      cbn [w_fs w_db w_requests w_sends] in *.
      exists r, w', ((chat_id, caption, document) :: new), (a1 ++ added).
      split; [reflexivity|]. split; [congruence|]. split; [congruence|].
      split; [congruence|]. split; [rewrite Hs, Hs1, <- app_assoc; reflexivity|].
      split.
      { constructor; [split; [reflexivity | exact Hdoc]|].
        eapply Forall_impl; [exact Hn|]. intros s [Hc Hp]. split; [exact Hc|].
        rewrite <- Hfs1. exact Hp. }
      split; [rewrite Hm, Hm1, <- app_assoc; reflexivity|].
      split; [apply Forall_app; split; assumption|].
      rewrite length_app. simpl. lia.
    + exists (Raises e), w1, [(chat_id, caption, document)], a1.
      split; [reflexivity|]. repeat (split; [assumption|]).
      split; [repeat constructor; exact Hdoc|].
      repeat (split; [assumption|]). simpl. lia.
Qed.

(** X15.  Whatever happens during a delivery run, [update] leaves the
    disk, the table of files and the list of HTTP requests alone; every
    send it makes is to the given chat, of a document that exists on disk;
    it appends delivery rows for that chat only, never more rows than
    sends, and never more sends than pending files. *)
Theorem update_effect (chat_id : string) (w : world) :
  exists r w' new added,
    TelegramBot.update chat_id w = (r, w') /\
    w_fs w' = w_fs w /\ files (w_db w') = files (w_db w) /\
    w_requests w' = w_requests w /\
    w_sends w' = w_sends w ++ new /\
    Forall (fun s => fst (fst s) = chat_id /\ path_exists (w_fs w) (snd s) = true) new /\
    telegram_msgs (w_db w') = telegram_msgs (w_db w) ++ added /\
    Forall (fun m => m_chat_id m = Some chat_id) added /\
    (length added <= length new)%nat /\
    (length new <= length (TelegramBot.get_pendings (w_db w) (PyStr chat_id)))%nat.
Proof.
  unfold TelegramBot.update, act_bind at 1, read_db.
  destruct (TelegramBot.get_pendings (w_db w) (PyStr chat_id)) as [|i0 rest] eqn:Ep.
  - exists (Returns tt), (add_log w [InfoNoPendingFiles]), [], []. cbn.
    rewrite !app_nil_r. repeat split; constructor.
  - unfold act_bind at 1, log at 1.
    destruct (update_loop_effect chat_id (i0 :: rest)
                (add_log w [InfoFoundPendingFiles (length (i0 :: rest))]))
      as (r & w' & new & added & -> & Hfs & Hf & Hr & Hs & Hn & Hm & Ha & Hl & Hl').
    exists r, w', new, added. split; [reflexivity|]. repeat (split; [assumption|]).
    exact Hl'.
Qed.

Lemma expected_records_all_sent (n : nat) (chat_id : string) (w : world)
    (items : list file_row) :
  (forall i, In i items -> exists pm, prepared w i = Returns pm) ->
  (forall k c cap p, send_document k c cap p = Returns tt) ->
  expected_records n chat_id w items = map (fun i => MsgRow (Some chat_id) (f_md5 i)) items.
Proof.
  intros Hprep Hsend. revert n. induction items as [|i items IH]; intros n; [reflexivity|].
  simpl. destruct (Hprep i (or_introl eq_refl)) as [pm ->]. rewrite Hsend. simpl.
  f_equal. apply IH. intros j Hj. apply Hprep. right. exact Hj.
Qed.

(** X16.  When no stored file has a NULL hash, every message can be
    prepared and every send returns, a delivery run leaves nothing pending
    for the channel: a run that follows finds no pending file. *)
Theorem update_delivers_everything (chat_id : string) (w : world) :
  Forall (fun f => f_md5 f <> None) (files (w_db w)) ->
  (forall i, In i (TelegramBot.get_pendings (w_db w) (PyStr chat_id)) ->
             exists pm, prepared w i = Returns pm) ->
  (forall n c cap p, send_document n c cap p = Returns tt) ->
  exists w',
    TelegramBot.update chat_id w = (Returns tt, w') /\
    TelegramBot.get_pendings (w_db w') (PyStr chat_id) = [].
Proof.
  intros Hmd5 Hprep Hsend.
  set (pending := TelegramBot.get_pendings (w_db w) (PyStr chat_id)) in *.
  assert (Hrun : exists w',
             TelegramBot.update chat_id w = (Returns tt, w') /\
             files (w_db w') = files (w_db w) /\
             telegram_msgs (w_db w') =
               telegram_msgs (w_db w) ++
               map (fun i => MsgRow (Some chat_id) (f_md5 i)) pending).
  { unfold TelegramBot.update, act_bind at 1, read_db. fold pending.
    destruct pending as [|i0 rest] eqn:Ep.
    - exists (add_log w [InfoNoPendingFiles]). cbn. rewrite app_nil_r. repeat split.
    - unfold act_bind at 1, log at 1.
      set (w0 := add_log w [InfoFoundPendingFiles (length (i0 :: rest))]).
      destruct (update_loop_run chat_id (i0 :: rest) w0)
        as (w' & Hloop & _ & Hfiles & _ & _ & Hmsgs & _).
      { intros j Hj. destruct (Hprep j Hj) as [pm Hpm]. exists pm. rewrite <- Hpm.
        apply prepared_same_fs. reflexivity. }
      { intros n c cap p e He. rewrite Hsend in He. discriminate. }
      exists w'. split; [exact Hloop|]. split; [exact Hfiles|].
      rewrite Hmsgs. f_equal. apply expected_records_all_sent; [|exact Hsend].
      intros j Hj. destruct (Hprep j Hj) as [pm Hpm]. exists pm. rewrite <- Hpm.
      apply prepared_same_fs. reflexivity. }
  destruct Hrun as (w' & Hup & Hfiles & Hmsgs). exists w'. split; [exact Hup|].
  destruct (get_pendings_rows (w_db w') (PyStr chat_id)) as [Hperm _].
  rewrite Hfiles, Hmsgs in Hperm.
  assert (Hnone : List.filter
            (fun f => negb (existsb (fun m => holds (TelegramBot.pending_on (PyStr chat_id) f m))
                                    (telegram_msgs (w_db w) ++
                                     map (fun i => MsgRow (Some chat_id) (f_md5 i)) pending)))
            (files (w_db w)) = []).
  { destruct (List.filter _ (files (w_db w))) as [|f l] eqn:Ef; [reflexivity | exfalso].
    assert (Hf : In f (f :: l)) by (left; reflexivity).
    rewrite <- Ef in Hf. apply List.filter_In in Hf as [Hin Hcond].
    rewrite existsb_app in Hcond. apply negb_true_iff, orb_false_iff in Hcond as [Hold Hnew].
    assert (Hpend : In f pending).
    { apply (Permutation_in _ (Permutation_sym (proj1 (get_pendings_rows (w_db w) (PyStr chat_id))))).
      apply List.filter_In. split; [exact Hin|]. rewrite Hold. reflexivity. }
    assert (Hjoin : existsb (fun m => holds (TelegramBot.pending_on (PyStr chat_id) f m))
                      (map (fun i => MsgRow (Some chat_id) (f_md5 i)) pending) = true).
    { apply existsb_exists. exists (MsgRow (Some chat_id) (f_md5 f)). split.
      - apply in_map_iff. exists f. split; [reflexivity | exact Hpend].
      - rewrite Forall_forall in Hmd5. specialize (Hmd5 f (proj2 (list_elem_of_In _ _) Hin)).
        unfold TelegramBot.pending_on. cbn [m_md5 m_chat_id text_affinity].
        destruct (f_md5 f) as [h|]; [|congruence]. simpl.
        rewrite !String.eqb_refl. reflexivity. }
    congruence. }
  rewrite Hnone in Hperm. apply Permutation_sym, Permutation_nil in Hperm. exact Hperm.
Qed.

(** X17.  On a store in which the hash of every file record has a
    delivery record for the channel, [update] finds nothing pending: it
    logs so and does nothing else. *)
Theorem update_when_all_delivered (chat_id : string) (w : world)
    (recs : list FileRecord) (dels : list DeliveryRecord) :
  w_db w = store_of recs dels ->
  Forall (delivered_to dels chat_id) recs ->
  TelegramBot.update chat_id w = (Returns tt, add_log w [InfoNoPendingFiles]).
Proof.
  intros Hdb Hall. unfold TelegramBot.update, act_bind, read_db. rewrite Hdb.
  destruct (get_pendings_undelivered recs dels chat_id) as [Hperm _].
  assert (filter (fun r => ~ delivered_to dels chat_id r) recs = []) as Hnil.
  { clear Hperm Hdb. induction Hall as [|r recs Hr _ IH]; [reflexivity|].
    rewrite filter_cons. destruct (decide (~ delivered_to dels chat_id r)); [tauto | exact IH]. }
  rewrite Hnil in Hperm. apply Permutation_sym, Permutation_nil in Hperm.
  rewrite Hperm. reflexivity.
Qed.

End DeliveryProperties.

Lemma update_delivers_everything_witness :
  let P := Sample.all_sends_return in
  let w := Sample.initial_world P [Sample.path_a; Sample.path_b]
             (store_of [Sample.file_a; Sample.file_b] []) in
  exists w',
    @TelegramBot.update P "@channel" w = (Returns tt, w') /\
    TelegramBot.get_pendings (w_db w') (PyStr "@channel") = [].
Proof.
  intros P w. apply (@update_delivers_everything P "@channel" w).
  - vm_compute. repeat constructor; discriminate.
  - intros i Hi. vm_compute in Hi. destruct Hi as [<-|[<-|[]]]; eexists; vm_compute; reflexivity.
  - reflexivity.
Defined.

Lemma update_when_all_delivered_witness :
  let P := Sample.all_sends_return in
  let dels := [ {| dr_channel_id := "@channel"; dr_content_hash := "h1" |} ] in
  let w := Sample.initial_world P [Sample.path_a] (store_of [Sample.file_a] dels) in
  @TelegramBot.update P "@channel" w = (Returns tt, add_log w [InfoNoPendingFiles]).
Proof.
  intros P dels w.
  apply (@update_when_all_delivered P "@channel" w [Sample.file_a] dels eq_refl).
  constructor; [|constructor]. constructor. split; reflexivity.
Defined.

(* ================================================================== *)
(** * More on the record store and the pending files *)
(* ================================================================== *)

(** X18.  A file record just added is found by [get_file] under its link
    and timestamp, whatever hash is asked for (none included), and under
    its link and hash, whatever timestamp is asked for. *)
Theorem add_file_then_get_file (db : database) (link year_month content_hash : string)
    (timestamp : Z) :
  let db' := DBHandler.add_file db (PyStr link) (PyInt timestamp) (PyStr year_month)
                                (PyStr content_hash) in
  let row := FileRow (Some link) (Some (decimal timestamp)) (Some content_hash)
                     (Some year_month) in
  (forall md5, exists rows,
      DBHandler.get_file db' (PyStr link) (PyInt timestamp) md5 = ObjRows rows /\
      In row rows) /\
  (forall last_modified, exists rows,
      DBHandler.get_file db' (PyStr link) last_modified (PyStr content_hash) = ObjRows rows /\
      In row rows).
Proof.
  intros db' row.
  assert (Hfound : forall lm md5,
             holds (DBHandler.get_file_where (PyStr link) lm md5 row) = true ->
             exists rows, DBHandler.get_file db' (PyStr link) lm md5 = ObjRows rows /\
                          In row rows).
  { intros lm md5 Hrow. unfold DBHandler.get_file.
    assert (Hin : In row (List.filter
                            (fun r => holds (DBHandler.get_file_where (PyStr link) lm md5 r))
                            (files db'))).
    { apply List.filter_In. split; [|exact Hrow].
      unfold db', DBHandler.add_file. cbn [files]. apply in_or_app. right. left. reflexivity. }
    destruct (List.filter _ (files db')) as [|r rows]; [destruct Hin|].
    exists (r :: rows). split; [reflexivity | exact Hin]. }
  split.
  - intros md5. apply Hfound. unfold DBHandler.get_file_where, row.
    cbn [f_link f_md5 f_last_modified text_affinity sql_eq].
    rewrite !String.eqb_refl. destruct (text_affinity md5) as [m|]; [|reflexivity].
    destruct (String.eqb content_hash m); reflexivity.
  - intros lm. apply Hfound. unfold DBHandler.get_file_where, row.
    cbn [f_link f_md5 f_last_modified text_affinity sql_eq].
    rewrite !String.eqb_refl. destruct (text_affinity lm) as [t|]; [|reflexivity].
    destruct (String.eqb (decimal timestamp) t); reflexivity.
Qed.

(** X19.  Recording a delivery for one channel leaves the pending files
    of every other channel exactly as they were, order included. *)
Theorem add_record_other_channel (db : database) (channel other : string) (md5 : pyval) :
  other <> channel ->
  TelegramBot.get_pendings (TelegramBot.add_record db (PyStr other) md5) (PyStr channel) =
  TelegramBot.get_pendings db (PyStr channel).
Proof.
  intros Hne. unfold TelegramBot.get_pendings. rewrite !pending_rows.
  f_equal. unfold TelegramBot.add_record. cbn [files telegram_msgs].
  apply List.filter_ext. intros f. f_equal. rewrite existsb_app. cbn [existsb].
  unfold TelegramBot.pending_on at 2. cbn [m_md5 m_chat_id text_affinity sql_eq].
  apply String.eqb_neq in Hne. rewrite Hne.
  destruct (sql_eq (f_md5 f) (text_affinity md5)) as [[]|]; cbn; rewrite orb_false_r;
    reflexivity.
Qed.

Lemma add_record_other_channel_witness :
  TelegramBot.get_pendings
    (TelegramBot.add_record (store_of [Sample.file_a; Sample.file_b] [])
                            (PyStr "@other") (PyStr "h1"))
    (PyStr "@channel") =
  [row_of_file Sample.file_a; row_of_file Sample.file_b].
Proof.
  rewrite (add_record_other_channel _ "@channel" "@other" (PyStr "h1")) by discriminate.
  vm_compute. reflexivity.
Defined.

(** X20.  On a store holding the file records [recs] and the delivery
    records [dels], the pending files of a channel are exactly the records
    whose hash has no delivery record for that channel, each as often as it
    is stored, ordered by the byte order of the decimal texts of their
    timestamps. *)
Theorem get_pendings_exactly_undelivered (recs : list FileRecord)
    (dels : list DeliveryRecord) (channel : string) :
  Permutation
    (TelegramBot.get_pendings (store_of recs dels) (PyStr channel))
    (map row_of_file (filter (fun r => ~ delivered_to dels channel r) recs)) /\
  Sorted (key_le f_last_modified)
         (TelegramBot.get_pendings (store_of recs dels) (PyStr channel)).
Proof. apply get_pendings_undelivered. Qed.

(** X21.  After a delivery record for a file's hash and a channel is
    added, the pending files of the channel are those that were pending
    before and have another hash: the record delivered leaves the list
    together with every other record of the same content, and no record of
    another content does. *)
Theorem get_pendings_after_add_record (recs : list FileRecord) (dels : list DeliveryRecord)
    (channel : string) (r : FileRecord) :
  Permutation
    (TelegramBot.get_pendings
       (TelegramBot.add_record (store_of recs dels) (PyStr channel)
                               (PyStr (fr_content_hash r)))
       (PyStr channel))
    (map row_of_file
         (filter (fun x => ~ delivered_to dels channel x /\
                           fr_content_hash x <> fr_content_hash r) recs)).
Proof. exact (get_pendings_after_delivery recs dels channel r). Qed.

(* ================================================================== *)
(** * The order of pending files, in numbers *)
(* ================================================================== *)

Lemma uint_value_cons (d : Decimal.uint) :
  d <> Decimal.Nil ->
  (Pos.of_uint d = DecimalPos.Unsigned.hd d * 10 ^ DecimalPos.Unsigned.usize (DecimalPos.Unsigned.tl d) + Pos.of_uint (DecimalPos.Unsigned.tl d))%N.
Proof.
  intros Hne. rewrite !DecimalPos.Unsigned.of_uint_alt.
  destruct d; [congruence|..]; unfold Decimal.rev at 1; simpl Decimal.revapp;
    rewrite DecimalPos.Unsigned.of_lu_revapp; simpl; lia.
Qed.

Lemma uint_value_bound (d : Decimal.uint) : (Pos.of_uint d < 10 ^ DecimalPos.Unsigned.usize d)%N.
Proof.
  induction d; [simpl; lia|..];
    rewrite uint_value_cons by discriminate; simpl DecimalPos.Unsigned.hd; simpl DecimalPos.Unsigned.tl; simpl DecimalPos.Unsigned.usize;
    rewrite N.pow_succ_r'; lia.
Qed.

Lemma uint_text_length (d : Decimal.uint) :
  String.length (NilEmpty.string_of_uint d) = N.to_nat (DecimalPos.Unsigned.usize d).
Proof.
  induction d; simpl; [reflexivity|..]; rewrite IHd; lia.
Qed.

Lemma N_compare_digits (k1 k2 p v1 v2 : N) :
  (v1 < p)%N -> (v2 < p)%N ->
  ((k1 * p + v1) ?= (k2 * p + v2))%N =
  match (k1 ?= k2)%N with Eq => (v1 ?= v2)%N | c => c end.
Proof.
  intros H1 H2. destruct (N.compare_spec k1 k2) as [->|Hk|Hk].
  - destruct (N.compare_spec v1 v2) as [->|Hv|Hv].
    + apply N.compare_refl.
    + apply N.compare_lt_iff. lia.
    + apply N.compare_gt_iff. lia.
  - apply N.compare_lt_iff. nia.
  - apply N.compare_gt_iff. nia.
Qed.

Lemma uint_text_compare (d1 d2 : Decimal.uint) :
  DecimalPos.Unsigned.usize d1 = DecimalPos.Unsigned.usize d2 ->
  String.compare (NilEmpty.string_of_uint d1) (NilEmpty.string_of_uint d2) =
  (Pos.of_uint d1 ?= Pos.of_uint d2)%N.
Proof.
  revert d2. induction d1; intros d2 Hsize;
    destruct d2; simpl in Hsize; try lia; try reflexivity;
    apply N.succ_inj in Hsize;
    match goal with |- _ = N.compare (Pos.of_uint ?a) (Pos.of_uint ?b) =>
      rewrite (uint_value_cons a), (uint_value_cons b) by discriminate
    end;
    simpl DecimalPos.Unsigned.hd; simpl DecimalPos.Unsigned.tl; rewrite <- Hsize;
    rewrite (N_compare_digits _ _ _ _ _ (uint_value_bound d1))
      by (rewrite Hsize; apply uint_value_bound);
    rewrite <- (IHd1 d2 Hsize); reflexivity.
Qed.

(** The decimal text of a natural number. *)
Lemma decimal_nonneg (z : Z) :
  (0 <= z)%Z -> decimal z = NilEmpty.string_of_uint (N.to_uint (Z.to_N z)).
Proof.
  intros Hz. unfold decimal. destruct z as [|p|p]; [reflexivity| |lia].
  simpl. destruct (Pos.to_uint p) eqn:E; try reflexivity.
  exfalso. exact (DecimalPos.Unsigned.to_uint_nonnil p E).
Qed.

(** Between the decimal texts of two natural numbers with the same
    number of digits, the byte order is the order of the numbers. *)
Lemma decimal_leb_same_width (a b : Z) :
  (0 <= a)%Z -> (0 <= b)%Z ->
  String.length (decimal a) = String.length (decimal b) ->
  String.leb (decimal a) (decimal b) = (a <=? b)%Z.
Proof.
  intros Ha Hb Hlen. rewrite !decimal_nonneg in * by assumption.
  rewrite !uint_text_length in Hlen. apply N2Nat.inj in Hlen.
  unfold String.leb. rewrite (uint_text_compare _ _ Hlen).
  change (Pos.of_uint (N.to_uint (Z.to_N a))) with (N.of_uint (N.to_uint (Z.to_N a))).
  change (Pos.of_uint (N.to_uint (Z.to_N b))) with (N.of_uint (N.to_uint (Z.to_N b))).
  rewrite !DecimalN.Unsigned.of_to.
  destruct (N.compare_spec (Z.to_N a) (Z.to_N b)) as [E|E|E];
    symmetry; [apply Z.leb_le | apply Z.leb_le | apply Z.leb_gt]; lia.
Qed.

Lemma insert_by_map {A B} (f : A -> B) (key : B -> cell) (x : A) (l : list A) :
  insert_by key (f x) (map f l) = map f (insert_by (fun a => key (f a)) x l).
Proof.
  induction l as [|y l IH]; [reflexivity|]. simpl.
  destruct (cell_leb (key (f x)) (key (f y))); [reflexivity|]. simpl. rewrite IH. reflexivity.
Qed.

Lemma order_by_map {A B} (f : A -> B) (key : B -> cell) (l : list A) :
  order_by key (map f l) = map f (order_by (fun a => key (f a)) l).
Proof.
  induction l as [|x l IH]; [reflexivity|]. unfold order_by in *. simpl.
  rewrite IH, insert_by_map. reflexivity.
Qed.

Lemma Sorted_on {A} (R R' : A -> A -> Prop) (P : A -> Prop) (l : list A) :
  (forall a b, P a -> P b -> R a b -> R' a b) ->
  Forall P l -> Sorted R l -> Sorted R' l.
Proof.
  intros Himp Hall Hs. induction Hs as [|x l Hs IH Hhd]; [constructor|].
  inversion Hall as [|? ? Hx Hl]; subst. constructor; [apply IH, Hl|].
  destruct Hhd as [|y l Hxy]; constructor.
  inversion Hl; subst. apply Himp; assumption.
Qed.

(** X22.  When the timestamps of the stored records are natural numbers
    with the same number of decimal digits (as the epoch seconds from
    September 2001 to November 2286 are), the pending files of a channel
    come out in ascending order of their timestamps: oldest first. *)
Theorem get_pendings_chronological (recs : list FileRecord) (dels : list DeliveryRecord)
    (channel : string) (width : nat) :
  Forall (fun r => (0 <= fr_last_modified r)%Z /\
                   String.length (decimal (fr_last_modified r)) = width) recs ->
  exists rs,
    TelegramBot.get_pendings (store_of recs dels) (PyStr channel) = map row_of_file rs /\
    Permutation rs (filter (fun r => ~ delivered_to dels channel r) recs) /\
    Sorted (fun r1 r2 => (fr_last_modified r1 <= fr_last_modified r2)%Z) rs.
Proof.
  intros Hwidth.
  set (und := filter (fun r => ~ delivered_to dels channel r) recs).
  set (key := fun r : FileRecord => f_last_modified (row_of_file r)).
  exists (order_by key und). split; [|split].
  - unfold TelegramBot.get_pendings. rewrite pending_rows.
    destruct (store_of_tables recs dels) as [-> ->].
    rewrite (filter_rows _ (fun r => ~ delivered_to dels channel r) recs)
      by (intros r; apply not_pending_typed).
    exact (order_by_map row_of_file f_last_modified _).
  - apply order_by_perm.
  - apply (Sorted_on (key_le key) _
             (fun r => (0 <= fr_last_modified r)%Z /\
                       String.length (decimal (fr_last_modified r)) = width)).
    + intros a b [Ha Hla] [Hb Hlb] Hab. unfold key_le, key in Hab. simpl in Hab.
      rewrite decimal_leb_same_width in Hab by (try assumption; congruence).
      apply Z.leb_le, Hab.
    + apply Forall_forall. intros r Hr. apply list_elem_of_In in Hr.
      apply (Permutation_in _ (order_by_perm key und)) in Hr.
      apply list_elem_of_In, list_elem_of_filter in Hr as [_ Hr].
      rewrite Forall_forall in Hwidth. apply Hwidth, Hr.
    + apply order_by_sorted.
Qed.

Lemma get_pendings_chronological_witness :
  exists rs,
    TelegramBot.get_pendings (store_of [Sample.file_b; Sample.file_a] []) (PyStr "@channel") =
      map row_of_file rs /\
    Sorted (fun r1 r2 => (fr_last_modified r1 <= fr_last_modified r2)%Z) rs.
Proof.
  destruct (get_pendings_chronological [Sample.file_b; Sample.file_a] [] "@channel" 10)
    as (rs & E & _ & Hs).
  - repeat constructor; vm_compute; congruence.
  - exists rs. split; assumption.
Defined.

(* ================================================================== *)
(** * Where a download is stored and where it is looked up *)
(* ================================================================== *)

Section StoredAndFound.

Context `{Platform}.

(** X23.  A question archive that [download] stored under a year is
    found again when its message is prepared: when the link is classified
    as a question, the whole link shows that same year, and joining the
    directory and the file name in two steps or in one gives the same path,
    [get_file_path_from_link_info] returns the very path [download] wrote
    to, provided the file is on disk. *)
Theorem downloaded_question_is_found (link year : string) (w : world) :
  let info := fst (get_info_from_link link) in
  let file_name := path_name (url_path link) in
  let written := path_join (path_join data_dir (year +:+ "/questions"))
                           (local_file_name link None) in
  info !! "type" = Some "question" ->
  get_year_from_txt link = Some year ->
  path_join (path_join data_dir (year +:+ "/questions")) file_name =
    path_join data_dir (year +:+ "/questions/" +:+ file_name) ->
  path_exists (w_fs w) written = true ->
  get_file_path_from_link_info info w = (Returns (Some written), w).
Proof.
  intros info file_name written Hty Hyear Hjoin Hex.
  destruct (info_link_year_keys link) as (Hlink & Hy & _). fold info in Hlink, Hy.
  rewrite Hyear in Hy.
  rewrite get_file_path_run, Hlink, Hy, Hty. cbn [String.eqb Ascii.eqb Bool.eqb].
  unfold path_lookup_result. fold file_name. rewrite <- Hjoin.
  change (path_join (path_join data_dir (year +:+ "/questions")) file_name) with written.
  rewrite Hex. reflexivity.
Qed.

(** X24.  A result sheet that [download] stored under a year and a
    country is found again when its message is prepared, provided the link
    is classified as a result, the link shows that same year and that same
    country, the country is not empty, and joining the directory and the
    file name in two steps or in one gives the same path. *)
Theorem downloaded_result_is_found (link year country : string) (w : world) :
  let info := fst (get_info_from_link link) in
  let file_name := country +:+ "_" +:+ path_name (url_path link) in
  let written := path_join (path_join data_dir (year +:+ "/results"))
                           (local_file_name link (Some country)) in
  info !! "type" = Some "result" ->
  info !! "country" = Some country ->
  country <> "" ->
  get_year_from_txt link = Some year ->
  path_join (path_join data_dir (year +:+ "/results")) file_name =
    path_join data_dir (year +:+ "/results/" +:+ file_name) ->
  path_exists (w_fs w) written = true ->
  get_file_path_from_link_info info w = (Returns (Some written), w).
Proof.
  intros info file_name written Hty Hcountry Hne Hyear Hjoin Hex.
  destruct (info_link_year_keys link) as (Hlink & Hy & _). fold info in Hlink, Hy.
  rewrite Hyear in Hy.
  assert (Hname : local_file_name link (Some country) = file_name).
  { unfold local_file_name. destruct country; [congruence | reflexivity]. }
  rewrite get_file_path_run, Hlink, Hy, Hty, Hcountry. cbn [String.eqb Ascii.eqb Bool.eqb].
  unfold path_lookup_result. fold file_name. rewrite <- Hjoin.
  unfold written in Hex |- *. rewrite Hname in Hex |- *. rewrite Hex. reflexivity.
Qed.

End StoredAndFound.

Lemma downloaded_question_is_found_witness :
  let P := Sample.all_sends_return in
  let w := Sample.initial_world P [Sample.path_a] empty_db in
  fst (@get_file_path_from_link_info P (fst (get_info_from_link (fr_link Sample.file_a))) w) =
  Returns (Some Sample.path_a).
Proof.
  intros P w.
  rewrite (@downloaded_question_is_found P (fr_link Sample.file_a) "2021" w);
    vm_compute; reflexivity.
Defined.

Lemma downloaded_result_is_found_witness :
  let P := Sample.all_sends_return in
  let link := "https://itpec.org/all-passers-information/japan/2021A_FE.pdf" in
  let w := Sample.initial_world P ["data/2021/results/japan_2021A_FE.pdf"] empty_db in
  fst (@get_file_path_from_link_info P (fst (get_info_from_link link)) w) =
  Returns (Some "data/2021/results/japan_2021A_FE.pdf").
Proof.
  intros P link w.
  rewrite (@downloaded_result_is_found P link "2021" "japan" w);
    try (vm_compute; reflexivity). discriminate.
Defined.

(* ================================================================== *)
(** * Warnings of the classification, and downloading twice *)
(* ================================================================== *)

(** X25.  [get_info_from_link] warns exactly about what it could not
    find: about the type when no type is recorded, about the year when no
    year is recorded, and about the country when no country is recorded
    and the link does not contain [pastexamqa]; it logs nothing else. *)
Theorem get_info_from_link_warnings (link : string) :
  let info := fst (get_info_from_link link) in
  let warnings := snd (get_info_from_link link) in
  (In (WarnNoQuestionType link) warnings <-> info !! "type" = None) /\
  (In (WarnNoYear link) warnings <-> info !! "year" = None) /\
  (In (WarnNoCountry link) warnings <->
     info !! "country" = None /\ ~ contains "pastexamqa" link) /\
  (forall e, In e warnings ->
             e = WarnNoQuestionType link \/ e = WarnNoYear link \/ e = WarnNoCountry link).
Proof.
  unfold get_info_from_link.
  assert (Hin : str_in "pastexamqa" link = true <-> contains "pastexamqa" link)
    by apply str_in_contains.
  destruct (search (re_path_segment "pastexamqa") link) as [seg|];
    [|destruct (search (re_exam_code Ascii.eqb) link) as [code|]];
    destruct (search (re_path_segment "all-passers-information") link) as [country|];
    destruct (str_in "pastexamqa" link) eqn:Es;
    destruct (truthy (get_year_from_txt link));
    cbn [fst snd negb app In];
    (split; [|split; [|split]]);
    try (intros e He; simpl in He; intuition congruence);
    simplify_map_eq;
    (split; [intros Hw | intros Hw]);
    repeat match goal with
    | Hx : _ \/ _ |- _ => destruct Hx
    | Hx : _ /\ _ |- _ => destruct Hx
    | Hx : False |- _ => destruct Hx
    end;
    try discriminate; try reflexivity; try tauto;
    try (split; [reflexivity|]; intros Hc; apply Hin in Hc; discriminate);
    try (exfalso; match goal with Hn : ~ contains _ _ |- _ => apply Hn, Hin; reflexivity end);
    auto.
Qed.

Section DownloadTwice.

Context `{Platform}.

Lemma download_skip_run (path_suffix link year_month : string)
    (file_name_suffix : option string) (w : world) (fs' : FS) :
  mkdir_parents (path_join data_dir path_suffix) (w_fs w) = Returns fs' ->
  path_exists fs' (path_join (path_join data_dir path_suffix)
                             (local_file_name link file_name_suffix)) = true ->
  download path_suffix link year_month file_name_suffix false w =
  (Returns tt,
   World fs' (w_db w) (w_requests w) (w_sends w)
         (w_log w ++ [InfoAlreadyDownloadedSkipping (local_file_name link file_name_suffix)])
         (w_slept w)).
Proof.
  intros Hmk Hex. unfold download, act_bind, on_fs, exists_on_disk.
  rewrite Hmk. cbn [w_fs]. rewrite Hex. reflexivity.
Qed.

(** X26.  Downloading the same link twice without [refresh_file] adds
    one file record and issues one GET request, not two: once the first
    call has written the file (and the file is then on disk), the second
    call only logs that it skips it. *)
Theorem download_twice_adds_one_record
    (path_suffix link year_month : string) (file_name_suffix : option string)
    (w : world) (fs1 fs2 fs3 : FS)
    (resp : response) (header : string) (timestamp : Z) :
  let file_name := local_file_name link file_name_suffix in
  let directory := path_join data_dir path_suffix in
  mkdir_parents directory (w_fs w) = Returns fs1 ->
  path_exists fs1 (path_join directory file_name) = false ->
  http_request (length (w_requests w)) GET link = Returns resp ->
  status_ok resp = true ->
  last_modified_header resp = Some header ->
  parsedate_timestamp header = Returns timestamp ->
  write_bytes (path_join directory file_name) (content resp) fs1 = Returns fs2 ->
  mkdir_parents directory fs2 = Returns fs3 ->
  path_exists fs3 (path_join directory file_name) = true ->
  act_bind (download path_suffix link year_month file_name_suffix false)
           (fun _ => download path_suffix link year_month file_name_suffix false) w =
  (Returns tt,
   World fs3
         (Database (files (w_db w) ++
                    [downloaded_row link year_month timestamp (content resp)])
                   (telegram_msgs (w_db w)))
         (w_requests w ++ [(GET, link)]) (w_sends w)
         (w_log w ++ [InfoDownloaded file_name; InfoAlreadyDownloadedSkipping file_name])
         (w_slept w)).
Proof.
  intros file_name directory Hmk1 Hno Hreq Hok Hhdr Hts Hwr Hmk2 Hex.
  unfold act_bind.
  rewrite (download_fetch_run path_suffix link year_month file_name_suffix false w
             fs1 fs2 resp header timestamp Hmk1 Hno Hreq Hok Hhdr Hts Hwr).
  erewrite download_skip_run; [ | cbn [w_fs]; exact Hmk2 | exact Hex ].
  cbn [w_db w_requests w_sends w_log w_slept]. rewrite <- app_assoc. reflexivity.
Qed.

End DownloadTwice.

Lemma download_twice_adds_one_record_witness :
  let P := Sample.all_sends_return in
  let w := Sample.initial_world P [] empty_db in
  exists w',
    @act_bind P _ _
      (@download P "2021/questions" (fr_link Sample.file_a) "2021 October" None false)
      (fun _ => @download P "2021/questions" (fr_link Sample.file_a) "2021 October" None false)
      w = (Returns tt, w') /\
    length (files (w_db w')) = 1%nat /\ w_requests w' = [(GET, fr_link Sample.file_a)].
Proof.
  intros P w. eexists. split.
  - apply (@download_twice_adds_one_record P "2021/questions" (fr_link Sample.file_a)
             "2021 October" None w ["data/2021/questions"]
             [Sample.path_a; "data/2021/questions"] [Sample.path_a; "data/2021/questions"]
             (Response true (Some "Tue, 14 Nov 2023 22:13:20 GMT") "PK")
             "Tue, 14 Nov 2023 22:13:20 GMT" 1700000000%Z);
      vm_compute; reflexivity.
  - split; reflexivity.
Defined.
